(** * Course search engine (courses.py)

    The query composer [find_courses], its validator
    [assert_valid_input], the result shaper [get_header] and the
    walking time [compute_time_between] over [haversine], embedded in
    Rocq.

    - Python values are an inductive type; a dict is an association
      list in insertion order, the order in which the loop of
      [find_courses] visits it; exceptions are the left summand of a
      sum type.
    - Query text is kept character for character, so that placeholders
      can be counted in it and clauses found in it.
    - The module-level connection is a state threaded through
      [create_function] and [execute]; it records every statement handed
      to [execute].
    - The store answers the two statements the module writes: the gps
      lookup, and the composed query, which it reads back from the text
      (select list, joins, predicates), binds by position and evaluates
      over the five relations.  As in SQLite, tables are bags of rows,
      [IN ()] is accepted and false, DISTINCT compares numbers by value,
      and a statement holds no more placeholders than the connection
      allows.  What SQL leaves to the engine (the order in which rows
      are visited, and the rows on which a term of the WHERE clause is
      evaluated although another term already excludes them) is a
      parameter of the store.
    - [find_courses] takes the walking-time function it registers as an
      argument.  [compute_time_between] itself is binary64 arithmetic
      over the functions of the C library, which are parameters. *)

From Stdlib Require Import String Ascii List ZArith Bool Lia SpecFloat.
Import ListNotations.
Open Scope string_scope.
Open Scope Z_scope.

(* ===================================================================== *)
(** ** Python values *)
(* ===================================================================== *)

(** The values a criteria dictionary can hold.  A float is kept as its
    64-bit pattern. *)
#[warnings="-register-all"]
Inductive value : Type :=
| PyNone
| PyBool (b : bool)
| PyInt (n : Z)
| PyFloat (bits : Z)
| PyStr (s : string)
| PyList (items : list value)
| PyTuple (items : list value).

(** The exceptions the module can raise. [sqlite3_Error] stands for the
    exception classes of the sqlite3 module. *)
Inductive exn : Type :=
| AssertionError
| TypeError
| KeyError
| IndexError
| OverflowError
| ValueError
| sqlite3_Error.

Definition result (A : Type) : Type := (exn + A)%type.

Definition ok {A} (a : A) : result A := inr a.
Definition raise {A} (e : exn) : result A := inl e.

Definition rbind {A B} (m : result A) (k : A -> result B) : result B :=
  match m with
  | inl e => inl e
  | inr a => k a
  end.

Declare Scope res_scope.
Delimit Scope res_scope with res.
Notation "m ;;; k" := (rbind m (fun _ => k))
  (at level 61, right associativity) : res_scope.

(** [isinstance(v, str)] *)
Definition isinstance_str (v : value) : bool :=
  match v with PyStr _ => true | _ => false end.

(** [isinstance(v, int)]: [bool] is a subclass of [int]. *)
Definition isinstance_int (v : value) : bool :=
  match v with PyInt _ | PyBool _ => true | _ => false end.

(** [isinstance(v, (list, tuple))] *)
Definition isinstance_list_tuple (v : value) : bool :=
  match v with PyList _ | PyTuple _ => true | _ => false end.

(** [type(v) == list] *)
Definition type_is_list (v : value) : bool :=
  match v with PyList _ => true | _ => false end.

(** Truth value of an object, as [assert v] tests it. *)
Definition truthy (v : value) : bool :=
  match v with
  | PyNone => false
  | PyBool b => b
  | PyInt n => negb (n =? 0)
  | PyFloat bits => negb (Z.land bits (Z.ones 63) =? 0)
  | PyStr s => negb (String.eqb s "")
  | PyList l | PyTuple l => match l with [] => false | _ => true end
  end.

(** The integer an [int] (or [bool]) object denotes. *)
Definition int_value (v : value) : option Z :=
  match v with
  | PyInt n => Some n
  | PyBool b => Some (if b then 1 else 0)
  | _ => None
  end.

(** The elements iterated by [for s in v] for a list or a tuple. *)
Definition elements (v : value) : list value :=
  match v with
  | PyList l | PyTuple l => l
  | _ => []
  end.

(* ===================================================================== *)
(** ** binary64 *)
(* ===================================================================== *)

Definition prec : Z := 53.
Definition emax : Z := 1024.

(** The float a 64-bit pattern encodes: one sign bit, eleven exponent
    bits, fifty-two fraction bits. *)
Definition float_of_bits (bits : Z) : spec_float :=
  let sign := Z.testbit bits 63 in
  let e := Z.land (Z.shiftr bits 52) 2047 in
  let f := Z.land bits (Z.ones 52) in
  if e =? 2047 then
    if f =? 0 then S754_infinity sign else S754_nan
  else if e =? 0 then
    match f with
    | Z.pos m => S754_finite sign m (- 1074)
    | _ => S754_zero sign
    end
  else
    match 2 ^ 52 + f with
    | Z.pos m => S754_finite sign m (e - 1075)
    | _ => S754_nan
    end.

(** [-2**63 <= n < 2**63] *)
Definition int64 (n : Z) : bool := (- 2 ^ 63 <=? n) && (n <? 2 ^ 63).

(* ===================================================================== *)
(** ** Dictionaries *)
(* ===================================================================== *)

Definition dict : Type := list (string * value).

Definition keys (d : dict) : list string := map fst d.

Fixpoint lookup {V : Type} (k : string) (d : list (string * V)) : option V :=
  match d with
  | [] => None
  | (k', v) :: d' => if String.eqb k k' then Some v else lookup k d'
  end.

(** [d.get(k, default)] *)
Definition get (d : dict) (k : string) (default : value) : value :=
  match lookup k d with
  | Some v => v
  | None => default
  end.

(** [k in d] *)
Definition contains_key (k : string) (d : dict) : bool :=
  match lookup k d with
  | Some _ => true
  | None => false
  end.

(** Membership in a collection of key names. *)
Definition mem (k : string) (l : list string) : bool :=
  existsb (String.eqb k) l.

(** [set(a).issubset(b)] *)
Definition issubset (a b : list string) : bool :=
  forallb (fun k => mem k b) a.

(** A dict holds each key once. *)
Definition wf_dict (d : dict) : Prop := NoDup (keys d).

(* ===================================================================== *)
(** ** assert_valid_input (lines 132-178) *)
(* ===================================================================== *)

Definition assert_ (b : bool) : result unit :=
  if b then ok tt else raise AssertionError.

Definition acceptable_keys : list string :=
  ["time_start"; "time_end"; "enrollment"; "dept";
   "terms"; "day"; "building_code"; "walking_time"].

(** [all([isinstance(s, str) for s in l])] *)
Definition all_str (l : list value) : bool := forallb isinstance_str l.

(** [all([isinstance(i, int) for i in l])] *)
Definition all_int (l : list value) : bool := forallb isinstance_int l.

(** [assert v >= 0], reached only after [isinstance(v, int)] holds. *)
Definition assert_ge0 (v : value) : result unit :=
  match int_value v with
  | Some n => assert_ (0 <=? n)
  | None => raise TypeError
  end.

(** [assert v < 2400], reached only after [isinstance(v, int)] holds. *)
Definition assert_lt2400 (v : value) : result unit :=
  match int_value v with
  | Some n => assert_ (n <? 2400)
  | None => raise TypeError
  end.

(** [assert enrollment_val[0] <= enrollment_val[1]], reached only for a
    sequence of two ints. *)
Definition assert_lo_le_hi (l : list value) : result unit :=
  match l with
  | lo :: hi :: _ =>
      match int_value lo, int_value hi with
      | Some a, Some b => assert_ (a <=? b)
      | _, _ => raise TypeError
      end
  | _ => raise IndexError
  end.

(** The assertion of line 138, [isinstance(args_from_ui, dict)], holds by
    the type of the argument.  Every other assertion is kept, in order. *)
Definition assert_valid_input (args_from_ui : dict) : result unit :=
  (assert_ (issubset (keys args_from_ui) acceptable_keys) ;;;
   let has_building :=
     contains_key "building_code" args_from_ui &&
     contains_key "walking_time" args_from_ui in
   let does_not_have_building :=
     negb (contains_key "building_code" args_from_ui) &&
     negb (contains_key "walking_time" args_from_ui) in
   assert_ (has_building || does_not_have_building) ;;;
   assert_ (isinstance_str (get args_from_ui "building_code" (PyStr ""))) ;;;
   assert_ (isinstance_int (get args_from_ui "walking_time" (PyInt 0))) ;;;
   assert_ (isinstance_list_tuple (get args_from_ui "day" (PyList []))) ;;;
   assert_ (all_str (elements (get args_from_ui "day" (PyList [])))) ;;;
   assert_ (isinstance_str (get args_from_ui "dept" (PyStr ""))) ;;;
   let terms := get args_from_ui "terms" (PyList [PyStr ""]) in
   assert_ (truthy terms) ;;;
   assert_ (isinstance_list_tuple terms) ;;;
   assert_ (all_str (elements terms)) ;;;
   assert_ (isinstance_int (get args_from_ui "time_start" (PyInt 0))) ;;;
   assert_ge0 (get args_from_ui "time_start" (PyInt 0)) ;;;
   assert_ (isinstance_int (get args_from_ui "time_end" (PyInt 0))) ;;;
   assert_lt2400 (get args_from_ui "time_end" (PyInt 0)) ;;;
   let enrollment_val := get args_from_ui "enrollment" (PyList [PyInt 0; PyInt 0]) in
   assert_ (isinstance_list_tuple enrollment_val) ;;;
   assert_ (Nat.eqb (List.length (elements enrollment_val)) 2) ;;;
   assert_ (all_int (elements enrollment_val)) ;;;
   assert_lo_le_hi (elements enrollment_val))%res.

(** *** The constraints of the validator as the specification lists them *)

(** "[k], if present, satisfies [P]" is violated when [k] is present with
    a value that fails [P]. *)
Definition present_but_not (k : string) (P : value -> bool) (d : dict) : bool :=
  match lookup k d with
  | Some v => negb (P v)
  | None => false
  end.

Definition is_string : value -> bool := isinstance_str.

(** a sequence (list or tuple) of strings, possibly empty *)
Definition is_seq_of_strings (v : value) : bool :=
  match v with
  | PyList l | PyTuple l => forallb is_string l
  | _ => false
  end.

(** a non-empty sequence of strings *)
Definition is_nonempty_seq_of_strings (v : value) : bool :=
  match v with
  | PyList l | PyTuple l =>
      match l with [] => false | _ => forallb is_string l end
  | _ => false
  end.

Definition is_integer : value -> bool := isinstance_int.

(** a non-negative integer *)
Definition is_nonneg_integer (v : value) : bool :=
  match int_value v with
  | Some n => 0 <=? n
  | None => false
  end.

(** an integer strictly less than 2400 *)
Definition is_integer_below_2400 (v : value) : bool :=
  match int_value v with
  | Some n => n <? 2400
  | None => false
  end.

(** a 2-element sequence of integers [lo, hi] with lo <= hi *)
Definition is_enrollment_pair (v : value) : bool :=
  match v with
  | PyList [lo; hi] | PyTuple [lo; hi] =>
      match int_value lo, int_value hi with
      | Some a, Some b => a <=? b
      | _, _ => false
      end
  | _ => false
  end.

Definition both_or_neither (d : dict) : bool :=
  Bool.eqb (contains_key "building_code" d) (contains_key "walking_time" d).

(** The constraints the claim enumerates: no type constraint on
    [walking_time]. *)
Definition violates_listed_constraints (d : dict) : bool :=
  negb (issubset (keys d) acceptable_keys)
  || negb (both_or_neither d)
  || present_but_not "building_code" is_string d
  || present_but_not "dept" is_string d
  || present_but_not "day" is_seq_of_strings d
  || present_but_not "terms" is_nonempty_seq_of_strings d
  || present_but_not "time_start" is_nonneg_integer d
  || present_but_not "time_end" is_integer_below_2400 d
  || present_but_not "enrollment" is_enrollment_pair d.

(** The same list with the constraint the code also enforces:
    [walking_time], if present, is an integer. *)
Definition violates_constraints (d : dict) : bool :=
  violates_listed_constraints d
  || present_but_not "walking_time" is_integer d.

(** What a validated dictionary guarantees, constraint by constraint. *)
Record validated (d : dict) : Prop := {
  v_keys : issubset (keys d) acceptable_keys = true;
  v_both : contains_key "building_code" d = contains_key "walking_time" d;
  v_building : forall v, lookup "building_code" d = Some v -> isinstance_str v = true;
  v_walking : forall v, lookup "walking_time" d = Some v -> isinstance_int v = true;
  v_day : forall v, lookup "day" d = Some v -> is_seq_of_strings v = true;
  v_dept : forall v, lookup "dept" d = Some v -> isinstance_str v = true;
  v_terms : forall v, lookup "terms" d = Some v -> is_nonempty_seq_of_strings v = true;
  v_time_start : forall v, lookup "time_start" d = Some v -> is_nonneg_integer v = true;
  v_time_end : forall v, lookup "time_end" d = Some v -> is_integer_below_2400 v = true;
  v_enrollment : forall v, lookup "enrollment" d = Some v -> is_enrollment_pair v = true
}.


(* ===================================================================== *)
(** ** Strings *)
(* ===================================================================== *)

(** [s.find(c)] for a one-character needle: the index of the first
    occurrence, or -1. *)
Fixpoint find (s : string) (c : ascii) : Z :=
  match s with
  | EmptyString => -1
  | String a s' =>
      if Ascii.eqb a c then 0
      else let r := find s' c in if r <? 0 then -1 else r + 1
  end.

(** [c in s] for a one-character needle. *)
Fixpoint occurs (c : ascii) (s : string) : bool :=
  match s with
  | EmptyString => false
  | String a s' => Ascii.eqb a c || occurs c s'
  end.

Fixpoint drop (n : nat) (s : string) : string :=
  match n, s with
  | O, _ => s
  | S n', String _ s' => drop n' s'
  | S _, EmptyString => EmptyString
  end.

(** [s[i:]] for a start index [i >= 0]. *)
Definition slice_from (s : string) (i : Z) : string := drop (Z.to_nat i) s.

(** [sep.join(l)] *)
Fixpoint join (sep : string) (l : list string) : string :=
  match l with
  | [] => ""
  | [x] => x
  | x :: l' => x ++ sep ++ join sep l'
  end.

(** [template.format(arg)] for a template with one replacement field. *)
Fixpoint format (template arg : string) : string :=
  match template with
  | String "{" (String "}" rest) => arg ++ rest
  | String a rest => String a (format rest arg)
  | EmptyString => EmptyString
  end.

(** [len(v)]: defined for sized objects only. *)
Definition len (v : value) : result nat :=
  match v with
  | PyList l | PyTuple l => ok (List.length l)
  | PyStr s => ok (String.length s)
  | _ => raise TypeError
  end.

(** The number of placeholder tokens in a piece of query text. *)
Fixpoint count_placeholders (s : string) : nat :=
  match s with
  | EmptyString => O
  | String a s' =>
      if Ascii.eqb a "?" then S (count_placeholders s')
      else count_placeholders s'
  end.

(** [needle in s] for strings: [needle] occurs somewhere in [s]. *)
Fixpoint is_prefix (p s : string) : bool :=
  match p, s with
  | EmptyString, _ => true
  | String a p', String b s' => Ascii.eqb a b && is_prefix p' s'
  | String _ _, EmptyString => false
  end.

Fixpoint substring_of (needle s : string) : bool :=
  is_prefix needle s ||
  match s with
  | EmptyString => false
  | String _ s' => substring_of needle s'
  end.

(* ===================================================================== *)
(** ** get_header (lines 214-226) *)
(* ===================================================================== *)

(** One entry of [cursor.description]: sqlite3 fills only the name, the
    first component ([i[0]]). *)
Record descriptor : Type := { d_name : string }.

Definition row : Type := list value.

(** The cursor after [execute]: column metadata and the result set. *)
Record cursor : Type := {
  description : list descriptor;
  fetchall : list row
}.

(** Lines 222-223: [if "." in s: s = s[s.find(".")+1:]] *)
Definition unqualified (s : string) : string :=
  if occurs "." s then slice_from s (find s "." + 1) else s.

Fixpoint get_header_loop (description : list descriptor) (header : list string)
  : list string :=
  match description with
  | [] => header
  | i :: rest =>
      let s := d_name i in
      let s := unqualified s in
      get_header_loop rest (header ++ [s])
  end.

Definition get_header (c : cursor) : list string :=
  get_header_loop (description c) [].

(* ===================================================================== *)
(** ** The query text of find_courses (lines 47-99) *)
(* ===================================================================== *)

(** [select] (line 47) *)
Definition select : string :=
"
             SELECT DISTINCT
             courses.dept,
             courses.course_num,
             courses.title
             ".

(** [add_select1] (line 53) *)
Definition add_select1 : string :=
"
         ,
         sections.section_num,
         meeting_patterns.day,
         meeting_patterns.time_start,
         meeting_patterns.time_end,
         sections.enrollment
         ".

(** [add_select2] (line 62) *)
Definition add_select2 : string :=
"
         ,
         sections.building_code,
         time_between(gps.lon, gps.lat, ?, ?) AS walking_time

         ".

(** [frm] (line 69) *)
Definition frm : string :=
"
        FROM courses
        ".

(** [add_joins] (line 73) *)
Definition add_joins : string :=
"
        JOIN sections on courses.course_id = sections.course_id
        JOIN meeting_patterns ON sections.meeting_pattern_id = meeting_patterns.meeting_pattern_id
        JOIN gps on gps.building_code = sections.building_code
        ".

(** [where] (line 79; [where] is a keyword here) *)
Definition where_ : string :=
"
        WHERE 1 = 1
        ".

(** [where_terms] (line 83, with its replacement field) *)
Definition where_terms : string :=
"
        AND courses.course_id IN
        (SELECT course_id FROM catalog_index
        WHERE word IN ({})
        GROUP BY course_id
        HAVING count(*) = ?)
        ".

(** ['?'] * n joined by [', '] *)
Definition placeholders (n : nat) : string := join ", " (repeat "?" n).

(** [where_dict] (lines 91-99): built before the loop; both [len] calls
    are evaluated whatever keys are present. *)
Definition where_dict (args_from_ui : dict) : result (list (string * string)) :=
  rbind (len (get args_from_ui "day" (PyList []))) (fun n_day =>
  rbind (len (get args_from_ui "terms" (PyList []))) (fun n_terms =>
  ok [ ("time_start", " AND meeting_patterns.time_start >= ?");
       ("time_end", " AND meeting_patterns.time_end <= ?");
       ("day", format " AND meeting_patterns.day IN ({})" (placeholders n_day));
       ("dept", " AND courses.dept = ?");
       ("enrollment", " AND sections.enrollment BETWEEN ? AND ?");
       ("terms", format where_terms (placeholders n_terms));
       ("walking_time", " AND walking_time <= ?") ])).

Definition input_vars : list string :=
  ["enrollment"; "time_start"; "time_end"; "day"; "section_num";
   "walking_time"; "building_code"].

(** [len(set(args_from_ui.keys()) & input_vars) > 0] *)
Definition touches_input_vars (args_from_ui : dict) : bool :=
  (0 <? List.length (filter (fun k => mem k input_vars) (keys args_from_ui)))%nat.

(** [d[k]] *)
Definition getitem {V} (d : list (string * V)) (k : string) : result V :=
  match lookup k d with
  | Some v => ok v
  | None => raise KeyError
  end.

(** The loop of lines 114-122 over [args_from_ui.items()]. *)
Fixpoint where_loop (where_dict : list (string * string))
    (items : dict) (where_ : string) (args : list value)
  : result (string * list value) :=
  match items with
  | [] => ok (where_, args)
  | (k, v) :: rest =>
      if negb (String.eqb k "building_code") then
        rbind (getitem where_dict k) (fun fragment =>
        let where_ := where_ ++ fragment in
        let args :=
          if type_is_list v then
            let args := (args ++ elements v)%list in
            if String.eqb k "terms"
            then (args ++ [PyInt (Z.of_nat (List.length (elements v)))])%list
            else args
          else (args ++ [v])%list in
        where_loop where_dict rest where_ args)
      else where_loop where_dict rest where_ args
  end.

(* ===================================================================== *)
(** ** The store: the sqlite3 connection as find_courses uses it *)
(* ===================================================================== *)

(** SQLite storage classes exchanged with Python. *)
Inductive sqlval : Type :=
| Null
| Integer (n : Z)
| Real (bits : Z)
| Text (s : string).

(** Binding a Python object to a placeholder: sequences are not
    supported, and an int must fit 64 bits. *)
Definition adapt (v : value) : result sqlval :=
  match v with
  | PyNone => ok Null
  | PyBool b => ok (Integer (if b then 1 else 0))
  | PyInt n =>
      if (- 2 ^ 63 <=? n) && (n <? 2 ^ 63) then ok (Integer n)
      else raise OverflowError
  | PyFloat bits => ok (Real bits)
  | PyStr s => ok (Text s)
  | PyList _ | PyTuple _ => raise sqlite3_Error
  end.

Fixpoint adapt_all (params : list value) : result (list sqlval) :=
  match params with
  | [] => ok []
  | v :: rest =>
      rbind (adapt v) (fun x =>
      rbind (adapt_all rest) (fun xs => ok (x :: xs)))
  end.

(** A column value as Python receives it. *)
Definition to_python (x : sqlval) : value :=
  match x with
  | Null => PyNone
  | Integer n => PyInt n
  | Real bits => PyFloat bits
  | Text s => PyStr s
  end.

(** *** Values as DISTINCT compares them

    SQLite compares an INTEGER and a REAL by value, so that [1] and
    [1.0] are one value, as are [0.0] and [-0.0]; NULLs are not
    distinct from one another; text is compared byte by byte.  The key
    of a number is its value times [2^1074], an integer for every
    binary64 number.  SQLite stores no NaN. *)
Inductive sqlkey : Type :=
| KNull
| KNumber (scaled : Z)
| KInfinity (negative : bool)
| KNaN
| KText (s : string)
| KSequence.

Definition float_key (x : spec_float) : sqlkey :=
  match x with
  | S754_zero _ => KNumber 0
  | S754_infinity s => KInfinity s
  | S754_nan => KNaN
  | S754_finite s m e =>
      KNumber ((if s then - Z.pos m else Z.pos m) * 2 ^ (e + 1074))
  end.

Definition value_key (v : value) : sqlkey :=
  match v with
  | PyNone => KNull
  | PyBool b => KNumber ((if b then 1 else 0) * 2 ^ 1074)
  | PyInt n => KNumber (n * 2 ^ 1074)
  | PyFloat bits => float_key (float_of_bits bits)
  | PyStr s => KText s
  | PyList _ | PyTuple _ => KSequence
  end.

Definition sql_key (x : sqlval) : sqlkey := value_key (to_python x).

Definition sqlkey_eq_dec (a b : sqlkey) : {a = b} + {a <> b}.
Proof.
  decide equality;
    (apply Z.eq_dec || apply string_dec || apply Bool.bool_dec).
Defined.

(** Two rows are the same for DISTINCT. *)
Definition same_sqlrow (a b : list sqlval) : bool :=
  if list_eq_dec sqlkey_eq_dec (map sql_key a) (map sql_key b)
  then true else false.

(** DISTINCT: of the rows that are the same, the first one met stays. *)
Fixpoint distinct (rows : list (list sqlval)) : list (list sqlval) :=
  match rows with
  | [] => []
  | r :: rest =>
      r :: filter (fun r' => negb (same_sqlrow r r')) (distinct rest)
  end.

(** The relations of the store, with the columns the queries name. *)
Record course : Type := {
  course_id : Z;
  dept : string;
  course_num : sqlval;
  title : sqlval
}.

Record section : Type := {
  section_course_id : Z;
  section_num : sqlval;
  section_meeting_pattern_id : Z;
  enrollment : Z;
  section_building_code : string
}.

Record meeting_pattern : Type := {
  meeting_pattern_id : Z;
  day : string;
  time_start : Z;
  time_end : Z
}.

Record gps_row : Type := {
  gps_building_code : string;
  lon : sqlval;
  lat : sqlval
}.

Record index_entry : Type := {
  word : string;
  index_course_id : Z
}.

(** What SQL leaves to the engine.  Without ORDER BY the rows of the
    FROM clause are visited in an order of the engine's choosing:
    [rank] orders them, rows of equal rank staying in the order of the
    nested loops.  A term of the WHERE clause may be evaluated on a row
    that another term excludes: [eager] tells for which rows of gps the
    walking-time term is evaluated whether or not the row passes the
    other terms. *)
Record planner : Type := {
  rank : course -> option (section * meeting_pattern * gps_row) -> nat;
  eager : gps_row -> bool
}.

(** The store: the five relations, the greatest number of placeholders
    a statement may hold (SQLITE_LIMIT_VARIABLE_NUMBER, at least one),
    and the choices of its planner. *)
Record database : Type := {
  courses : list course;
  sections : list section;
  meeting_patterns : list meeting_pattern;
  gps : list gps_row;
  catalog_index : list index_entry;
  variable_limit : positive;
  plan : planner
}.

(** A scalar function registered on the connection. *)
Definition scalar : Type := list value -> result Z.

(** The connection: the data, the registered functions, and the
    statements handed to [execute] so far (oldest first). *)
Record connection : Type := {
  data : database;
  functions : list (string * (nat * scalar));
  statements : list (string * list value)
}.

(** *** Statements the store understands *)

(** The shapes of predicate the composer writes after [WHERE 1 = 1]. *)
Inductive pred : Type :=
| TimeStartGe
| TimeEndLe
| DayIn (n : nat)
| DeptEq
| EnrollmentBetween
| TermsAll (n : nat)
| WalkingTimeLe.

(** The select lists the composer writes. *)
Inductive select_list : Type :=
| CourseColumns
| SectionColumns
| WalkingColumns.

Record statement : Type := {
  st_select : select_list;
  st_joined : bool;
  st_preds : list pred
}.

Fixpoint strip_prefix (p s : string) : option string :=
  match p with
  | EmptyString => Some s
  | String a p' =>
      match s with
      | String b s' => if Ascii.eqb a b then strip_prefix p' s' else None
      | EmptyString => None
      end
  end.

(** The text of a template before and after its replacement field. *)
Fixpoint before_field (t : string) : string :=
  match t with
  | String "{" (String "}" _) => EmptyString
  | String a r => String a (before_field r)
  | EmptyString => EmptyString
  end.

Fixpoint after_field (t : string) : string :=
  match t with
  | String "{" (String "}" r) => r
  | String _ r => after_field r
  | EmptyString => EmptyString
  end.

(** A value list [?, ?, ..., ?]; SQLite also accepts the empty list. *)
Fixpoint more_marks (s : string) : nat * string :=
  match s with
  | String "," (String " " (String "?" s')) =>
      let (n, r) := more_marks s' in (S n, r)
  | _ => (O, s)
  end.

Definition marks (s : string) : nat * string :=
  match s with
  | String "?" s' => let (n, r) := more_marks s' in (S n, r)
  | _ => (O, s)
  end.

Definition parser : Type := string -> option (pred * string).

Definition literal (text : string) (p : pred) : parser :=
  fun s =>
    match strip_prefix text s with
    | Some r => Some (p, r)
    | None => None
    end.

Definition with_list (template : string) (mk : nat -> pred) : parser :=
  fun s =>
    match strip_prefix (before_field template) s with
    | Some s1 =>
        let (n, s2) := marks s1 in
        match strip_prefix (after_field template) s2 with
        | Some r => Some (mk n, r)
        | None => None
        end
    | None => None
    end.

Fixpoint first_of (alts : list parser) : parser :=
  fun s =>
    match alts with
    | [] => None
    | a :: alts' =>
        match a s with
        | Some r => Some r
        | None => first_of alts' s
        end
    end.

Definition day_template : string := " AND meeting_patterns.day IN ({})".

Definition parse_pred : parser :=
  first_of
    [ literal " AND meeting_patterns.time_start >= ?" TimeStartGe;
      literal " AND meeting_patterns.time_end <= ?" TimeEndLe;
      with_list day_template DayIn;
      literal " AND courses.dept = ?" DeptEq;
      literal " AND sections.enrollment BETWEEN ? AND ?" EnrollmentBetween;
      with_list where_terms TermsAll;
      literal " AND walking_time <= ?" WalkingTimeLe ].

Fixpoint parse_where (fuel : nat) (s : string) : option (list pred) :=
  match s with
  | EmptyString => Some []
  | String _ _ =>
      match fuel with
      | O => None
      | S fuel' =>
          match parse_pred s with
          | Some (p, r) =>
              match parse_where fuel' r with
              | Some ps => Some (p :: ps)
              | None => None
              end
          | None => None
          end
      end
  end.

(** Reading a composed query back: select list, joins, predicates. *)
Definition parse_query (sql : string) : option statement :=
  match strip_prefix select sql with
  | None => None
  | Some s1 =>
      let '(sel, s2) :=
        match strip_prefix add_select1 s1 with
        | Some t =>
            match strip_prefix add_select2 t with
            | Some u => (WalkingColumns, u)
            | None => (SectionColumns, t)
            end
        | None => (CourseColumns, s1)
        end in
      match strip_prefix frm s2 with
      | None => None
      | Some s3 =>
          let '(joined, s4) :=
            match strip_prefix add_joins s3 with
            | Some t => (true, t)
            | None => (false, s3)
            end in
          match strip_prefix where_ s4 with
          | None => None
          | Some s5 =>
              match parse_where (String.length s5) s5 with
              | Some ps =>
                  Some {| st_select := sel; st_joined := joined; st_preds := ps |}
              | None => None
              end
          end
      end
  end.

(** The number of placeholders a predicate binds. *)
Definition arity (p : pred) : nat :=
  match p with
  | TimeStartGe | TimeEndLe | DeptEq | WalkingTimeLe => 1
  | EnrollmentBetween => 2
  | DayIn n => n
  | TermsAll n => S n
  end.

Definition select_arity (sel : select_list) : nat :=
  match sel with
  | WalkingColumns => 2
  | _ => 0
  end.

Definition statement_arity (st : statement) : nat :=
  (select_arity (st_select st) + list_sum (map arity (st_preds st)))%nat.

(** Does the predicate name a column of sections or meeting_patterns? *)
Definition needs_join (p : pred) : bool :=
  match p with
  | TimeStartGe | TimeEndLe | DayIn _ | EnrollmentBetween => true
  | _ => false
  end.

Definition needs_walking_time (p : pred) : bool :=
  match p with
  | WalkingTimeLe => true
  | _ => false
  end.

Definition registered (name : string) (nargs : nat) (c : connection)
  : option scalar :=
  match lookup name (functions c) with
  | Some (n, f) => if Nat.eqb n nargs then Some f else None
  | None => None
  end.

(** Name resolution when the statement is prepared. *)
Definition resolves (c : connection) (st : statement) : bool :=
  match st_select st with
  | CourseColumns => true
  | SectionColumns => st_joined st
  | WalkingColumns =>
      st_joined st &&
      match registered "time_between" 4 c with Some _ => true | None => false end
  end
  && forallb (fun p => implb (needs_join p) (st_joined st)) (st_preds st)
  && forallb (fun p => implb (needs_walking_time p)
                         match st_select st with
                         | WalkingColumns => true
                         | _ => false
                         end) (st_preds st).

(** *** Evaluation *)

(** One row of the FROM clause, with the derived column when selected. *)
Record from_row : Type := {
  r_course : course;
  r_section : option (section * meeting_pattern * gps_row);
  r_walking_time : option Z
}.

Definition joined_rows (d : database)
  : list (course * section * meeting_pattern * gps_row) :=
  flat_map (fun c =>
    flat_map (fun s =>
      if course_id c =? section_course_id s then
        flat_map (fun m =>
          if section_meeting_pattern_id s =? meeting_pattern_id m then
            flat_map (fun g =>
              if String.eqb (gps_building_code g) (section_building_code s)
              then [(c, s, m, g)] else [])
              (gps d)
          else [])
          (meeting_patterns d)
      else [])
      (sections d))
    (courses d).

(** Comparisons of a column with a bound value.  Only the storage
    classes the validator lets through are compared; any other pairing
    selects nothing. *)
Definition int_cmp (op : Z -> Z -> bool) (col : Z) (p : sqlval) : bool :=
  match p with
  | Integer n => op col n
  | _ => false
  end.

Definition text_eq (col : string) (p : sqlval) : bool :=
  match p with
  | Text s => String.eqb col s
  | _ => false
  end.

(** The catalog_index rows of a course whose word is IN the list. *)
Definition matching_entries (d : database) (cid : Z) (words : list sqlval)
  : list index_entry :=
  filter (fun e => (index_course_id e =? cid) && existsb (text_eq (word e)) words)
         (catalog_index d).

(** [p] holds of row [r] with the values [ps] bound to its placeholders. *)
Definition holds (d : database) (p : pred) (ps : list sqlval) (r : from_row)
  : bool :=
  match p with
  | TimeStartGe =>
      match r_section r, ps with
      | Some (_, m, _), [x] => int_cmp Z.geb (time_start m) x
      | _, _ => false
      end
  | TimeEndLe =>
      match r_section r, ps with
      | Some (_, m, _), [x] => int_cmp Z.leb (time_end m) x
      | _, _ => false
      end
  | DayIn _ =>
      match r_section r with
      | Some (_, m, _) => existsb (text_eq (day m)) ps
      | None => false
      end
  | DeptEq =>
      match ps with
      | [x] => text_eq (dept (r_course r)) x
      | _ => false
      end
  | EnrollmentBetween =>
      match r_section r, ps with
      | Some (s, _, _), [lo; hi] =>
          int_cmp Z.geb (enrollment s) lo && int_cmp Z.leb (enrollment s) hi
      | _, _ => false
      end
  | TermsAll n =>
      let group :=
        matching_entries d (course_id (r_course r)) (firstn n ps) in
      match group, skipn n ps with
      | _ :: _, [cnt] => int_cmp Z.eqb (Z.of_nat (List.length group)) cnt
      | _, _ => false
      end
  | WalkingTimeLe =>
      match r_walking_time r, ps with
      | Some w, [x] => int_cmp Z.leb w x
      | _, _ => false
      end
  end.

(** The predicates take their values from the parameter list in order. *)
Fixpoint all_hold (d : database) (preds : list pred) (ps : list sqlval)
    (r : from_row) : bool :=
  match preds with
  | [] => true
  | p :: preds' =>
      holds d p (firstn (arity p) ps) r
      && all_hold d preds' (skipn (arity p) ps) r
  end.

(** The names [cursor.description] reports.  SQLite names a result
    column by its alias, or by the column as written or its bare name
    depending on version and pragmas; [get_header] yields the bare name
    either way, and the qualified spelling is kept here. *)
Definition columns (sel : select_list) : list string :=
  ["courses.dept"; "courses.course_num"; "courses.title"]
  ++ match sel with
     | CourseColumns => []
     | _ => ["sections.section_num"; "meeting_patterns.day";
             "meeting_patterns.time_start"; "meeting_patterns.time_end";
             "sections.enrollment"]
     end
  ++ match sel with
     | WalkingColumns => ["sections.building_code"; "walking_time"]
     | _ => []
     end.

Definition project (sel : select_list) (r : from_row) : list sqlval :=
  [Text (dept (r_course r)); course_num (r_course r); title (r_course r)]
  ++ match sel, r_section r with
     | CourseColumns, _ | _, None => []
     | _, Some (s, m, _) =>
         [section_num s; Text (day m); Integer (time_start m);
          Integer (time_end m); Integer (enrollment s)]
     end
  ++ match sel, r_section r, r_walking_time r with
     | WalkingColumns, Some (s, _, _), Some w =>
         [Text (section_building_code s); Integer w]
     | _, _, _ => []
     end.

(** *** The order of the scan *)

Fixpoint insert_by {A} (rank : A -> nat) (x : A) (l : list A) : list A :=
  match l with
  | [] => [x]
  | y :: l' =>
      if (rank x <=? rank y)%nat then x :: l else y :: insert_by rank x l'
  end.

(** A stable sort by rank. *)
Definition sort_by {A} (rank : A -> nat) (l : list A) : list A :=
  fold_right (insert_by rank) [] l.

(** The rows of the FROM clause, in the order the engine visits them. *)
Definition from_rows (db : database) (joined : bool) : list from_row :=
  sort_by (fun r => rank (plan db) (r_course r) (r_section r))
    (if joined then
       map (fun '(c, s, m, g) =>
              {| r_course := c; r_section := Some (s, m, g);
                 r_walking_time := None |})
           (joined_rows db)
     else
       map (fun c => {| r_course := c; r_section := None;
                        r_walking_time := None |})
           (courses db)).

(** *** The walking-time column *)

(** One call of the registered function from SQL: the row's
    coordinates, then the two bound values.  An exception in the
    function, or a result beyond 64 bits, fails the statement. *)
Definition call (f : scalar) (g : gps_row) (ref_lon ref_lat : sqlval)
  : option Z :=
  match f [to_python (lon g); to_python (lat g);
           to_python ref_lon; to_python ref_lat] with
  | inr w => if int64 w then Some w else None
  | inl _ => None
  end.

(** A predicate with the walking-time term left aside. *)
Definition holds_apart (d : database) (p : pred) (ps : list sqlval)
    (r : from_row) : bool :=
  match p with
  | WalkingTimeLe => true
  | _ => holds d p ps r
  end.

Fixpoint all_hold_apart (d : database) (preds : list pred)
    (ps : list sqlval) (r : from_row) : bool :=
  match preds with
  | [] => true
  | p :: preds' =>
      holds_apart d p (firstn (arity p) ps) r
      && all_hold_apart d preds' (skipn (arity p) ps) r
  end.

(** The function is called on every row that passes the other terms:
    the walking-time term, or the select list, needs its value there. *)
Fixpoint with_walking_time (f : scalar) (ref_lon ref_lat : sqlval)
    (rows : list from_row) : result (list from_row) :=
  match rows with
  | [] => ok []
  | r :: rest =>
      match r_section r with
      | Some (_, _, g) =>
          match call f g ref_lon ref_lat with
          | Some w =>
              rbind (with_walking_time f ref_lon ref_lat rest) (fun rs =>
              ok ({| r_course := r_course r; r_section := r_section r;
                     r_walking_time := Some w |} :: rs))
          | None => raise sqlite3_Error
          end
      | None => raise sqlite3_Error
      end
  end.

(** The calls the planner adds: rows of gps on which the walking-time
    term of the WHERE clause is evaluated in any case. *)
Definition eager_calls (d : database) (preds : list pred) (f : scalar)
    (ref_lon ref_lat : sqlval) : bool :=
  forallb (fun g =>
             implb (eager (plan d) g)
                   match call f g ref_lon ref_lat with
                   | Some _ => true
                   | None => false
                   end)
          (if existsb needs_walking_time preds then gps d else []).

(** The rows a prepared statement selects, before projection. *)
Definition selected (c : connection) (st : statement) (ps : list sqlval)
  : result (list from_row) :=
  let d := data c in
  let qs := skipn (select_arity (st_select st)) ps in
  let rows := from_rows d (st_joined st) in
  match st_select st with
  | WalkingColumns =>
      match registered "time_between" 4 c, ps with
      | Some f, ref_lon :: ref_lat :: _ =>
          if eager_calls d (st_preds st) f ref_lon ref_lat then
            rbind (with_walking_time f ref_lon ref_lat
                     (filter (all_hold_apart d (st_preds st) qs) rows))
                  (fun rs => ok (filter (all_hold d (st_preds st) qs) rs))
          else raise sqlite3_Error
      | _, _ => raise sqlite3_Error
      end
  | _ => ok (filter (all_hold d (st_preds st) qs) rows)
  end.

(** Preparing, binding and stepping through a composed query. *)
Definition run_query (c : connection) (st : statement) (params : list value)
  : result cursor :=
  if negb (resolves c st) then raise sqlite3_Error
  else if Z.pos (variable_limit (data c)) <? Z.of_nat (statement_arity st)
  then raise sqlite3_Error
  else if negb (Nat.eqb (List.length params) (statement_arity st))
  then raise sqlite3_Error
  else
    rbind (adapt_all params) (fun ps =>
    rbind (selected c st ps) (fun rows =>
    ok {| description := map Build_descriptor (columns (st_select st));
          fetchall :=
            map (map to_python)
                (distinct (map (project (st_select st)) rows)) |})).

(** The preliminary lookup of line 108. *)
Definition lookup_sql : string :=
  "select lon, lat from gps where building_code = ?".

Definition run_lookup (c : connection) (params : list value) : result cursor :=
  match params with
  | [v] =>
      rbind (adapt v) (fun x =>
      ok {| description := [Build_descriptor "lon"; Build_descriptor "lat"];
            fetchall :=
              map (fun g => [to_python (lon g); to_python (lat g)])
                  (filter (fun g => text_eq (gps_building_code g) x)
                          (gps (data c))) |})
  | _ => raise sqlite3_Error
  end.

(** What the store answers to a statement; text outside the two forms
    above is rejected. *)
Definition run (c : connection) (sql : string) (params : list value)
  : result cursor :=
  if String.eqb sql lookup_sql then run_lookup c params
  else
    match parse_query sql with
    | Some st => run_query c st params
    | None => raise sqlite3_Error
    end.

(* ===================================================================== *)
(** ** Calls on the shared connection *)
(* ===================================================================== *)

Definition M (A : Type) : Type := connection -> result A * connection.

Definition ret {A} (a : A) : M A := fun c => (ok a, c).

Definition bind {A B} (m : M A) (k : A -> M B) : M B :=
  fun c =>
    match m c with
    | (inl e, c') => (inl e, c')
    | (inr a, c') => k a c'
    end.

Definition lift {A} (r : result A) : M A := fun c => (r, c).

Declare Scope conn_scope.
Delimit Scope conn_scope with conn.
Notation "x <- m ;; k" := (bind m (fun x => k))
  (at level 61, m at next level, right associativity) : conn_scope.
Notation "' pat <- m ;; k" := (bind m (fun x => match x with pat => k end))
  (at level 61, pat pattern, m at next level, right associativity) : conn_scope.
Notation "m ;; k" := (bind m (fun _ => k))
  (at level 61, right associativity) : conn_scope.

(** [conn.create_function(name, nargs, f)]: a later registration under
    the same name replaces the earlier one. *)
Definition create_function (name : string) (nargs : nat) (f : scalar) : M unit :=
  fun c =>
    (ok tt,
     {| data := data c;
        functions :=
          (name, (nargs, f))
            :: filter (fun e => negb (String.eqb (fst e) name)) (functions c);
        statements := statements c |}).

(** [c.execute(sql, params)] *)
Definition execute (sql : string) (params : list value) : M cursor :=
  fun c =>
    (run c sql params,
     {| data := data c;
        functions := functions c;
        statements := (statements c ++ [(sql, params)])%list |}).

(** [l[0]] *)
Definition first {A} (l : list A) : result A :=
  match l with
  | x :: _ => ok x
  | [] => raise IndexError
  end.

(* ===================================================================== *)
(** ** find_courses (lines 20-126) *)
(* ===================================================================== *)

Section FindCourses.

(** The function registered on line 40 is a parameter here: four Python
    numbers to whole minutes, or an exception.  The source's
    [compute_time_between] (lines 181-211) is defined further down, over
    the functions of the C library. *)
Variable compute_time_between : value -> value -> value -> value -> result Z.

Definition time_between : scalar :=
  fun args =>
    match args with
    | [lon1; lat1; lon2; lat2] => compute_time_between lon1 lat1 lon2 lat2
    | _ => raise TypeError
    end.

(** Lines 104-111: the select list, the joins and the first parameters. *)
Definition select_from (args_from_ui : dict)
  : M (string * string * list value) :=
  (let args := [] in
   if touches_input_vars args_from_ui then
     let select := select ++ add_select1 in
     let frm := frm ++ add_joins in
     if mem "building_code" (keys args_from_ui) then
       building_code <- lift (getitem args_from_ui "building_code") ;;
       cur <- execute lookup_sql [building_code] ;;
       lonlat <- lift (first (fetchall cur)) ;;
       ret (select ++ add_select2, frm, (args ++ lonlat)%list)
     else ret (select, frm, args)
   else ret (select, frm, args))%conn.

Definition find_courses (args_from_ui : dict)
  : M (list string * list row) :=
  (create_function "time_between" 4 time_between ;;
   if Nat.eqb (List.length args_from_ui) 0 then ret ([], [])
   else
     lift (assert_valid_input args_from_ui) ;;
     where_dict <- lift (where_dict args_from_ui) ;;
     '(select, frm, args) <- select_from args_from_ui ;;
     '(where_, args) <- lift (where_loop where_dict args_from_ui where_ args) ;;
     let query := select ++ frm ++ where_ in
     result_set <- execute query args ;;
     ret (get_header result_set, fetchall result_set))%conn.

(** The connection once [time_between] is registered (line 40). *)
Definition prepared (c : connection) : connection :=
  snd (create_function "time_between" 4 time_between c).

End FindCourses.

(* ===================================================================== *)
(** ** The composed query, key by key *)
(* ===================================================================== *)

(** The text of each predicate shape: the entries of [where_dict]. *)
Definition pred_text (p : pred) : string :=
  match p with
  | TimeStartGe => " AND meeting_patterns.time_start >= ?"
  | TimeEndLe => " AND meeting_patterns.time_end <= ?"
  | DayIn n => format day_template (placeholders n)
  | DeptEq => " AND courses.dept = ?"
  | EnrollmentBetween => " AND sections.enrollment BETWEEN ? AND ?"
  | TermsAll n => format where_terms (placeholders n)
  | WalkingTimeLe => " AND walking_time <= ?"
  end.

(** The predicate [where_dict] holds for a key, with the lengths of the
    [day] and [terms] values. *)
Definition pred_of_key (n_day n_terms : nat) (k : string) : option pred :=
  if String.eqb k "time_start" then Some TimeStartGe
  else if String.eqb k "time_end" then Some TimeEndLe
  else if String.eqb k "day" then Some (DayIn n_day)
  else if String.eqb k "dept" then Some DeptEq
  else if String.eqb k "enrollment" then Some EnrollmentBetween
  else if String.eqb k "terms" then Some (TermsAll n_terms)
  else if String.eqb k "walking_time" then Some WalkingTimeLe
  else None.

(** The number of elements of a list or tuple. *)
Definition size (v : value) : nat := List.length (elements v).

Definition n_day (d : dict) : nat := size (get d "day" (PyList [])).
Definition n_terms (d : dict) : nat := size (get d "terms" (PyList [])).

(** The items that produce a predicate: all but [building_code]. *)
Definition predicate_items (d : dict) : dict :=
  filter (fun kv => negb (String.eqb (fst kv) "building_code")) d.

(** The parameters the loop appends for one item (lines 117-122). *)
Definition bound_values (kv : string * value) : list value :=
  let (k, v) := kv in
  if type_is_list v then
    if String.eqb k "terms"
    then (elements v ++ [PyInt (Z.of_nat (List.length (elements v)))])%list
    else elements v
  else [v].

(** The fragment the loop appends for one item. *)
Definition fragment (d : dict) (kv : string * value) : string :=
  match pred_of_key (n_day d) (n_terms d) (fst kv) with
  | Some p => pred_text p
  | None => EmptyString
  end.

Fixpoint concat_all (l : list string) : string :=
  match l with
  | [] => EmptyString
  | s :: l' => s ++ concat_all l'
  end.

Definition where_clause (d : dict) : string :=
  where_ ++ concat_all (map (fragment d) (predicate_items d)).

Definition where_args (d : dict) : list value :=
  flat_map bound_values (predicate_items d).

Definition section_scoped_keys : list string :=
  ["enrollment"; "time_start"; "time_end"; "day"; "walking_time"].

(** Some section- or meeting-pattern-scoped key is present. *)
Definition section_scoped (d : dict) : bool :=
  existsb (fun k => contains_key k d) section_scoped_keys.

Definition select_clause (d : dict) : string :=
  if section_scoped d then
    if contains_key "building_code" d
    then (select ++ add_select1) ++ add_select2
    else select ++ add_select1
  else select.

Definition from_clause (d : dict) : string :=
  if section_scoped d then frm ++ add_joins else frm.

(** [tbl] is joined in a FROM clause. *)
Definition joins (tbl : string) (from_text : string) : bool :=
  substring_of ("JOIN " ++ tbl) from_text.

(** The statements [find_courses] hands to the store from connection
    state [c] on: those logged after the ones [c] already holds. *)
Definition issued (before after : connection) : list (string * list value) :=
  skipn (List.length (statements before)) (statements after).

(** The text of the main query: line 124. *)
Definition main_query (d : dict) : string :=
  select_clause d ++ from_clause d ++ where_clause d.

(** The connection after one more [execute]. *)
Definition logged (c : connection) (sql : string) (params : list value)
  : connection :=
  {| data := data c;
     functions := functions c;
     statements := (statements c ++ [(sql, params)])%list |}.

(** The gps rows of a building: what the lookup of line 108 fetches. *)
Definition coordinates (c : connection) (building_code : string) : list row :=
  map (fun g => [to_python (lon g); to_python (lat g)])
      (filter (fun g => String.eqb (gps_building_code g) building_code)
              (gps (data c))).

(** The predicates of the main query, in the order of the items. *)
Definition preds_of (d : dict) : list pred :=
  flat_map (fun kv =>
              match pred_of_key (n_day d) (n_terms d) (fst kv) with
              | Some p => [p]
              | None => []
              end)
           (predicate_items d).

Definition select_list_of (d : dict) : select_list :=
  if section_scoped d then
    if contains_key "building_code" d then WalkingColumns else SectionColumns
  else CourseColumns.

(** The main query as the store reads it. *)
Definition main_statement (d : dict) : statement :=
  {| st_select := select_list_of d;
     st_joined := section_scoped d;
     st_preds := preds_of d |}.

(** Two texts differ at a position both have. *)
Fixpoint diverge (p q : string) : bool :=
  match p, q with
  | String a p', String b q' => if Ascii.eqb a b then diverge p' q' else true
  | _, _ => false
  end.

(** Lines 124-126 from connection state [c], with the parameters [args0]
    bound by the select list. *)
Definition main_step (d : dict) (args0 : list value) (c : connection)
  : result (list string * list row) * connection :=
  let args := (args0 ++ where_args d)%list in
  (match run c (main_query d) args with
   | inl e => inl e
   | inr cur => ok (get_header cur, fetchall cur)
   end,
   logged c (main_query d) args).

(** [where_dict] for a validated dictionary. *)
Definition table (d : dict) : list (string * string) :=
  [ ("time_start", pred_text TimeStartGe);
    ("time_end", pred_text TimeEndLe);
    ("day", pred_text (DayIn (n_day d)));
    ("dept", pred_text DeptEq);
    ("enrollment", pred_text EnrollmentBetween);
    ("terms", pred_text (TermsAll (n_terms d)));
    ("walking_time", pred_text WalkingTimeLe) ].

(** [n] copies of [", ?"]. *)
Fixpoint more_placeholders (n : nat) : string :=
  match n with
  | O => EmptyString
  | S n' => ", ?" ++ more_placeholders n'
  end.

(** The fixed text a predicate shape is written from. *)
Definition template (p : pred) : string :=
  match p with
  | DayIn _ => day_template
  | TermsAll _ => where_terms
  | _ => pred_text p
  end.

(** A planner that visits the rows in the order of the nested loops
    and evaluates a term only where the result depends on it. *)
Definition nested_loops : planner :=
  {| rank := fun _ _ => O; eager := fun _ => false |}.

(** An example store and connection (the gps row holds the doubles
    -87.5996 and 41.7897). *)
Definition campus : database :=
  {| courses :=
       [ {| course_id := 1; dept := "CMSC"; course_num := Text "12200";
            title := Text "Computer Science with Applications II" |};
         {| course_id := 2; dept := "PHIL"; course_num := Text "25000";
            title := Text "History of Philosophy I" |} ];
     sections :=
       [ {| section_course_id := 1; section_num := Integer 1;
            section_meeting_pattern_id := 10; enrollment := 30;
            section_building_code := "RY" |} ];
     meeting_patterns :=
       [ {| meeting_pattern_id := 10; day := "MWF";
            time_start := 930; time_end := 1020 |} ];
     gps :=
       [ {| gps_building_code := "RY"; lon := Real 13859236727634111391;
            lat := Real 4631078194726622043 |} ];
     catalog_index :=
       [ {| word := "plato"; index_course_id := 2 |};
         {| word := "quantum"; index_course_id := 2 |};
         {| word := "plato"; index_course_id := 1 |} ];
     variable_limit := 250000;
     plan := nested_loops |}.

Definition fresh_connection : connection :=
  {| data := campus; functions := []; statements := [] |}.

(** A stand-in for the walking-time function in the examples. *)
Definition five_minutes : value -> value -> value -> value -> result Z :=
  fun _ _ _ _ => ok 5.

(** The key a predicate shape is stored under in [where_dict]. *)
Definition key_of (p : pred) : string :=
  match p with
  | TimeStartGe => "time_start"
  | TimeEndLe => "time_end"
  | DayIn _ => "day"
  | DeptEq => "dept"
  | EnrollmentBetween => "enrollment"
  | TermsAll _ => "terms"
  | WalkingTimeLe => "walking_time"
  end.

(** The strings of a list of Python strings. *)
Fixpoint strings_of (l : list value) : list string :=
  match l with
  | [] => []
  | PyStr s :: l' => s :: strings_of l'
  | _ :: l' => strings_of l'
  end.

(** The number of distinct terms in a list of terms. *)
Definition distinct_terms (l : list value) : nat :=
  List.length (nodup string_dec (strings_of l)).

(** The example store with one index row entered twice. *)
Definition campus_indexed_twice : database :=
  {| courses := courses campus;
     sections := sections campus;
     meeting_patterns := meeting_patterns campus;
     gps := gps campus;
     catalog_index :=
       [ {| word := "plato"; index_course_id := 1 |};
         {| word := "plato"; index_course_id := 1 |} ];
     variable_limit := variable_limit campus;
     plan := plan campus |}.

(* ===================================================================== *)
(** ** Example criteria, queries and results *)
(* ===================================================================== *)

Definition criteria_unknown_building : dict :=
  [("building_code", PyStr "XX"); ("walking_time", PyInt 10)].

Definition criteria_dept : dict := [("dept", PyStr "CMSC")].

Definition query_dept : string :=
  select ++ frm ++ where_ ++ " AND courses.dept = ?".

Definition criteria_walking_time_text : dict :=
  [("building_code", PyStr "RY"); ("walking_time", PyStr "ten")].

Definition cursor_abc : cursor :=
  {| description := [ {| d_name := "a.b.c" |} ]; fetchall := [] |}.

Definition criteria_enrollment : dict :=
  [("enrollment", PyList [PyInt 10; PyInt 40])].

Definition query_enrollment : string :=
  (select ++ add_select1) ++ (frm ++ add_joins)
  ++ where_ ++ " AND sections.enrollment BETWEEN ? AND ?".

Definition criteria_empty_day : dict := [("day", PyList [])].

Definition section_header : list string :=
  ["dept"; "course_num"; "title"; "section_num"; "day"; "time_start";
   "time_end"; "enrollment"].

Definition criteria_two_terms : dict :=
  [("terms", PyList [PyStr "quantum"; PyStr "plato"])].

Definition course_header : list string := ["dept"; "course_num"; "title"].

Definition row_phil : row :=
  [PyStr "PHIL"; PyStr "25000"; PyStr "History of Philosophy I"].

Definition criteria_repeated_term : dict :=
  [("terms", PyList [PyStr "plato"; PyStr "plato"])].

Definition indexed_twice : connection :=
  {| data := campus_indexed_twice; functions := []; statements := [] |}.

Definition row_cmsc : row :=
  [PyStr "CMSC"; PyStr "12200"; PyStr "Computer Science with Applications II"].

Definition criteria_day_tuple : dict :=
  [("day", PyTuple [PyStr "MWF"; PyStr "TR"])].

Definition query_day_tuple : string :=
  (select ++ add_select1) ++ (frm ++ add_joins)
  ++ where_ ++ " AND meeting_patterns.day IN (?, ?)".


(* ===================================================================== *)
(** ** Reading a result *)
(* ===================================================================== *)

(** The value of a returned row under a name of the header. *)
Fixpoint field (header : list string) (r : row) (name : string)
  : option value :=
  match header, r with
  | h :: header', v :: r' =>
      if String.eqb h name then Some v else field header' r' name
  | _, _ => None
  end.

(** The header of the three select lists. *)
Definition header_of (sel : select_list) : list string :=
  ["dept"; "course_num"; "title"]
  ++ match sel with
     | CourseColumns => []
     | _ => ["section_num"; "day"; "time_start"; "time_end"; "enrollment"]
     end
  ++ match sel with
     | WalkingColumns => ["building_code"; "walking_time"]
     | _ => []
     end.

(** More example criteria and rows, on the example store. *)
Definition criteria_time_start : dict := [("time_start", PyInt 900)].

Definition criteria_time_end : dict := [("time_end", PyInt 1100)].

Definition criteria_day : dict := [("day", PyList [PyStr "MWF"; PyStr "TR"])].

Definition criteria_walking : dict :=
  [("building_code", PyStr "RY"); ("walking_time", PyInt 10)].

Definition criteria_dept_phil : dict := [("dept", PyStr "PHIL")].

Definition row_section_cmsc : row :=
  [PyStr "CMSC"; PyStr "12200"; PyStr "Computer Science with Applications II";
   PyInt 1; PyStr "MWF"; PyInt 930; PyInt 1020; PyInt 30].

Definition row_walking_cmsc : row :=
  (row_section_cmsc ++ [PyStr "RY"; PyInt 5])%list.

(* ===================================================================== *)
(** ** What the criteria ask for *)
(* ===================================================================== *)

(** A scalar that sqlite3 can bind: no sequence, an int within 64 bits. *)
Definition fits64 (v : value) : bool :=
  match v with
  | PyInt n => (- 2 ^ 63 <=? n) && (n <? 2 ^ 63)
  | PyList _ | PyTuple _ => false
  | _ => true
  end.

(** A value of the dictionary all of whose parameters can be bound: a
    scalar as above, or a list of such scalars of a length within 64
    bits (a tuple cannot). *)
Definition bindable (v : value) : bool :=
  match v with
  | PyList l => forallb fits64 l && (Z.of_nat (List.length l) <? 2 ^ 63)
  | _ => fits64 v
  end.

(** What one item of the criteria asks of a section [s] of course [crs]
    meeting on pattern [m].  The two keys of the reference building ask
    nothing of the section by itself; the walking time is stated apart. *)
Definition criterion_holds (db : database) (k : string) (v : value)
    (crs : course) (s : section) (m : meeting_pattern) : Prop :=
  if String.eqb k "dept" then v = PyStr (dept crs)
  else if String.eqb k "terms" then
    forall t, In (PyStr t) (elements v) ->
              In {| word := t; index_course_id := course_id crs |}
                 (catalog_index db)
  else if String.eqb k "time_start" then
    exists n, int_value v = Some n /\ n <= time_start m
  else if String.eqb k "time_end" then
    exists n, int_value v = Some n /\ time_end m <= n
  else if String.eqb k "day" then In (PyStr (day m)) (elements v)
  else if String.eqb k "enrollment" then
    exists a b lo hi,
      elements v = [a; b] /\ int_value a = Some lo /\ int_value b = Some hi
      /\ lo <= enrollment s <= hi
  else True.

(** The row returned for a section. *)
Definition section_row (crs : course) (s : section) (m : meeting_pattern)
  : row :=
  [PyStr (dept crs); to_python (course_num crs); to_python (title crs);
   to_python (section_num s); PyStr (day m); PyInt (time_start m);
   PyInt (time_end m); PyInt (enrollment s)].

(** The reference building of the dictionary, if it names one, can be
    used on this connection: the building has a gps row, the
    coordinates of the first one can be bound, and the calls of the
    walking-time function that the planner adds give a walking time
    within 64 bits. *)
Definition reference_usable
    (compute_time_between : value -> value -> value -> value -> result Z)
    (d : dict) (c : connection) : Prop :=
  forall b,
    lookup "building_code" d = Some (PyStr b) ->
    exists ref_lon ref_lat others,
      coordinates c b = [ref_lon; ref_lat] :: others
      /\ fits64 ref_lon = true
      /\ fits64 ref_lat = true
      /\ forall g,
           In g (gps (data c)) ->
           eager (plan (data c)) g = true ->
           exists w,
             compute_time_between (to_python (lon g)) (to_python (lat g))
               ref_lon ref_lat = ok w
             /\ int64 w = true.

Definition criteria_empty_day_walking : dict :=
  [("day", PyList []); ("building_code", PyStr "RY");
   ("walking_time", PyInt 10)].

(** Two rows that SELECT DISTINCT does not tell apart: equal column by
    column, numbers compared by value. *)
Definition same_row (a b : row) : Prop := map value_key a = map value_key b.

(** The row returned for a course. *)
Definition course_row (crs : course) : row :=
  [PyStr (dept crs); to_python (course_num crs); to_python (title crs)].

(** What [dept] and [terms] ask of a course. *)
Definition course_matches (d : dict) (db : database) (crs : course) : Prop :=
  (forall x, lookup "dept" d = Some (PyStr x) -> dept crs = x)
  /\ (forall v t,
        lookup "terms" d = Some v -> In (PyStr t) (elements v) ->
        In {| word := t; index_course_id := course_id crs |}
           (catalog_index db)).

(* ===================================================================== *)
(** ** The walking time (lines 181-211) *)
(* ===================================================================== *)

(** Python's float arithmetic: binary64, rounded to nearest, ties to
    even. *)
Definition fadd : spec_float -> spec_float -> spec_float := SFadd prec emax.
Definition fsub : spec_float -> spec_float -> spec_float := SFsub prec emax.
Definition fmul : spec_float -> spec_float -> spec_float := SFmul prec emax.
Definition fdiv : spec_float -> spec_float -> spec_float := SFdiv prec emax.

(** [float(n)] for an int [n]: the nearest float. *)
Definition float_of_int (n : Z) : spec_float :=
  binary_normalize prec emax n 0 false.

(** The argument of a function of the math module as a C double: a
    float as it is, an int converted, if it is within the range of a
    float; anything else is a type error. *)
Definition as_float (v : value) : result spec_float :=
  match v with
  | PyFloat bits => ok (float_of_bits bits)
  | PyInt n =>
      match float_of_int n with
      | S754_infinity _ => raise OverflowError
      | x => ok x
      end
  | PyBool b => ok (float_of_int (if b then 1 else 0))
  | _ => raise TypeError
  end.

(** The functions of the C library that the math module wraps, and the
    power of [float.__pow__]: a float, or the exception the wrapper
    raises on a domain or range error. *)
Record libm : Type := {
  m_sin : spec_float -> result spec_float;
  m_cos : spec_float -> result spec_float;
  m_asin : spec_float -> result spec_float;
  m_sqrt : spec_float -> result spec_float;
  m_pow : spec_float -> spec_float -> result spec_float
}.

(** [math.pi] and [math.pi / 180]. *)
Definition pi : spec_float := float_of_bits 4614256656552045848.
Definition degToRad : spec_float := fdiv pi (float_of_int 180).

(** [math.radians(x)] *)
Definition radians (v : value) : result spec_float :=
  rbind (as_float v) (fun x => ok (fmul x degToRad)).

(** [math.ceil(x)] for a float: an int, whatever its size; a NaN is a
    value error, an infinity an overflow error. *)
Definition fraction (x : spec_float) : option (Z * Z) :=
  match x with
  | S754_zero _ => Some (0, 1)
  | S754_finite s m e =>
      let n := if s then Z.neg m else Z.pos m in
      Some (if 0 <=? e then (n * 2 ^ e, 1) else (n, 2 ^ (- e)))
  | S754_infinity _ | S754_nan => None
  end.

Definition ceil (x : spec_float) : result Z :=
  match fraction x with
  | Some (n, d) => ok (- ((- n) / d))
  | None =>
      match x with
      | S754_nan => raise ValueError
      | _ => raise OverflowError
      end
  end.

Section Math.

Variable lib : libm.

(** [haversine] (lines 194-211).  The operands of line 205 are
    evaluated from left to right. *)
Definition haversine (lon1 lat1 lon2 lat2 : value) : result spec_float :=
  rbind (radians lon1) (fun lon1 =>
  rbind (radians lat1) (fun lat1 =>
  rbind (radians lon2) (fun lon2 =>
  rbind (radians lat2) (fun lat2 =>
  let dlon := fsub lon2 lon1 in
  let dlat := fsub lat2 lat1 in
  rbind (m_sin lib (fdiv dlat (float_of_int 2))) (fun s1 =>
  rbind (m_pow lib s1 (float_of_int 2)) (fun p1 =>
  rbind (m_cos lib lat1) (fun c1 =>
  rbind (m_cos lib lat2) (fun c2 =>
  rbind (m_sin lib (fdiv dlon (float_of_int 2))) (fun s2 =>
  rbind (m_pow lib s2 (float_of_int 2)) (fun p2 =>
  let a := fadd p1 (fmul (fmul c1 c2) p2) in
  rbind (m_sqrt lib a) (fun r =>
  rbind (m_asin lib r) (fun t =>
  let c := fmul (float_of_int 2) t in
  let km := fmul (float_of_int 6367) c in
  let m := fmul km (float_of_int 1000) in
  ok m)))))))))))).

(** [compute_time_between] (lines 181-191).  The float [1.1] has the
    bits [0x3FF199999999999A]. *)
Definition compute_time_between (lon1 lat1 lon2 lat2 : value) : result Z :=
  rbind (haversine lon1 lat1 lon2 lat2) (fun meters =>
  let walk_speed_m_per_sec := float_of_bits 4607632778762754458 in
  let mins := fdiv meters (fmul walk_speed_m_per_sec (float_of_int 60)) in
  ceil mins).

End Math.

(** A stand-in for the C library in the examples: sine and arc sine of
    a small angle are the angle, its cosine is one; the square root is
    the correctly rounded one. *)
Definition small_angles : libm :=
  {| m_sin := fun x => ok x;
     m_cos := fun _ => ok (float_of_int 1);
     m_asin := fun x => ok x;
     m_sqrt := fun x => ok (SFsqrt prec emax x);
     m_pow := fun x _ => ok (fmul x x) |}.

(* ===================================================================== *)
(** ** More example stores *)
(* ===================================================================== *)

(** Two courses whose numbers are the INTEGER 1 and the REAL 1.0. *)
Definition campus_numbered : database :=
  {| courses :=
       [ {| course_id := 1; dept := "CMSC"; course_num := Integer 1;
            title := Text "Programming" |};
         {| course_id := 2; dept := "CMSC";
            course_num := Real 4607182418800017408;
            title := Text "Programming" |} ];
     sections := [];
     meeting_patterns := [];
     gps := [];
     catalog_index := [];
     variable_limit := variable_limit campus;
     plan := nested_loops |}.

(** The example store on a connection that allows three placeholders. *)
Definition campus_three_placeholders : database :=
  {| courses := courses campus;
     sections := sections campus;
     meeting_patterns := meeting_patterns campus;
     gps := gps campus;
     catalog_index := catalog_index campus;
     variable_limit := 3;
     plan := plan campus |}.

Definition criteria_four_days : dict :=
  [("day", PyList [PyStr "M"; PyStr "T"; PyStr "W"; PyStr "R"])].

(** The example store with a section of the second course in a building
    whose coordinates are text, on which the walking time cannot be
    computed; under the planner given. *)
Definition campus_two_buildings (p : planner) : database :=
  {| courses := courses campus;
     sections :=
       (sections campus
        ++ [ {| section_course_id := 2; section_num := Integer 1;
                section_meeting_pattern_id := 10; enrollment := 20;
                section_building_code := "HM" |} ])%list;
     meeting_patterns := meeting_patterns campus;
     gps :=
       (gps campus
        ++ [ {| gps_building_code := "HM"; lon := Text "west";
                lat := Text "north" |} ])%list;
     catalog_index := catalog_index campus;
     variable_limit := variable_limit campus;
     plan := p |}.

(** A planner that evaluates the walking-time term on every gps row. *)
Definition everywhere : planner :=
  {| rank := fun _ _ => O; eager := fun _ => true |}.

(** A planner that visits the courses from the greatest id down. *)
Definition backwards : planner :=
  {| rank := fun c _ => Z.to_nat (100 - course_id c); eager := fun _ => false |}.

Definition criteria_dept_walking : dict :=
  [("dept", PyStr "CMSC"); ("building_code", PyStr "RY");
   ("walking_time", PyInt 10)].

Definition connection_to (db : database) : connection :=
  {| data := db; functions := []; statements := [] |}.

(* ===================================================================== *)
(** * Properties *)
(* ===================================================================== *)

(* ===================================================================== *)
(** ** Facts about the validator *)
(* ===================================================================== *)

Lemma assert_ok (b : bool) : assert_ b = ok tt <-> b = true.
Proof. destruct b; cbn; split; intros H; (reflexivity || discriminate). Qed.

Lemma get_check (P : value -> bool) (k : string) (d : dict) (default : value) :
  P default = true ->
  P (get d k default) = negb (present_but_not k P d).
Proof.
  intros Hdef. unfold get, present_but_not.
  destruct (lookup k d); [now rewrite negb_involutive | exact Hdef].
Qed.

Lemma both_or_neither_spec (d : dict) :
  (contains_key "building_code" d && contains_key "walking_time" d)
  || (negb (contains_key "building_code" d) && negb (contains_key "walking_time" d))
  = both_or_neither d.
Proof.
  unfold both_or_neither.
  now destruct (contains_key "building_code" d), (contains_key "walking_time" d).
Qed.

Lemma day_asserts (v : value) (k : result unit) :
  (assert_ (isinstance_list_tuple v) ;;; assert_ (all_str (elements v)) ;;; k)%res
  = (assert_ (is_seq_of_strings v) ;;; k)%res.
Proof. destruct v; reflexivity. Qed.

Lemma terms_asserts (v : value) (k : result unit) :
  (assert_ (truthy v) ;;; assert_ (isinstance_list_tuple v) ;;;
   assert_ (all_str (elements v)) ;;; k)%res
  = (assert_ (is_nonempty_seq_of_strings v) ;;; k)%res.
Proof.
  destruct v as [| b | n | bits | s | l | l]; cbn;
    try reflexivity;
    try (destruct l; reflexivity).
  all: match goal with |- context [assert_ ?c] => now destruct c end.
Qed.

Lemma time_start_asserts (v : value) (k : result unit) :
  (assert_ (isinstance_int v) ;;; assert_ge0 v ;;; k)%res
  = (assert_ (is_nonneg_integer v) ;;; k)%res.
Proof. destruct v; reflexivity. Qed.

Lemma time_end_asserts (v : value) (k : result unit) :
  (assert_ (isinstance_int v) ;;; assert_lt2400 v ;;; k)%res
  = (assert_ (is_integer_below_2400 v) ;;; k)%res.
Proof. destruct v; reflexivity. Qed.

Lemma int_value_isinstance (v : value) :
  isinstance_int v = match int_value v with Some _ => true | None => false end.
Proof. now destruct v. Qed.

Lemma enrollment_pair_asserts (l : list value) :
  (assert_ (Nat.eqb (List.length l) 2) ;;; assert_ (all_int l) ;;;
   assert_lo_le_hi l)%res
  = assert_ (match l with
             | [lo; hi] =>
                 match int_value lo, int_value hi with
                 | Some a, Some b => a <=? b
                 | _, _ => false
                 end
             | _ => false
             end).
Proof.
  destruct l as [| lo [| hi [| x l]]]; try reflexivity.
  cbn. rewrite !int_value_isinstance.
  destruct (int_value lo), (int_value hi); reflexivity.
Qed.

Lemma enrollment_asserts (v : value) :
  (assert_ (isinstance_list_tuple v) ;;;
   assert_ (Nat.eqb (List.length (elements v)) 2) ;;;
   assert_ (all_int (elements v)) ;;;
   assert_lo_le_hi (elements v))%res
  = assert_ (is_enrollment_pair v).
Proof.
  destruct v as [| b | n | bits | s | l | l]; try reflexivity;
    cbn [isinstance_list_tuple elements assert_ rbind ok];
    rewrite enrollment_pair_asserts; cbn;
    destruct l as [| lo [| hi [| x l]]]; reflexivity.
Qed.

(** The validator is one assertion: the conjunction of its checks. *)
Lemma assert_valid_input_eq (d : dict) :
  assert_valid_input d = assert_ (negb (violates_constraints d)).
Proof.
  unfold assert_valid_input.
  cbv zeta.
  rewrite enrollment_asserts, time_end_asserts, time_start_asserts,
    terms_asserts, day_asserts.
  rewrite both_or_neither_spec.
  rewrite (get_check isinstance_str "building_code") by reflexivity.
  rewrite (get_check isinstance_int "walking_time") by reflexivity.
  rewrite (get_check is_seq_of_strings "day") by reflexivity.
  rewrite (get_check isinstance_str "dept") by reflexivity.
  rewrite (get_check is_nonempty_seq_of_strings "terms") by reflexivity.
  rewrite (get_check is_nonneg_integer "time_start") by reflexivity.
  rewrite (get_check is_integer_below_2400 "time_end") by reflexivity.
  rewrite (get_check is_enrollment_pair "enrollment") by reflexivity.
  unfold violates_constraints, violates_listed_constraints, is_string, is_integer.
  destruct (issubset (keys d) acceptable_keys), (both_or_neither d),
    (present_but_not "building_code" isinstance_str d),
    (present_but_not "walking_time" isinstance_int d),
    (present_but_not "day" is_seq_of_strings d),
    (present_but_not "dept" isinstance_str d),
    (present_but_not "terms" is_nonempty_seq_of_strings d),
    (present_but_not "time_start" is_nonneg_integer d),
    (present_but_not "time_end" is_integer_below_2400 d),
    (present_but_not "enrollment" is_enrollment_pair d); reflexivity.
Qed.

Lemma assert_valid_input_ok_iff (d : dict) :
  assert_valid_input d = ok tt <-> violates_constraints d = false.
Proof.
  rewrite assert_valid_input_eq, assert_ok.
  destruct (violates_constraints d); cbn; split; congruence.
Qed.

Lemma assert_valid_input_raise_iff (d : dict) :
  assert_valid_input d = raise AssertionError <-> violates_constraints d = true.
Proof.
  rewrite assert_valid_input_eq.
  destruct (violates_constraints d); cbn; split; intros H;
    (reflexivity || discriminate).
Qed.

Lemma present_but_not_false (k : string) (P : value -> bool) (d : dict) :
  present_but_not k P d = false ->
  forall v, lookup k d = Some v -> P v = true.
Proof.
  unfold present_but_not. intros H v Hv. rewrite Hv in H.
  now apply negb_false_iff in H.
Qed.

Lemma validated_of_ok (d : dict) :
  assert_valid_input d = ok tt -> validated d.
Proof.
  intros H. apply assert_valid_input_ok_iff in H.
  unfold violates_constraints, violates_listed_constraints in H.
  repeat (apply orb_false_iff in H; destruct H as [H ?]).
  apply negb_false_iff in H.
  match goal with
  | Hb : negb (both_or_neither d) = false |- _ =>
      apply negb_false_iff in Hb; unfold both_or_neither in Hb;
      apply eqb_prop in Hb
  end.
  constructor; try assumption;
    eapply present_but_not_false; eassumption.
Qed.

(* --------------------------------------------------------------------- *)
(** *** Strings *)

Lemma sapp_assoc (a b c : string) : ((a ++ b) ++ c = a ++ (b ++ c))%string.
Proof. induction a; cbn; [reflexivity | now rewrite IHa]. Qed.

Lemma sapp_nil_r (a : string) : (a ++ "")%string = a.
Proof. induction a; cbn; [reflexivity | now rewrite IHa]. Qed.

Lemma count_placeholders_app (a b : string) :
  count_placeholders (a ++ b) = (count_placeholders a + count_placeholders b)%nat.
Proof.
  induction a as [| x a IH]; cbn; [reflexivity |].
  destruct (Ascii.eqb x "?"); cbn; now rewrite IH.
Qed.

Lemma occurs_app (c : ascii) (a b : string) :
  occurs c (a ++ b) = occurs c a || occurs c b.
Proof.
  induction a as [| x a IH]; cbn; [reflexivity |].
  now rewrite IH, orb_assoc.
Qed.

Lemma strip_prefix_app (p s : string) : strip_prefix p (p ++ s) = Some s.
Proof.
  induction p as [| a p IH]; cbn; [reflexivity |].
  now rewrite Ascii.eqb_refl.
Qed.

Lemma length_sapp (a b : string) :
  String.length (a ++ b) = (String.length a + String.length b)%nat.
Proof. induction a; cbn; [reflexivity | now rewrite IHa]. Qed.

Lemma day_template_split (x : string) :
  format day_template x
  = (before_field day_template ++ x ++ after_field day_template)%string.
Proof. reflexivity. Qed.

Lemma where_terms_split (x : string) :
  format where_terms x
  = (before_field where_terms ++ x ++ after_field where_terms)%string.
Proof. reflexivity. Qed.

Lemma placeholders_S (n : nat) :
  placeholders (S (S n)) = ("?" ++ ", " ++ placeholders (S n))%string.
Proof. reflexivity. Qed.

Lemma count_placeholders_list (n : nat) : count_placeholders (placeholders n) = n.
Proof.
  destruct n as [| n]; [reflexivity |].
  induction n as [| n IH]; [reflexivity |].
  rewrite placeholders_S, !count_placeholders_app, IH. reflexivity.
Qed.

(** Every predicate text holds as many placeholders as its shape binds. *)
Lemma count_placeholders_pred (p : pred) :
  count_placeholders (pred_text p) = arity p.
Proof.
  destruct p; try reflexivity; cbn [pred_text arity].
  - rewrite day_template_split, !count_placeholders_app, count_placeholders_list.
    cbn. lia.
  - rewrite where_terms_split, !count_placeholders_app, count_placeholders_list.
    cbn. lia.
Qed.

(* --------------------------------------------------------------------- *)
(** *** The predicate table and the loop *)

Lemma seq_of_strings_sized (v : value) :
  is_seq_of_strings v = true -> len v = ok (size v).
Proof. destruct v; cbn; intros H; (discriminate || reflexivity). Qed.

Lemma nonempty_seq_is_seq (v : value) :
  is_nonempty_seq_of_strings v = true -> is_seq_of_strings v = true.
Proof.
  destruct v as [| | | | | l | l]; cbn; try discriminate;
    destruct l; (discriminate || trivial).
Qed.

Lemma len_day (d : dict) :
  validated d -> len (get d "day" (PyList [])) = ok (n_day d).
Proof.
  intros V. unfold n_day, get.
  destruct (lookup "day" d) as [v |] eqn:E; [| reflexivity].
  apply seq_of_strings_sized. now apply (v_day d V).
Qed.

Lemma len_terms (d : dict) :
  validated d -> len (get d "terms" (PyList [])) = ok (n_terms d).
Proof.
  intros V. unfold n_terms, get.
  destruct (lookup "terms" d) as [v |] eqn:E; [| reflexivity].
  apply seq_of_strings_sized, nonempty_seq_is_seq. now apply (v_terms d V).
Qed.

Lemma where_dict_validated (d : dict) :
  validated d -> where_dict d = ok (table d).
Proof.
  intros V. unfold where_dict. rewrite (len_day d V), (len_terms d V).
  reflexivity.
Qed.

Lemma table_lookup (d : dict) (k : string) :
  lookup k (table d)
  = match pred_of_key (n_day d) (n_terms d) k with
    | Some p => Some (pred_text p)
    | None => None
    end.
Proof.
  unfold table, pred_of_key. cbn [lookup].
  repeat match goal with
         | |- context [String.eqb k ?s] => destruct (String.eqb k s); [reflexivity |]
         end.
  reflexivity.
Qed.

Lemma acceptable_key_cases (k : string) :
  mem k acceptable_keys = true ->
  String.eqb k "building_code" = true
  \/ exists p, forall n m, exists p',
       pred_of_key n m k = Some p' /\ needs_join p' = needs_join p
       /\ needs_walking_time p' = needs_walking_time p.
Proof.
  unfold mem, acceptable_keys. cbn [existsb].
  intros H.
  repeat (apply orb_true_iff in H; destruct H as [H | H]);
    try discriminate;
    apply String.eqb_eq in H; subst k;
    try (left; reflexivity); right.
  - exists TimeStartGe. intros; eexists; repeat split; reflexivity.
  - exists TimeEndLe. intros; eexists; repeat split; reflexivity.
  - exists EnrollmentBetween. intros; eexists; repeat split; reflexivity.
  - exists DeptEq. intros; eexists; repeat split; reflexivity.
  - exists (TermsAll 0). intros; eexists; repeat split; reflexivity.
  - exists (DayIn 0). intros; eexists; repeat split; reflexivity.
  - exists WalkingTimeLe. intros; eexists; repeat split; reflexivity.
Qed.

Lemma acceptable_key_has_pred (n m : nat) (k : string) :
  mem k acceptable_keys = true ->
  String.eqb k "building_code" = false ->
  exists p, pred_of_key n m k = Some p.
Proof.
  intros H Hb. destruct (acceptable_key_cases k H) as [E | [p Hp]].
  - congruence.
  - destruct (Hp n m) as [p' [E _]]. now exists p'.
Qed.

Lemma where_loop_eq (d : dict) (items : dict) :
  issubset (keys items) acceptable_keys = true ->
  forall (w : string) (a : list value),
    where_loop (table d) items w a
    = ok ((w ++ concat_all (map (fragment d) (predicate_items items)))%string,
          (a ++ flat_map bound_values (predicate_items items))%list).
Proof.
  induction items as [| [k v] items IH]; intros Hk w a.
  - cbn. now rewrite sapp_nil_r, app_nil_r.
  - unfold issubset, keys in Hk. cbn [map forallb fst] in Hk.
    apply andb_true_iff in Hk. destruct Hk as [Hk Hrest].
    change (issubset (keys items) acceptable_keys = true) in Hrest.
    cbn [where_loop predicate_items filter fst].
    destruct (String.eqb k "building_code") eqn:Eb; cbn [negb].
    + now apply IH.
    + destruct (acceptable_key_has_pred (n_day d) (n_terms d) k Hk Eb) as [p Hp].
      unfold getitem. rewrite table_lookup, Hp. cbn [rbind ok].
      rewrite IH by assumption.
      fold (predicate_items items).
      cbn [map flat_map concat_all]. unfold fragment at 2. cbn [fst]. rewrite Hp.
      rewrite sapp_assoc. f_equal. f_equal.
      unfold bound_values.
      destruct (type_is_list v); [destruct (String.eqb k "terms") |];
        now rewrite <- ?app_assoc.
Qed.

(* --------------------------------------------------------------------- *)
(** *** The select list and the joins *)

Lemma mem_keys (k : string) (d : dict) : mem k (keys d) = contains_key k d.
Proof.
  unfold contains_key, mem, keys.
  induction d as [| [k' v] d IH]; cbn; [reflexivity |].
  destruct (String.eqb k k'); cbn; [reflexivity | exact IH].
Qed.

Lemma filter_nonempty {A} (f : A -> bool) (l : list A) :
  (0 <? List.length (filter f l))%nat = existsb f l.
Proof.
  induction l as [| x l IH]; cbn; [reflexivity |].
  destruct (f x); cbn; [reflexivity | exact IH].
Qed.

Lemma existsb_swap (ks : list string) (d : dict) :
  existsb (fun k => mem k ks) (keys d) = existsb (fun k => contains_key k d) ks.
Proof.
  apply eq_true_iff_eq. rewrite !existsb_exists. split.
  - intros [k [Hin Hm]]. unfold mem in Hm. apply existsb_exists in Hm.
    destruct Hm as [k' [Hin' E]]. apply String.eqb_eq in E. subst k'.
    exists k. split; [assumption |]. rewrite <- mem_keys.
    unfold mem. apply existsb_exists. exists k. split; [assumption |].
    apply String.eqb_refl.
  - intros [k [Hin Hc]]. rewrite <- mem_keys in Hc. unfold mem in Hc.
    apply existsb_exists in Hc. destruct Hc as [k' [Hin' E]].
    apply String.eqb_eq in E. subst k'.
    exists k. split; [assumption |]. unfold mem. apply existsb_exists.
    exists k. split; [assumption | apply String.eqb_refl].
Qed.

(** Under the validator's pairing of [building_code] with [walking_time]
    the test of line 104 is the test for a section-scoped key. *)
Lemma touches_input_vars_validated (d : dict) :
  validated d -> touches_input_vars d = section_scoped d.
Proof.
  intros V. unfold touches_input_vars. rewrite filter_nonempty, existsb_swap.
  unfold section_scoped, input_vars, section_scoped_keys. cbn [existsb].
  rewrite (v_both d V).
  assert (Hs : contains_key "section_num" d = false).
  { destruct (contains_key "section_num" d) eqn:E; [| reflexivity].
    rewrite <- mem_keys in E. unfold mem in E. apply existsb_exists in E.
    destruct E as [k [Hin E]]. apply String.eqb_eq in E. subst k.
    pose proof (v_keys d V) as Hk. unfold issubset in Hk.
    rewrite forallb_forall in Hk. specialize (Hk _ Hin). discriminate Hk. }
  rewrite Hs.
  destruct (contains_key "enrollment" d), (contains_key "time_start" d),
    (contains_key "time_end" d), (contains_key "day" d),
    (contains_key "walking_time" d); reflexivity.
Qed.

Lemma building_code_section_scoped (d : dict) :
  validated d -> contains_key "building_code" d = true -> section_scoped d = true.
Proof.
  intros V H. rewrite (v_both d V) in H.
  unfold section_scoped, section_scoped_keys. cbn [existsb].
  rewrite H. now rewrite !orb_true_r.
Qed.

(* --------------------------------------------------------------------- *)
(** *** find_courses on a validated dictionary *)

Section Unfolding.

Variable compute_time_between : value -> value -> value -> value -> result Z.

Local Abbreviation find_courses := (find_courses compute_time_between).

Local Abbreviation prepared := (prepared compute_time_between).

Lemma run_lookup_str (c : connection) (s : string) :
  run c lookup_sql [PyStr s]
  = ok {| description := [Build_descriptor "lon"; Build_descriptor "lat"];
          fetchall := coordinates c s |}.
Proof. reflexivity. Qed.

Lemma find_courses_empty (c : connection) :
  find_courses [] c = (ok ([], []), prepared c).
Proof. reflexivity. Qed.

Lemma find_courses_invalid (d : dict) (c : connection) (e : exn) :
  d <> [] -> assert_valid_input d = inl e ->
  find_courses d c = (inl e, prepared c).
Proof.
  intros Hne He. destruct d as [| kv d]; [congruence |].
  unfold find_courses, bind, lift, create_function, prepared. cbn [snd Nat.eqb List.length].
  now rewrite He.
Qed.

Lemma find_courses_validated (d : dict) (c : connection) :
  d <> [] -> assert_valid_input d = ok tt ->
  find_courses d c =
    if section_scoped d then
      match lookup "building_code" d with
      | Some (PyStr b) =>
          match coordinates (prepared c) b with
          | [] => (raise IndexError, logged (prepared c) lookup_sql [PyStr b])
          | lonlat :: _ =>
              main_step d lonlat (logged (prepared c) lookup_sql [PyStr b])
          end
      | _ => main_step d [] (prepared c)
      end
    else main_step d [] (prepared c).
Proof.
  intros Hne Hok. pose proof (validated_of_ok d Hok) as V.
  destruct d as [| kv d']; [congruence |].
  remember (kv :: d') as d eqn:Ed.
  unfold find_courses, bind, lift.
  replace (Nat.eqb (List.length d) 0) with false by (subst d; reflexivity).
  change (create_function "time_between" 4 (time_between compute_time_between) c)
    with (ok tt, prepared c).
  cbv iota beta. rewrite Hok, (where_dict_validated d V).
  cbv iota beta.
  unfold select_from. rewrite (touches_input_vars_validated d V), mem_keys.
  assert (Hw : forall a, where_loop (table d) d where_ a
                         = ok (where_clause d, (a ++ where_args d)%list)).
  { intros a. now rewrite (where_loop_eq d d (v_keys d V)). }
  destruct (section_scoped d) eqn:Es.
  - unfold contains_key. destruct (lookup "building_code" d) as [v |] eqn:Eb.
    + pose proof (v_building d V v Eb) as Hs.
      destruct v; try discriminate Hs.
      unfold bind, lift, getitem. rewrite Eb. cbn [ok].
      unfold execute. rewrite run_lookup_str. cbv iota beta.
      cbn [fetchall first].
      change {| data := data (prepared c); functions := functions (prepared c);
                statements := (statements (prepared c) ++ [(lookup_sql, [PyStr s])])%list |}
        with (logged (prepared c) lookup_sql [PyStr s]).
      destruct (coordinates (prepared c) s) as [| lonlat rest]; [reflexivity |].
      cbv [first fetchall ret ok raise]. rewrite Hw.
      unfold main_step, main_query, select_clause, from_clause.
      rewrite Es. unfold contains_key. rewrite Eb.
      cbn [app]. cbv [ret ok]. destruct (run _ _ _); reflexivity.
    + cbv [ret ok]. rewrite Hw.
      unfold main_step, main_query, select_clause, from_clause.
      rewrite Es. unfold contains_key. rewrite Eb.
      cbn [app]. cbv [execute bind ret ok]. destruct (run _ _ _); reflexivity.
  - cbv [ret ok]. rewrite Hw.
    unfold main_step, main_query, select_clause, from_clause.
    rewrite Es. cbn [app]. cbv [execute bind ret ok]. destruct (run _ _ _); reflexivity.
Qed.

End Unfolding.

(* --------------------------------------------------------------------- *)
(** *** The store reads the main query back *)

Lemma strip_prefix_diverge (p q x : string) :
  diverge p q = true -> strip_prefix p (q ++ x) = None.
Proof.
  revert q. induction p as [| a p IH]; intros q H; [discriminate |].
  destruct q as [| b q]; [discriminate |].
  cbn in *. destruct (Ascii.eqb a b); [now apply IH | reflexivity].
Qed.

Lemma literal_hit (text : string) (p : pred) (r : string) :
  literal text p (text ++ r) = Some (p, r).
Proof. unfold literal. now rewrite strip_prefix_app. Qed.

Lemma literal_miss (text : string) (p : pred) (q r : string) :
  diverge text q = true -> literal text p (q ++ r) = None.
Proof. intros H. unfold literal. now rewrite strip_prefix_diverge. Qed.

Lemma with_list_miss (template : string) (mk : nat -> pred) (q r : string) :
  diverge (before_field template) q = true ->
  with_list template mk (q ++ r) = None.
Proof. intros H. unfold with_list. now rewrite strip_prefix_diverge. Qed.

Lemma placeholders_more (n : nat) :
  placeholders (S n) = ("?" ++ more_placeholders n)%string.
Proof.
  induction n as [| n IH]; [reflexivity |].
  rewrite placeholders_S, IH. reflexivity.
Qed.

Lemma more_marks_list (n : nat) (r : string) :
  more_marks (more_placeholders n ++ String ")" r) = (n, String ")" r).
Proof.
  induction n as [| n IH]; [reflexivity |].
  cbn [more_placeholders append]. cbn [more_marks]. now rewrite IH.
Qed.

Lemma marks_list (n : nat) (r : string) :
  marks (placeholders n ++ String ")" r) = (n, String ")" r).
Proof.
  destruct n as [| n]; [reflexivity |].
  rewrite placeholders_more. cbn [append marks]. now rewrite more_marks_list.
Qed.

Lemma with_list_hit (template : string) (mk : nat -> pred) (n : nat)
    (tail r : string) :
  after_field template = String ")" tail ->
  with_list template mk
    ((before_field template ++ placeholders n ++ after_field template) ++ r)
  = Some (mk n, r).
Proof.
  intros Ha. unfold with_list.
  rewrite !sapp_assoc, strip_prefix_app, Ha.
  change (String ")" tail ++ r)%string with (String ")" (tail ++ r)).
  rewrite marks_list.
  change (String ")" (tail ++ r)) with (String ")" tail ++ r)%string.
  now rewrite strip_prefix_app.
Qed.

Lemma parse_pred_text (p : pred) (r : string) :
  parse_pred (pred_text p ++ r) = Some (p, r).
Proof.
  unfold parse_pred.
  destruct p; cbn [pred_text first_of];
    rewrite ?day_template_split, ?where_terms_split;
    repeat first
      [ rewrite literal_hit; reflexivity
      | rewrite (with_list_hit day_template DayIn n EmptyString r eq_refl); reflexivity
      | rewrite (with_list_hit where_terms TermsAll n _ r eq_refl); reflexivity
      | rewrite literal_miss by reflexivity
      | rewrite with_list_miss by reflexivity ].
Qed.

Lemma pred_text_nonempty (p : pred) :
  exists a s, pred_text p = String a s.
Proof.
  destruct p; cbn [pred_text];
    rewrite ?day_template_split, ?where_terms_split;
    eexists; eexists; reflexivity.
Qed.

Lemma length_concat_preds (ps : list pred) :
  (List.length ps <= String.length (concat_all (map pred_text ps)))%nat.
Proof.
  induction ps as [| p ps IH]; cbn [map concat_all List.length]; [apply Nat.le_0_l |].
  rewrite length_sapp.
  destruct (pred_text_nonempty p) as [a [s E]]. rewrite E. cbn [String.length]. lia.
Qed.

Lemma parse_where_text (ps : list pred) :
  forall fuel : nat,
    (List.length ps <= fuel)%nat ->
    parse_where fuel (concat_all (map pred_text ps)) = Some ps.
Proof.
  induction ps as [| p ps IH]; intros fuel Hf.
  - destruct fuel; reflexivity.
  - cbn [map concat_all].
    destruct (pred_text_nonempty p) as [a [s E]].
    destruct fuel as [| fuel]; [cbn in Hf; lia |].
    assert (Hstep : forall x,
               parse_where (S fuel) (pred_text p ++ x)
               = match parse_where fuel x with
                 | Some qs => Some (p :: qs)
                 | None => None
                 end).
    { intros x. pose proof (parse_pred_text p x) as Hp.
      rewrite E in *. cbn [append] in *. cbn [parse_where]. now rewrite Hp. }
    rewrite Hstep, IH by (cbn in Hf; lia). reflexivity.
Qed.

Lemma fragments_are_preds (d : dict) :
  issubset (keys d) acceptable_keys = true ->
  map (fragment d) (predicate_items d) = map pred_text (preds_of d).
Proof.
  unfold preds_of.
  assert (G : forall items,
             issubset (keys items) acceptable_keys = true ->
             map (fun kv => match pred_of_key (n_day d) (n_terms d) (fst kv) with
                            | Some p => pred_text p
                            | None => EmptyString
                            end) (predicate_items items)
             = map pred_text
                 (flat_map (fun kv => match pred_of_key (n_day d) (n_terms d) (fst kv) with
                                      | Some p => [p]
                                      | None => []
                                      end) (predicate_items items))).
  { induction items as [| [k v] items IH]; intros Hk; [reflexivity |].
    unfold issubset, keys in Hk. cbn [map forallb fst] in Hk.
    apply andb_true_iff in Hk. destruct Hk as [Hk Hrest].
    cbn [predicate_items filter fst].
    destruct (String.eqb k "building_code") eqn:Eb; cbn [negb].
    - now apply IH.
    - destruct (acceptable_key_has_pred (n_day d) (n_terms d) k Hk Eb) as [p Hp].
      cbn [map flat_map fst]. rewrite Hp. cbn [app map]. f_equal. now apply IH. }
  intros Hk. exact (G d Hk).
Qed.

Lemma where_clause_preds (d : dict) :
  validated d ->
  where_clause d = (where_ ++ concat_all (map pred_text (preds_of d)))%string.
Proof.
  intros V. unfold where_clause. now rewrite (fragments_are_preds d (v_keys d V)).
Qed.

(** The store reads the main query of a validated dictionary as the
    statement [main_statement]. *)
Lemma parse_main_query (d : dict) :
  validated d -> parse_query (main_query d) = Some (main_statement d).
Proof.
  intros V. unfold main_query, main_statement, select_list_of.
  rewrite (where_clause_preds d V).
  set (frags := concat_all (map pred_text (preds_of d))).
  assert (Hw : parse_where (String.length frags) frags = Some (preds_of d)).
  { apply parse_where_text, length_concat_preds. }
  unfold select_clause, from_clause, parse_query.
  destruct (section_scoped d) eqn:Es; [destruct (contains_key "building_code" d) |].
  - rewrite !sapp_assoc. rewrite !strip_prefix_app. now rewrite Hw.
  - rewrite !sapp_assoc. rewrite !strip_prefix_app.
    rewrite (strip_prefix_diverge add_select2 frm) by reflexivity.
    rewrite !strip_prefix_app. now rewrite Hw.
  - rewrite strip_prefix_app.
    rewrite (strip_prefix_diverge add_select1 frm) by reflexivity.
    rewrite strip_prefix_app.
    rewrite (strip_prefix_diverge add_joins where_) by reflexivity.
    rewrite strip_prefix_app. now rewrite Hw.
Qed.

Lemma main_query_not_lookup (d : dict) :
  String.eqb (main_query d) lookup_sql = false.
Proof.
  unfold main_query, select_clause.
  destruct (section_scoped d); [destruct (contains_key "building_code" d) |];
    rewrite ?sapp_assoc; reflexivity.
Qed.

Lemma run_main_query (d : dict) (c : connection) (params : list value) :
  validated d ->
  run c (main_query d) params = run_query c (main_statement d) params.
Proof.
  intros V. unfold run.
  now rewrite main_query_not_lookup, (parse_main_query d V).
Qed.

(* --------------------------------------------------------------------- *)
(** *** The statements find_courses issues *)

Lemma issued_same (c c' : connection) :
  statements c' = statements c -> issued c c' = [].
Proof. intros E. unfold issued. rewrite E. apply skipn_all. Qed.

Lemma issued_logged (c c' : connection) (sql : string) (params : list value) :
  (List.length (statements c) <= List.length (statements c'))%nat ->
  issued c (logged c' sql params) = (issued c c' ++ [(sql, params)])%list.
Proof.
  intros H. unfold issued, logged. cbn [statements].
  rewrite skipn_app.
  replace (List.length (statements c) - List.length (statements c'))%nat
    with 0%nat by lia.
  reflexivity.
Qed.

Section Issued.

Variable compute_time_between : value -> value -> value -> value -> result Z.

Local Abbreviation find_courses := (find_courses compute_time_between).
Local Abbreviation prepared := (prepared compute_time_between).

Lemma issued_prepared (c : connection) : issued c (prepared c) = [].
Proof. now apply issued_same. Qed.

Lemma issued_one (c : connection) (q : string) (a : list value) :
  issued c (logged (prepared c) q a) = [(q, a)].
Proof.
  rewrite issued_logged by (cbn; lia). now rewrite issued_prepared.
Qed.

Lemma issued_two (c : connection) (q q' : string) (a a' : list value) :
  issued c (logged (logged (prepared c) q a) q' a') = [(q, a); (q', a')].
Proof.
  rewrite issued_logged by (cbn; rewrite length_app; lia).
  now rewrite issued_one.
Qed.

Lemma coordinates_prepared (c : connection) (b : string) :
  coordinates (prepared c) b = coordinates c b.
Proof. reflexivity. Qed.

Lemma coordinates_pair (c : connection) (b : string) (lonlat : row) :
  In lonlat (coordinates c b) -> List.length lonlat = 2%nat.
Proof.
  unfold coordinates. intros H. apply in_map_iff in H.
  destruct H as [g [E _]]. now subst lonlat.
Qed.

(** Every statement issued for a validated dictionary is the lookup or
    the main query; the main query's parameters start with those of the
    select list. *)
Lemma find_courses_issued (d : dict) (c : connection) (q : string)
    (a : list value) :
  d <> [] -> assert_valid_input d = ok tt ->
  In (q, a) (issued c (snd (find_courses d c))) ->
  (exists b, lookup "building_code" d = Some (PyStr b)
             /\ q = lookup_sql /\ a = [PyStr b])
  \/ (q = main_query d
      /\ exists args0,
           a = (args0 ++ where_args d)%list
           /\ List.length args0 = select_arity (select_list_of d)
           /\ forall b, lookup "building_code" d = Some (PyStr b) ->
                        In args0 (coordinates c b)).
Proof.
  intros Hne Hok. pose proof (validated_of_ok d Hok) as V.
  rewrite (find_courses_validated _ d c Hne Hok).
  unfold select_list_of, contains_key.
  destruct (section_scoped d) eqn:Es.
  - destruct (lookup "building_code" d) as [v |] eqn:Eb.
    + pose proof (v_building d V v Eb) as Hs.
      destruct v; try discriminate Hs.
      destruct (coordinates (prepared c) s) as [| lonlat rest] eqn:Ec.
      * cbn [snd]. rewrite issued_one. intros [H | []].
        inversion H; subst. left. now exists s.
      * unfold main_step. cbn [snd]. rewrite issued_two.
        intros [H | [H | []]]; inversion H; subst.
        -- left. now exists s.
        -- right. split; [reflexivity |]. exists lonlat. split; [reflexivity |].
           split.
           ++ apply (coordinates_pair (prepared c) s). rewrite Ec. now left.
           ++ intros b E. injection E as <-.
              rewrite <- (coordinates_prepared c s), Ec. now left.
    + unfold main_step. cbn [snd]. rewrite issued_one. intros [H | []].
      inversion H; subst. right. split; [reflexivity |]. exists [].
      repeat split. discriminate.
  - unfold main_step. cbn [snd]. rewrite issued_one. intros [H | []].
    inversion H; subst. right. split; [reflexivity |]. exists [].
    repeat split. intros b E.
    rewrite (building_code_section_scoped d V) in Es; [discriminate |].
    unfold contains_key. now rewrite E.
Qed.

End Issued.

(* --------------------------------------------------------------------- *)
(** *** Occurrences in the query text *)

Lemma is_prefix_occurs (c : ascii) (needle s : string) :
  is_prefix needle s = true -> occurs c needle = true -> occurs c s = true.
Proof.
  revert s. induction needle as [| a needle IH]; intros s Hp Ho; [discriminate |].
  destruct s as [| b s]; [discriminate |].
  cbn in Hp, Ho |- *. apply andb_true_iff in Hp. destruct Hp as [Hab Hp].
  apply Ascii.eqb_eq in Hab. subst b.
  apply orb_true_iff in Ho. destruct Ho as [Ho | Ho].
  - now rewrite Ho.
  - rewrite (IH s Hp Ho). apply orb_true_r.
Qed.

Lemma substring_occurs (c : ascii) (needle s : string) :
  substring_of needle s = true -> occurs c needle = true -> occurs c s = true.
Proof.
  induction s as [| b s IH]; intros Hs Ho.
  - cbn in Hs. rewrite orb_false_r in Hs. now apply (is_prefix_occurs c needle).
  - cbn [substring_of] in Hs. apply orb_true_iff in Hs. destruct Hs as [Hp | Hs].
    + now apply (is_prefix_occurs c needle).
    + cbn. rewrite (IH Hs Ho). apply orb_true_r.
Qed.

Lemma absent_char_no_substring (c : ascii) (needle s : string) :
  occurs c needle = true -> occurs c s = false -> substring_of needle s = false.
Proof.
  intros Hn Hs. destruct (substring_of needle s) eqn:E; [| reflexivity].
  rewrite (substring_occurs c needle s E Hn) in Hs. discriminate.
Qed.

Lemma is_prefix_app (needle s t : string) :
  is_prefix needle s = true -> is_prefix needle (s ++ t) = true.
Proof.
  revert s. induction needle as [| a needle IH]; intros s H; [reflexivity |].
  destruct s as [| b s]; [discriminate |].
  cbn in H |- *. apply andb_true_iff in H. destruct H as [Hab H].
  now rewrite Hab, (IH s H).
Qed.

Lemma substring_app_l (needle s t : string) :
  substring_of needle s = true -> substring_of needle (s ++ t) = true.
Proof.
  induction s as [| b s IH]; intros H.
  - cbn in H. rewrite orb_false_r in H.
    destruct needle; [destruct t; reflexivity | discriminate].
  - cbn [substring_of] in H. apply orb_true_iff in H. destruct H as [H | H].
    + change (String b s ++ t)%string with (String b (s ++ t)).
      cbn [substring_of].
      change (String b (s ++ t)) with (String b s ++ t)%string.
      now rewrite (is_prefix_app needle (String b s) t H).
    + change (String b s ++ t)%string with (String b (s ++ t)).
      cbn [substring_of]. rewrite (IH H). apply orb_true_r.
Qed.

Lemma substring_app_r (needle s t : string) :
  substring_of needle t = true -> substring_of needle (s ++ t) = true.
Proof.
  intros H. induction s as [| b s IH]; [exact H |].
  change (String b s ++ t)%string with (String b (s ++ t)).
  cbn [substring_of]. rewrite IH. apply orb_true_r.
Qed.

Lemma occurs_placeholders (c : ascii) (n : nat) :
  occurs c ", ?" = false -> occurs c (placeholders n) = false.
Proof.
  intros H. destruct n as [| n]; [reflexivity |].
  cbn [occurs] in H.
  apply orb_false_iff in H. destruct H as [Hc H].
  apply orb_false_iff in H. destruct H as [Hsp H].
  apply orb_false_iff in H. destruct H as [Hq _].
  induction n as [| n IH].
  - cbn [placeholders join repeat occurs]. now rewrite Hq.
  - rewrite placeholders_S, !occurs_app, IH.
    cbn [occurs]. now rewrite Hc, Hsp, Hq.
Qed.

Lemma occurs_template_split (c : ascii) (t : string) :
  t = (before_field t ++ "{}" ++ after_field t)%string ->
  occurs c t = false ->
  occurs c (before_field t) = false /\ occurs c (after_field t) = false.
Proof.
  intros E H. rewrite E, !occurs_app in H.
  apply orb_false_iff in H. destruct H as [Hb H].
  apply orb_false_iff in H. destruct H as [_ Ha]. now split.
Qed.

(** A character that is neither in the placeholder list nor in the fixed
    text of a predicate shape is not in the predicate. *)
Lemma occurs_pred_text (c : ascii) (p : pred) :
  occurs c ", ?" = false ->
  occurs c (template p) = false ->
  occurs c (pred_text p) = false.
Proof.
  intros Hs Ht.
  destruct p; try exact Ht; cbn [pred_text template] in *.
  - destruct (occurs_template_split c day_template eq_refl Ht) as [Hb Ha].
    now rewrite day_template_split, !occurs_app, (occurs_placeholders c n Hs), Hb, Ha.
  - destruct (occurs_template_split c where_terms eq_refl Ht) as [Hb Ha].
    now rewrite where_terms_split, !occurs_app, (occurs_placeholders c n Hs), Hb, Ha.
Qed.

Lemma occurs_concat_all (c : ascii) (l : list string) :
  (forall s, In s l -> occurs c s = false) -> occurs c (concat_all l) = false.
Proof.
  induction l as [| s l IH]; intros H; [reflexivity |].
  cbn [concat_all]. rewrite occurs_app, (H s (or_introl eq_refl)).
  apply IH. intros s' Hs'. apply H. now right.
Qed.

(** The keys of the predicates of a dictionary are keys it contains. *)
Lemma preds_of_from_key (d : dict) (p : pred) :
  In p (preds_of d) ->
  exists k v, In (k, v) d
              /\ String.eqb k "building_code" = false
              /\ pred_of_key (n_day d) (n_terms d) k = Some p.
Proof.
  unfold preds_of. intros H. apply in_flat_map in H.
  destruct H as [[k v] [Hin Hp]]. unfold predicate_items in Hin.
  apply filter_In in Hin. destruct Hin as [Hin Hb]. cbn [fst] in Hb, Hp.
  apply negb_true_iff in Hb.
  exists k, v. split; [assumption |]. split; [assumption |].
  destruct (pred_of_key (n_day d) (n_terms d) k) as [p' |]; [| destruct Hp].
  destruct Hp as [E | []]. now subst.
Qed.

Lemma in_contains_key (d : dict) (k : string) (v : value) :
  In (k, v) d -> contains_key k d = true.
Proof.
  intros H. rewrite <- mem_keys. unfold mem. apply existsb_exists.
  exists k. split; [| apply String.eqb_refl].
  unfold keys. apply in_map_iff. now exists (k, v).
Qed.

Lemma pred_of_key_terms (n m : nat) (k : string) (j : nat) :
  pred_of_key n m k = Some (TermsAll j) -> k = "terms".
Proof.
  unfold pred_of_key.
  repeat match goal with
         | |- context [String.eqb k ?s] =>
             destruct (String.eqb k s) eqn:?; [try discriminate |]
         end; try discriminate.
  intros _. now apply String.eqb_eq.
Qed.

Lemma no_terms_pred (d : dict) (n : nat) :
  contains_key "terms" d = false -> ~ In (TermsAll n) (preds_of d).
Proof.
  intros Hno Hin. apply preds_of_from_key in Hin.
  destruct Hin as [k [v [Hin [_ Hp]]]].
  apply pred_of_key_terms in Hp. subst k.
  rewrite (in_contains_key d "terms" v Hin) in Hno. discriminate.
Qed.

Lemma pred_of_key_walking (n m : nat) (k : string) :
  pred_of_key n m k = Some WalkingTimeLe -> k = "walking_time".
Proof.
  unfold pred_of_key.
  repeat match goal with
         | |- context [String.eqb k ?s] =>
             destruct (String.eqb k s) eqn:?; [try discriminate |]
         end; try discriminate.
  intros _. now apply String.eqb_eq.
Qed.

Lemma no_walking_pred (d : dict) :
  contains_key "walking_time" d = false -> ~ In WalkingTimeLe (preds_of d).
Proof.
  intros Hno Hin. apply preds_of_from_key in Hin.
  destruct Hin as [k [v [Hin [_ Hp]]]].
  apply pred_of_key_walking in Hp. subst k.
  rewrite (in_contains_key d "walking_time" v Hin) in Hno. discriminate.
Qed.

(** A character of none of the predicates is not in the where clause. *)
Lemma occurs_where_clause (c : ascii) (d : dict) :
  validated d ->
  occurs c where_ = false ->
  occurs c ", ?" = false ->
  (forall p, In p (preds_of d) -> occurs c (template p) = false) ->
  occurs c (where_clause d) = false.
Proof.
  intros V Hw Hs Hp. rewrite (where_clause_preds d V), occurs_app, Hw.
  apply occurs_concat_all. intros s Hin. apply in_map_iff in Hin.
  destruct Hin as [p [E Hin]]. subst s.
  apply occurs_pred_text; [assumption | now apply Hp].
Qed.

(* --------------------------------------------------------------------- *)
(** *** Binding: parameters against predicates *)

Lemma adapt_all_app (x y : list value) (ps : list sqlval) :
  adapt_all (x ++ y) = ok ps ->
  exists cx cy, ps = (cx ++ cy)%list /\ adapt_all x = ok cx /\ adapt_all y = ok cy.
Proof.
  revert ps. induction x as [| v x IH]; intros ps H.
  - exists [], ps. now repeat split.
  - cbn [app adapt_all] in H |- *. destruct (adapt v) as [e | s]; [discriminate |].
    cbn [rbind] in H |- *.
    destruct (adapt_all (x ++ y)) as [e | ps'] eqn:E; [discriminate |].
    cbn [rbind ok] in H. injection H as <-.
    destruct (IH ps' eq_refl) as [cx [cy [-> [Hx Hy]]]].
    exists (s :: cx), cy. rewrite Hx. now repeat split.
Qed.

Lemma adapt_all_length (x : list value) (ps : list sqlval) :
  adapt_all x = ok ps -> List.length ps = List.length x.
Proof.
  revert ps. induction x as [| v x IH]; intros ps H.
  - injection H as <-. reflexivity.
  - cbn [adapt_all] in H. destruct (adapt v); [discriminate |].
    cbn [rbind] in H. destruct (adapt_all x) as [e | ps']; [discriminate |].
    cbn [rbind ok] in H. injection H as <-. cbn. now rewrite (IH ps' eq_refl).
Qed.

Lemma adapt_all_strings (l : list value) (ps : list sqlval) :
  all_str l = true -> adapt_all l = ok ps -> ps = map Text (strings_of l).
Proof.
  revert ps. induction l as [| v l IH]; intros ps Hs H.
  - injection H as <-. reflexivity.
  - cbn [all_str forallb] in Hs. apply andb_true_iff in Hs. destruct Hs as [Hv Hs].
    destruct v; try discriminate Hv.
    cbn [adapt_all adapt rbind] in H.
    destruct (adapt_all l) as [e | ps']; [discriminate |].
    cbn [rbind ok] in H. injection H as <-. cbn [strings_of map].
    f_equal. now apply IH.
Qed.

Lemma strings_of_in (l : list value) (s : string) :
  In (PyStr s) l -> In s (strings_of l).
Proof.
  induction l as [| v l IH]; intros H; [destruct H |].
  destruct H as [-> | H]; [now left |].
  destruct v; cbn [strings_of]; try (now apply IH). right. now apply IH.
Qed.

Lemma strings_of_length (l : list value) :
  all_str l = true -> List.length (strings_of l) = List.length l.
Proof.
  induction l as [| v l IH]; intros Hs; [reflexivity |].
  cbn [all_str forallb] in Hs. apply andb_true_iff in Hs. destruct Hs as [Hv Hs].
  destruct v; try discriminate Hv. cbn. now rewrite IH.
Qed.

Lemma firstn_exact {A} (x y : list A) : firstn (List.length x) (x ++ y) = x.
Proof. induction x as [| a x IH]; cbn; [now destruct y | now rewrite IH]. Qed.

Lemma skipn_exact {A} (x y : list A) : skipn (List.length x) (x ++ y) = y.
Proof. induction x as [| a x IH]; cbn; [reflexivity | exact IH]. Qed.

Lemma lookup_in {V} (k : string) (d : list (string * V)) (v : V) :
  lookup k d = Some v -> In (k, v) d.
Proof.
  induction d as [| [k' v'] d IH]; intros H; [discriminate |].
  cbn [lookup] in H. destruct (String.eqb k k') eqn:E.
  - apply String.eqb_eq in E. injection H as ->. subst. now left.
  - right. now apply IH.
Qed.

Lemma in_lookup (k : string) (d : dict) (v : value) :
  wf_dict d -> In (k, v) d -> lookup k d = Some v.
Proof.
  unfold wf_dict, keys. induction d as [| [k' v'] d IH]; intros Hwf H; [destruct H |].
  cbn [map fst] in Hwf. inversion Hwf as [| ? ? Hnot Hrest]; subst.
  cbn [lookup]. destruct H as [H | H].
  - injection H as -> ->. now rewrite String.eqb_refl.
  - destruct (String.eqb k k') eqn:E.
    + apply String.eqb_eq in E. subst k'. exfalso. apply Hnot.
      apply in_map_iff. now exists (k, v).
    + now apply IH.
Qed.

Lemma pred_of_key_inv (n m : nat) (k : string) (p : pred) :
  pred_of_key n m k = Some p ->
  k = key_of p
  /\ (forall j, p = DayIn j -> j = n)
  /\ (forall j, p = TermsAll j -> j = m).
Proof.
  unfold pred_of_key.
  repeat match goal with
         | |- context [String.eqb k ?s] =>
             let E := fresh "E" in
             destruct (String.eqb k s) eqn:E;
             [apply String.eqb_eq in E; subst k; intros H; injection H as <-;
              repeat split; intros j Hj; (discriminate Hj || now injection Hj as <-) |]
         end.
  discriminate.
Qed.

(** The parameters of one item are as many as its predicate binds,
    unless the value is a tuple. *)
Lemma item_aligned_values (d : dict) (k : string) (v : value) (p : pred) :
  validated d -> wf_dict d ->
  In (k, v) d ->
  pred_of_key (n_day d) (n_terms d) k = Some p ->
  (forall l, v <> PyTuple l) ->
  List.length (bound_values (k, v)) = arity p.
Proof.
  intros V Hwf Hin Hp Hnt.
  pose proof (in_lookup k d v Hwf Hin) as Hl.
  destruct (pred_of_key_inv _ _ k p Hp) as [Hk [Hday Hterms]].
  destruct p; cbn [key_of] in Hk; subst k; cbn [arity].
  - pose proof (v_time_start d V v Hl) as H. destruct v; try discriminate H; reflexivity.
  - pose proof (v_time_end d V v Hl) as H. destruct v; try discriminate H; reflexivity.
  - pose proof (v_day d V v Hl) as H. rewrite (Hday n eq_refl).
    unfold n_day, get. rewrite Hl.
    destruct v as [| | | | | l | l]; try discriminate H;
      [reflexivity | now destruct (Hnt l)].
  - pose proof (v_dept d V v Hl) as H. destruct v; try discriminate H; reflexivity.
  - pose proof (v_enrollment d V v Hl) as H.
    destruct v as [| | | | | l | l]; try discriminate H; [| now destruct (Hnt l)].
    destruct l as [| lo [| hi [| x l]]]; try discriminate H. reflexivity.
  - pose proof (v_terms d V v Hl) as H. rewrite (Hterms n eq_refl).
    unfold n_terms, get. rewrite Hl.
    destruct v as [| | | | | l | l]; try discriminate H; [| now destruct (Hnt l)].
    cbn [bound_values type_is_list String.eqb Ascii.eqb Bool.eqb elements size].
    rewrite length_app. cbn. lia.
  - pose proof (v_walking d V v Hl) as H. destruct v; try discriminate H; reflexivity.
Qed.

(** A tuple cannot be bound to a placeholder. *)
Lemma adaptable_not_tuple (k : string) (v : value) (chunk : list sqlval) :
  adapt_all (bound_values (k, v)) = ok chunk -> forall l, v <> PyTuple l.
Proof. intros H l ->. discriminate H. Qed.

Lemma item_aligned (d : dict) (k : string) (v : value) (p : pred)
    (chunk : list sqlval) :
  validated d -> wf_dict d ->
  In (k, v) d ->
  pred_of_key (n_day d) (n_terms d) k = Some p ->
  adapt_all (bound_values (k, v)) = ok chunk ->
  List.length chunk = arity p.
Proof.
  intros V Hwf Hin Hp Ha. rewrite (adapt_all_length _ _ Ha).
  apply (item_aligned_values d k v p V Hwf Hin Hp).
  now apply (adaptable_not_tuple k v chunk).
Qed.

(** Each predicate of the main query is evaluated on the parameters its
    own item contributed. *)
Lemma all_hold_items (d : dict) (db : database) (r : from_row) :
  validated d -> wf_dict d ->
  forall (items : dict) (ps : list sqlval),
    incl items d ->
    (forall kv, In kv items -> String.eqb (fst kv) "building_code" = false) ->
    adapt_all (flat_map bound_values items) = ok ps ->
    all_hold db
      (flat_map (fun kv => match pred_of_key (n_day d) (n_terms d) (fst kv) with
                           | Some p => [p]
                           | None => []
                           end) items)
      ps r = true ->
    forall k v p,
      In (k, v) items ->
      pred_of_key (n_day d) (n_terms d) k = Some p ->
      exists chunk,
        adapt_all (bound_values (k, v)) = ok chunk /\ holds db p chunk r = true.
Proof.
  intros V Hwf. induction items as [| [k0 v0] items IH];
    intros ps Hincl Hnb Ha Hall k v p Hin Hp; [destruct Hin |].
  cbn [flat_map] in Ha. apply adapt_all_app in Ha.
  destruct Ha as [cx [cy [-> [Hx Hy]]]].
  assert (Hin0 : In (k0, v0) d) by (apply Hincl; now left).
  assert (Hrest : incl items d) by (intros x Hx'; apply Hincl; now right).
  assert (Hnb' : forall kv, In kv items -> String.eqb (fst kv) "building_code" = false)
    by (intros kv Hkv; apply Hnb; now right).
  assert (Hk0 : mem k0 acceptable_keys = true).
  { pose proof (v_keys d V) as Hk. unfold issubset in Hk.
    rewrite forallb_forall in Hk. apply Hk. unfold keys.
    apply in_map_iff. now exists (k0, v0). }
  destruct (acceptable_key_has_pred (n_day d) (n_terms d) k0 Hk0
              (Hnb (k0, v0) (or_introl eq_refl))) as [p0 Hp0].
  cbn [flat_map fst] in Hall. rewrite Hp0 in Hall.
  cbn [app all_hold] in Hall.
  rewrite <- (item_aligned d k0 v0 p0 cx V Hwf Hin0 Hp0 Hx) in Hall.
  rewrite firstn_exact, skipn_exact in Hall.
  apply andb_true_iff in Hall. destruct Hall as [H0 Hall].
  destruct Hin as [E | Hin].
  - injection E as <- <-. rewrite Hp0 in Hp. injection Hp as <-.
    now exists cx.
  - now apply (IH cy Hrest Hnb' Hy Hall k v p).
Qed.

Lemma count_placeholders_concat (d : dict) (items : dict) :
  validated d -> wf_dict d ->
  incl items d ->
  (forall kv, In kv items -> String.eqb (fst kv) "building_code" = false) ->
  (forall k v, In (k, v) items -> forall l, v <> PyTuple l) ->
  count_placeholders (concat_all (map (fragment d) items))
  = List.length (flat_map bound_values items).
Proof.
  intros V Hwf. induction items as [| [k v] items IH]; intros Hincl Hnb Hnt;
    [reflexivity |].
  cbn [map concat_all flat_map]. rewrite count_placeholders_app, length_app.
  rewrite IH.
  - f_equal. unfold fragment. cbn [fst].
    assert (Hin : In (k, v) d) by (apply Hincl; now left).
    assert (Hk : mem k acceptable_keys = true).
    { pose proof (v_keys d V) as Hk. unfold issubset in Hk.
      rewrite forallb_forall in Hk. apply Hk. unfold keys.
      apply in_map_iff. now exists (k, v). }
    destruct (acceptable_key_has_pred (n_day d) (n_terms d) k Hk
                (Hnb (k, v) (or_introl eq_refl))) as [p Hp].
    rewrite Hp, count_placeholders_pred. symmetry.
    apply (item_aligned_values d k v p V Hwf Hin Hp).
    apply (Hnt k v). now left.
  - intros x Hx. apply Hincl. now right.
  - intros kv Hkv. apply Hnb. now right.
  - intros k' v' H'. apply (Hnt k' v'). now right.
Qed.

Lemma concat_all_app (l1 l2 : list string) :
  concat_all (l1 ++ l2) = (concat_all l1 ++ concat_all l2)%string.
Proof.
  induction l1 as [| s l1 IH]; [reflexivity |].
  cbn [app concat_all]. now rewrite IH, sapp_assoc.
Qed.

(** Index rows of one course are told apart by their word. *)
Lemma all_terms_indexed (db : database) (cid : Z) (strs : list string) :
  NoDup (catalog_index db) ->
  List.length (matching_entries db cid (map Text strs)) = List.length strs ->
  forall s, In s strs ->
            In {| word := s; index_course_id := cid |} (catalog_index db).
Proof.
  intros Hnd Hlen s Hs.
  set (g := matching_entries db cid (map Text strs)) in *.
  assert (Hg : forall e, In e g ->
                         In e (catalog_index db)
                         /\ index_course_id e = cid /\ In (word e) strs).
  { intros e He. unfold g, matching_entries in He. apply filter_In in He.
    destruct He as [He Hb]. apply andb_true_iff in Hb. destruct Hb as [Hc Hw].
    split; [assumption |]. split; [now apply Z.eqb_eq |].
    apply existsb_exists in Hw. destruct Hw as [x [Hx Hw]].
    apply in_map_iff in Hx. destruct Hx as [s' [<- Hs']].
    cbn in Hw. apply String.eqb_eq in Hw. now rewrite Hw. }
  assert (Hndg : NoDup (map word g)).
  { apply NoDup_map_NoDup_ForallPairs.
    - intros a b Ha Hb Hw.
      destruct (Hg a Ha) as [_ [Hca _]]. destruct (Hg b Hb) as [_ [Hcb _]].
      destruct a, b. cbn in *. congruence.
    - unfold g, matching_entries. now apply NoDup_filter. }
  assert (Hincl : incl (map word g) strs).
  { intros w Hw. apply in_map_iff in Hw. destruct Hw as [e [<- He]].
    now destruct (Hg e He) as [_ [_ H]]. }
  assert (Hle : (List.length strs <= List.length (map word g))%nat)
    by (rewrite length_map; lia).
  pose proof (NoDup_length_incl Hndg Hle Hincl s Hs) as Hin.
  apply in_map_iff in Hin. destruct Hin as [e [Hw He]].
  destruct (Hg e He) as [Hidx [Hc _]].
  destruct e. cbn in *. now subst.
Qed.

(* --------------------------------------------------------------------- *)
(** *** The rows of the main query *)

Lemma joined_rows_course (db : database) (c : course) (s : section)
    (m : meeting_pattern) (g : gps_row) :
  In (c, s, m, g) (joined_rows db) -> In c (courses db).
Proof.
  unfold joined_rows. intros H. apply in_flat_map in H.
  destruct H as [c' [Hc H]]. apply in_flat_map in H. destruct H as [s' [_ H]].
  destruct (course_id c' =? section_course_id s'); [| destruct H].
  apply in_flat_map in H. destruct H as [m' [_ H]].
  destruct (section_meeting_pattern_id s' =? meeting_pattern_id m'); [| destruct H].
  apply in_flat_map in H. destruct H as [g' [_ H]].
  destruct (String.eqb (gps_building_code g') (section_building_code s')); [| destruct H].
  destruct H as [H | []]. now injection H as <- _ _ _.
Qed.

(** The rows joined: a section with its course, its meeting pattern
    and a gps row of its building. *)
Lemma joined_rows_in (db : database) (c : course) (s : section)
    (m : meeting_pattern) (g : gps_row) :
  In (c, s, m, g) (joined_rows db) <->
  In c (courses db) /\ In s (sections db) /\ In m (meeting_patterns db)
  /\ In g (gps db)
  /\ course_id c = section_course_id s
  /\ section_meeting_pattern_id s = meeting_pattern_id m
  /\ gps_building_code g = section_building_code s.
Proof.
  unfold joined_rows. split.
  - intros H. apply in_flat_map in H. destruct H as [c' [Hc H]].
    apply in_flat_map in H. destruct H as [s' [Hs H]].
    destruct (course_id c' =? section_course_id s') eqn:E1; [| destruct H].
    apply in_flat_map in H. destruct H as [m' [Hm H]].
    destruct (section_meeting_pattern_id s' =? meeting_pattern_id m') eqn:E2;
      [| destruct H].
    apply in_flat_map in H. destruct H as [g' [Hg H]].
    destruct (String.eqb (gps_building_code g') (section_building_code s')) eqn:E3;
      [| destruct H].
    destruct H as [H | []]. injection H as <- <- <- <-.
    apply Z.eqb_eq in E1, E2. apply String.eqb_eq in E3. now repeat split.
  - intros [Hc [Hs [Hm [Hg [E1 [E2 E3]]]]]].
    apply in_flat_map. exists c. split; [assumption |].
    apply in_flat_map. exists s. split; [assumption |].
    rewrite E1, Z.eqb_refl.
    apply in_flat_map. exists m. split; [assumption |].
    rewrite E2, Z.eqb_refl.
    apply in_flat_map. exists g. split; [assumption |].
    rewrite E3, String.eqb_refl. now left.
Qed.

(** The scan visits the rows of the FROM clause, in some order. *)
Lemma in_insert_by {A} (rank : A -> nat) (x y : A) (l : list A) :
  In y (insert_by rank x l) <-> x = y \/ In y l.
Proof.
  induction l as [| z l IH]; cbn [insert_by]; [reflexivity |].
  destruct (rank x <=? rank z)%nat; [reflexivity |].
  cbn [In]. rewrite IH. tauto.
Qed.

Lemma in_sort_by {A} (rank : A -> nat) (y : A) (l : list A) :
  In y (sort_by rank l) <-> In y l.
Proof.
  unfold sort_by. induction l as [| x l IH]; cbn [fold_right]; [reflexivity |].
  rewrite in_insert_by, IH. reflexivity.
Qed.

Lemma from_rows_joined (db : database) (r : from_row) :
  In r (from_rows db true) <->
  exists c s m g,
    In (c, s, m, g) (joined_rows db)
    /\ r = {| r_course := c; r_section := Some (s, m, g);
              r_walking_time := None |}.
Proof.
  unfold from_rows. rewrite in_sort_by, in_map_iff. split.
  - intros [[[[c s] m] g] [<- H]]. now exists c, s, m, g.
  - intros [c [s [m [g [H ->]]]]]. now exists (c, s, m, g).
Qed.

Lemma from_rows_courses (db : database) (r : from_row) :
  In r (from_rows db false) <->
  exists c,
    In c (courses db)
    /\ r = {| r_course := c; r_section := None; r_walking_time := None |}.
Proof.
  unfold from_rows. rewrite in_sort_by, in_map_iff. split.
  - intros [c [<- H]]. now exists c.
  - intros [c [H ->]]. now exists c.
Qed.

Lemma from_rows_course (db : database) (joined : bool) (r : from_row) :
  In r (from_rows db joined) ->
  In (r_course r) (courses db) /\ r_walking_time r = None.
Proof.
  destruct joined; intros H.
  - apply from_rows_joined in H. destruct H as [c [s [m [g [H ->]]]]].
    split; [| reflexivity]. now apply (joined_rows_course db c s m g).
  - apply from_rows_courses in H. destruct H as [c [H ->]]. now split.
Qed.

(** DISTINCT keeps rows of the list, one for each row of the list, and
    no two that are the same. *)
Lemma same_sqlrow_iff (a b : list sqlval) :
  same_sqlrow a b = true <-> map sql_key a = map sql_key b.
Proof.
  unfold same_sqlrow.
  destruct (list_eq_dec sqlkey_eq_dec (map sql_key a) (map sql_key b));
    split; intros H; congruence.
Qed.

Lemma distinct_incl (rows : list (list sqlval)) (r : list sqlval) :
  In r (distinct rows) -> In r rows.
Proof.
  induction rows as [| a rows IH]; cbn [distinct]; [tauto |].
  intros [<- | H]; [now left |].
  apply filter_In in H. right. now apply IH.
Qed.

Lemma distinct_covers (rows : list (list sqlval)) (r : list sqlval) :
  In r rows ->
  exists r', In r' (distinct rows) /\ map sql_key r' = map sql_key r.
Proof.
  induction rows as [| a rows IH]; [intros [] |].
  intros [<- | H]; cbn [distinct].
  - exists a. split; [now left | reflexivity].
  - destruct (IH H) as [r' [Hin Hk]].
    destruct (same_sqlrow a r') eqn:E.
    + exists a. split; [now left |].
      apply same_sqlrow_iff in E. congruence.
    + exists r'. split; [| exact Hk]. right. apply filter_In.
      split; [assumption |]. now rewrite E.
Qed.

Lemma distinct_keys (rows : list (list sqlval)) :
  NoDup (map (map sql_key) (distinct rows)).
Proof.
  induction rows as [| a rows IH]; cbn [distinct map]; constructor.
  - intros H. apply in_map_iff in H. destruct H as [b [Hk Hb]].
    apply filter_In in Hb. destruct Hb as [_ Hb].
    apply negb_true_iff in Hb.
    assert (Hs : same_sqlrow a b = true) by (apply same_sqlrow_iff; congruence).
    congruence.
  - induction (distinct rows) as [| b l IHl]; cbn [filter map]; [constructor |].
    inversion IH as [| ? ? Hnb Hl]; subst.
    destruct (negb (same_sqlrow a b)); [| now apply IHl].
    cbn [map]. constructor; [| now apply IHl].
    intros H. apply Hnb. apply in_map_iff in H. destruct H as [x [Hk Hx]].
    apply filter_In in Hx. apply in_map_iff. exists x. tauto.
Qed.

(** One call from SQL that gives a value. *)
Lemma call_value (f : scalar) (g : gps_row) (x y : sqlval) (w : Z) :
  call f g x y = Some w <->
  f [to_python (lon g); to_python (lat g); to_python x; to_python y] = ok w
  /\ int64 w = true.
Proof.
  unfold call.
  destruct (f _) as [e | w']; [split; [discriminate | intros [H _]; discriminate H] |].
  destruct (int64 w') eqn:E; split.
  - intros H. injection H as <-. now split.
  - intros [H _]. unfold ok in H. injection H as <-. reflexivity.
  - discriminate.
  - intros [H H']. unfold ok in H. injection H as <-. congruence.
Qed.

(** The rows with their walking time: those the function was called
    on, each with the value of its call. *)
Lemma with_walking_time_in (f : scalar) (x y : sqlval)
    (rows out : list from_row) (r : from_row) :
  with_walking_time f x y rows = ok out ->
  (In r out <->
   exists r0 s m g w,
     In r0 rows
     /\ r_section r0 = Some (s, m, g)
     /\ call f g x y = Some w
     /\ r = {| r_course := r_course r0; r_section := r_section r0;
               r_walking_time := Some w |}).
Proof.
  revert out. induction rows as [| a rows IH]; intros out H.
  - injection H as <-. split; [intros [] |].
    intros [r0 [s [m [g [w [[] _]]]]]].
  - cbn [with_walking_time] in H.
    destruct (r_section a) as [[[s m] g] |] eqn:Es; [| discriminate H].
    destruct (call f g x y) as [w |] eqn:Ec; [| discriminate H].
    destruct (with_walking_time f x y rows) as [e | rs]; [discriminate H |].
    cbn [rbind] in H. unfold ok in H. injection H as <-.
    specialize (IH rs eq_refl). cbn [In]. rewrite IH. split.
    + intros [<- | [r0 [s' [m' [g' [w' [H1 H2]]]]]]].
      * exists a, s, m, g, w. rewrite Es. repeat split; try assumption.
        now left.
      * exists r0, s', m', g', w'. split; [now right | exact H2].
    + intros [r0 [s' [m' [g' [w' [[<- | H1] [H2 [H3 ->]]]]]]]].
      * left. rewrite Es in H2. injection H2 as <- <- <-.
        rewrite Ec in H3. injection H3 as <-. now rewrite ?Es.
      * right. now exists r0, s', m', g', w'.
Qed.

Lemma with_walking_time_total (f : scalar) (x y : sqlval)
    (rows : list from_row) :
  (forall r0, In r0 rows ->
     exists s m g w, r_section r0 = Some (s, m, g) /\ call f g x y = Some w) ->
  exists out, with_walking_time f x y rows = ok out.
Proof.
  induction rows as [| a rows IH]; intros Hall; [now exists [] |].
  destruct (Hall a (or_introl eq_refl)) as [s [m [g [w [Hs Hc]]]]].
  destruct IH as [out Hout]; [intros r0 H; apply Hall; now right |].
  eexists. cbn [with_walking_time]. rewrite Hs, Hc, Hout. reflexivity.
Qed.

(** A predicate other than the walking-time term does not look at the
    walking time. *)
Lemma holds_apart_walking (db : database) (p : pred) (ps : list sqlval)
    (r : from_row) (w : option Z) :
  holds_apart db p ps
    {| r_course := r_course r; r_section := r_section r; r_walking_time := w |}
  = holds_apart db p ps r.
Proof. destruct p; reflexivity. Qed.

Lemma all_hold_apart_walking (db : database) (preds : list pred)
    (ps : list sqlval) (r : from_row) (w : option Z) :
  all_hold_apart db preds ps
    {| r_course := r_course r; r_section := r_section r; r_walking_time := w |}
  = all_hold_apart db preds ps r.
Proof.
  revert ps. induction preds as [| p preds IH]; intros ps; [reflexivity |].
  cbn [all_hold_apart]. now rewrite holds_apart_walking, IH.
Qed.

Lemma all_hold_all_apart (db : database) (preds : list pred)
    (ps : list sqlval) (r : from_row) :
  all_hold db preds ps r = true -> all_hold_apart db preds ps r = true.
Proof.
  revert ps. induction preds as [| p preds IH]; intros ps; [reflexivity |].
  cbn [all_hold all_hold_apart]. intros H. apply andb_true_iff in H.
  destruct H as [H1 H2]. apply andb_true_iff. split; [| now apply IH].
  destruct p; try exact H1. reflexivity.
Qed.

(** What the rows selected are: rows of the FROM clause on which every
    predicate holds, with the value of the call as their walking time
    when the column is selected. *)
Lemma selected_in (c : connection) (st : statement) (ps : list sqlval)
    (rows : list from_row) (r : from_row) :
  selected c st ps = ok rows ->
  In r rows ->
  all_hold (data c) (st_preds st)
    (skipn (select_arity (st_select st)) ps) r = true
  /\ In {| r_course := r_course r; r_section := r_section r;
           r_walking_time := None |}
        (from_rows (data c) (st_joined st))
  /\ match st_select st with
     | WalkingColumns =>
         exists f x y rest s m g w,
           registered "time_between" 4 c = Some f
           /\ ps = x :: y :: rest
           /\ r_section r = Some (s, m, g)
           /\ r_walking_time r = Some w
           /\ call f g x y = Some w
     | _ => r_walking_time r = None
     end.
Proof.
  unfold selected. intros H Hin.
  assert (Hplain :
            ok (filter (all_hold (data c) (st_preds st)
                          (skipn (select_arity (st_select st)) ps))
                  (from_rows (data c) (st_joined st))) = ok rows ->
            all_hold (data c) (st_preds st)
              (skipn (select_arity (st_select st)) ps) r = true
            /\ In {| r_course := r_course r; r_section := r_section r;
                     r_walking_time := None |}
                  (from_rows (data c) (st_joined st))
            /\ r_walking_time r = None).
  { intros E. unfold ok in E. injection E as <-. apply filter_In in Hin.
    destruct Hin as [Hin Hall].
    destruct (from_rows_course _ _ _ Hin) as [_ Hw].
    split; [assumption |]. split; [| assumption].
    destruct r as [rc rs rw]. cbn in Hw |- *. now subst rw. }
  destruct (st_select st); try (now apply Hplain).
  destruct (registered "time_between" 4 c) as [f |]; [| discriminate H].
  destruct ps as [| x [| y rest]]; try discriminate H.
  destruct (eager_calls _ _ _ _ _); [| discriminate H].
  destruct (with_walking_time f x y _) as [e | rs] eqn:Ew; [discriminate H |].
  cbn [rbind] in H. unfold ok in H. injection H as <-.
  apply filter_In in Hin. destruct Hin as [Hin Hall].
  apply (with_walking_time_in f x y _ rs r Ew) in Hin.
  destruct Hin as [r0 [s [m [g [w [Hr0 [Hs [Hc ->]]]]]]]].
  apply filter_In in Hr0. destruct Hr0 as [Hr0 _].
  split; [assumption |]. cbn [r_course r_section r_walking_time]. split.
  - destruct (from_rows_course _ _ _ Hr0) as [_ Hw].
    destruct r0 as [rc rs0 rw]. cbn in Hw |- *. now subst rw.
  - now exists f, x, y, rest, s, m, g, w.
Qed.

(** Every row the main query returns is the projection of a row of the
    FROM clause on which each predicate holds with the parameters of its
    own item. *)
Lemma main_step_rows (d : dict) (args0 : list value) (c c' : connection)
    (header : list string) (rows : list row) (row : row) :
  validated d -> wf_dict d ->
  List.length args0 = select_arity (select_list_of d) ->
  main_step d args0 c = (ok (header, rows), c') ->
  In row rows ->
  exists r,
    row = map to_python (project (select_list_of d) r)
    /\ In (r_course r) (courses (data c))
    /\ forall k v p,
         In (k, v) d ->
         String.eqb k "building_code" = false ->
         pred_of_key (n_day d) (n_terms d) k = Some p ->
         exists chunk,
           adapt_all (bound_values (k, v)) = ok chunk
           /\ holds (data c) p chunk r = true.
Proof.
  intros V Hwf Hlen Hstep Hin. unfold main_step in Hstep.
  rewrite (run_main_query d c _ V) in Hstep.
  unfold run_query in Hstep.
  destruct (negb (resolves c (main_statement d))); [discriminate |].
  destruct (Z.ltb _ _); [discriminate |].
  destruct (negb (Nat.eqb _ _)); [discriminate |].
  destruct (adapt_all (args0 ++ where_args d)) as [e | ps] eqn:Ea; [discriminate |].
  cbn [rbind] in Hstep.
  destruct (selected c (main_statement d) ps) as [e | frows] eqn:Ef; [discriminate |].
  cbn [rbind ok] in Hstep. injection Hstep as _ <- _.
  apply in_map_iff in Hin. destruct Hin as [sr [<- Hin]].
  apply distinct_incl in Hin. apply in_map_iff in Hin. destruct Hin as [r [<- Hin]].
  destruct (selected_in c (main_statement d) ps frows r Ef Hin) as [Hall [Hfrom _]].
  exists r. split; [reflexivity |].
  split; [exact (proj1 (from_rows_course _ _ _ Hfrom)) |].
  apply adapt_all_app in Ea. destruct Ea as [cx [cy [-> [Hx Hy]]]].
  cbn [main_statement st_select st_preds] in Hall.
  rewrite <- Hlen, <- (adapt_all_length _ _ Hx), skipn_exact in Hall.
  intros k v p Hkv Hb Hp.
  apply (all_hold_items d (data c) r V Hwf (predicate_items d) cy); try assumption.
  - intros kv H. unfold predicate_items in H. now apply filter_In in H.
  - intros kv H. unfold predicate_items in H. apply filter_In in H.
    destruct H as [_ H]. now apply negb_true_iff in H.
  - unfold predicate_items. apply filter_In. split; [assumption |].
    cbn [fst]. now rewrite Hb.
Qed.

Section Rows.

Variable compute_time_between : value -> value -> value -> value -> result Z.

Local Abbreviation find_courses := (find_courses compute_time_between).
Local Abbreviation prepared := (prepared compute_time_between).

Lemma find_courses_rows (d : dict) (c c' : connection)
    (header : list string) (rows : list row) (row : row) :
  assert_valid_input d = ok tt -> wf_dict d ->
  find_courses d c = (ok (header, rows), c') ->
  In row rows ->
  exists r,
    row = map to_python (project (select_list_of d) r)
    /\ In (r_course r) (courses (data c))
    /\ forall k v p,
         In (k, v) d ->
         String.eqb k "building_code" = false ->
         pred_of_key (n_day d) (n_terms d) k = Some p ->
         exists chunk,
           adapt_all (bound_values (k, v)) = ok chunk
           /\ holds (data c) p chunk r = true.
Proof.
  intros Hok Hwf Hfc Hin. pose proof (validated_of_ok d Hok) as V.
  assert (Hne : d <> []).
  { intros ->. rewrite find_courses_empty in Hfc.
    injection Hfc as _ <- _. destruct Hin. }
  rewrite (find_courses_validated _ d c Hne Hok) in Hfc.
  destruct (section_scoped d) eqn:Es.
  - destruct (lookup "building_code" d) as [v |] eqn:Eb.
    + pose proof (v_building d V v Eb) as Hs. destruct v; try discriminate Hs.
      destruct (coordinates (prepared c) s) as [| lonlat rest] eqn:Ec;
        [discriminate |].
      apply (main_step_rows d lonlat (logged (prepared c) lookup_sql [PyStr s]) c'
               header rows row V Hwf); try assumption.
      unfold select_list_of, contains_key. rewrite Es, Eb.
      apply (coordinates_pair (prepared c) s). rewrite Ec. now left.
    + apply (main_step_rows d [] (prepared c) c' header rows row V Hwf);
        try assumption.
      unfold select_list_of, contains_key. now rewrite Es, Eb.
  - apply (main_step_rows d [] (prepared c) c' header rows row V Hwf);
      try assumption.
    unfold select_list_of. now rewrite Es.
Qed.

End Rows.

(* --------------------------------------------------------------------- *)
(** *** The main query names only what it selects and joins *)

Lemma pred_key_present (d : dict) (p : pred) :
  In p (preds_of d) -> contains_key (key_of p) d = true.
Proof.
  intros H. apply preds_of_from_key in H. destruct H as [k [v [Hin [_ Hp]]]].
  apply pred_of_key_inv in Hp. destruct Hp as [-> _].
  now apply (in_contains_key d _ v).
Qed.

Lemma key_section_scoped (d : dict) (k : string) :
  In k section_scoped_keys -> contains_key k d = true -> section_scoped d = true.
Proof.
  intros Hk Hc. unfold section_scoped. apply existsb_exists. now exists k.
Qed.

(** For a validated dictionary the main query resolves on a connection
    that has [time_between] registered. *)
Lemma main_statement_resolves (d : dict) (c : connection) (f : scalar) :
  validated d ->
  registered "time_between" 4 c = Some f ->
  resolves c (main_statement d) = true.
Proof.
  intros V Hreg. unfold resolves. cbn [main_statement st_select st_joined st_preds].
  rewrite Hreg. apply andb_true_iff. split; [apply andb_true_iff; split |].
  - unfold select_list_of.
    destruct (section_scoped d); [now destruct (contains_key "building_code" d) |].
    reflexivity.
  - apply forallb_forall. intros p Hp.
    pose proof (pred_key_present d p Hp) as Hc.
    destruct p; cbn [needs_join implb]; try reflexivity;
      cbn [key_of] in Hc;
      match type of Hc with
      | contains_key ?k d = true =>
          apply (key_section_scoped d k); [cbn; tauto | exact Hc]
      end.
  - apply forallb_forall. intros p Hp.
    pose proof (pred_key_present d p Hp) as Hc.
    destruct p; cbn [needs_walking_time implb]; try reflexivity.
    cbn [key_of] in Hc. unfold select_list_of.
    rewrite (key_section_scoped d "walking_time") by (cbn; tauto || exact Hc).
    now rewrite (v_both d V), Hc.
Qed.
(* --------------------------------------------------------------------- *)
(** *** Binding the parameters of the main query *)

Lemma adapt_int (v : value) (n : Z) (x : sqlval) :
  int_value v = Some n -> adapt v = ok x -> x = Integer n.
Proof.
  destruct v; cbn; intros Hn Ha; try discriminate Hn;
    injection Hn as Hn; subst n.
  - unfold ok in Ha. now injection Ha as <-.
  - match type of Ha with
    | context [if ?b then _ else _] => destruct b; [| discriminate Ha]
    end.
    unfold ok in Ha. now injection Ha as <-.
Qed.

Lemma adapt_all_one (v : value) (chunk : list sqlval) :
  adapt_all [v] = ok chunk -> exists x, adapt v = ok x /\ chunk = [x].
Proof.
  cbn. destruct (adapt v) as [e | x]; cbn; unfold ok; intros H;
    [discriminate H |].
  injection H as <-. now exists x.
Qed.

Lemma adapt_all_join (x y : list value) (cx cy : list sqlval) :
  adapt_all x = ok cx -> adapt_all y = ok cy ->
  adapt_all (x ++ y) = ok (cx ++ cy)%list.
Proof.
  revert cx. induction x as [| v x IH]; intros cx Hx Hy.
  - unfold ok in Hx. cbn in Hx. injection Hx as <-. exact Hy.
  - cbn [adapt_all app] in Hx |- *. destruct (adapt v) as [e | s]; [discriminate Hx |].
    cbn [rbind] in Hx |- *.
    destruct (adapt_all x) as [e | cx'] eqn:Ex; [discriminate Hx |].
    cbn [rbind] in Hx. unfold ok in Hx. injection Hx as <-.
    now rewrite (IH cx' eq_refl Hy).
Qed.

Lemma adapt_all_strings_ok (l : list value) :
  all_str l = true -> adapt_all l = ok (map Text (strings_of l)).
Proof.
  induction l as [| v l IH]; intros Hs; [reflexivity |].
  cbn [all_str forallb] in Hs. apply andb_true_iff in Hs. destruct Hs as [Hv Hs].
  destruct v; try discriminate Hv. cbn [adapt_all adapt rbind].
  now rewrite (IH Hs).
Qed.

(** The converse of [all_hold_items]: predicates that hold item by item
    hold together. *)
Lemma all_hold_of_items (d : dict) (db : database) (r : from_row) :
  validated d -> wf_dict d ->
  forall (items : dict) (ps : list sqlval),
    incl items d ->
    (forall kv, In kv items -> String.eqb (fst kv) "building_code" = false) ->
    adapt_all (flat_map bound_values items) = ok ps ->
    (forall k v p chunk,
        In (k, v) items ->
        pred_of_key (n_day d) (n_terms d) k = Some p ->
        adapt_all (bound_values (k, v)) = ok chunk ->
        holds db p chunk r = true) ->
    all_hold db
      (flat_map (fun kv => match pred_of_key (n_day d) (n_terms d) (fst kv) with
                           | Some p => [p]
                           | None => []
                           end) items)
      ps r = true.
Proof.
  intros V Hwf. induction items as [| [k0 v0] items IH];
    intros ps Hincl Hnb Ha Hall; [reflexivity |].
  cbn [flat_map] in Ha. apply adapt_all_app in Ha.
  destruct Ha as [cx [cy [-> [Hx Hy]]]].
  assert (Hin0 : In (k0, v0) d) by (apply Hincl; now left).
  assert (Hk0 : mem k0 acceptable_keys = true).
  { pose proof (v_keys d V) as Hk. unfold issubset in Hk.
    rewrite forallb_forall in Hk. apply Hk. unfold keys.
    apply in_map_iff. now exists (k0, v0). }
  destruct (acceptable_key_has_pred (n_day d) (n_terms d) k0 Hk0
              (Hnb (k0, v0) (or_introl eq_refl))) as [p0 Hp0].
  cbn [flat_map fst]. rewrite Hp0. cbn [app all_hold].
  rewrite <- (item_aligned d k0 v0 p0 cx V Hwf Hin0 Hp0 Hx).
  rewrite firstn_exact, skipn_exact.
  apply andb_true_iff. split.
  - apply (Hall k0 v0 p0 cx); [now left | assumption | assumption].
  - apply IH; try assumption.
    + intros x Hx'. apply Hincl. now right.
    + intros kv Hkv. apply Hnb. now right.
    + intros k v p chunk Hin. apply Hall. now right.
Qed.

Lemma arity_of_items (d : dict) (items : dict) :
  validated d -> wf_dict d ->
  incl items d ->
  (forall kv, In kv items -> String.eqb (fst kv) "building_code" = false) ->
  (forall k v, In (k, v) items -> forall l, v <> PyTuple l) ->
  list_sum
    (map arity
       (flat_map (fun kv => match pred_of_key (n_day d) (n_terms d) (fst kv) with
                            | Some p => [p]
                            | None => []
                            end) items))
  = List.length (flat_map bound_values items).
Proof.
  intros V Hwf. induction items as [| [k v] items IH]; intros Hincl Hnb Hnt;
    [reflexivity |].
  assert (Hin : In (k, v) d) by (apply Hincl; now left).
  assert (Hk : mem k acceptable_keys = true).
  { pose proof (v_keys d V) as Hk. unfold issubset in Hk.
    rewrite forallb_forall in Hk. apply Hk. unfold keys.
    apply in_map_iff. now exists (k, v). }
  destruct (acceptable_key_has_pred (n_day d) (n_terms d) k Hk
              (Hnb (k, v) (or_introl eq_refl))) as [p Hp].
  cbn [flat_map fst]. rewrite Hp, map_app, list_sum_app, length_app.
  rewrite IH.
  - f_equal. cbn [map list_sum fold_right]. rewrite Nat.add_0_r. symmetry.
    apply (item_aligned_values d k v p V Hwf Hin Hp).
    apply (Hnt k v). now left.
  - intros x Hx. apply Hincl. now right.
  - intros kv Hkv. apply Hnb. now right.
  - intros k' v' H'. apply (Hnt k' v'). now right.
Qed.

Lemma predicate_items_incl (d : dict) : incl (predicate_items d) d.
Proof. intros kv H. unfold predicate_items in H. now apply filter_In in H. Qed.

Lemma predicate_items_not_building (d : dict) (kv : string * value) :
  In kv (predicate_items d) -> String.eqb (fst kv) "building_code" = false.
Proof.
  intros H. unfold predicate_items in H. apply filter_In in H.
  destruct H as [_ H]. now apply negb_true_iff in H.
Qed.

Lemma fits64_adapt (v : value) : fits64 v = true -> exists x, adapt v = ok x.
Proof.
  destruct v; cbn [fits64 adapt]; intros H; try discriminate H;
    try (now eexists).
  rewrite H. now eexists.
Qed.

Lemma fits64_adapt_all (l : list value) :
  forallb fits64 l = true -> exists xs, adapt_all l = ok xs.
Proof.
  induction l as [| v l IH]; intros H; [now exists [] |].
  cbn [forallb] in H. apply andb_true_iff in H. destruct H as [Hv Hl].
  destruct (fits64_adapt v Hv) as [x Hx]. destruct (IH Hl) as [xs Hxs].
  exists (x :: xs). cbn [adapt_all]. now rewrite Hx, Hxs.
Qed.

Lemma bindable_bound_values (k : string) (v : value) :
  bindable v = true -> exists chunk, adapt_all (bound_values (k, v)) = ok chunk.
Proof.
  intros H. destruct v as [| b | n | bits | s | l | l];
    try (apply (fits64_adapt_all [_]); cbn [forallb]; cbn [bindable] in H;
         now rewrite H).
  - cbn [bindable] in H. apply andb_true_iff in H. destruct H as [Hl Hn].
    destruct (fits64_adapt_all l Hl) as [xs Hxs].
    cbn [bound_values type_is_list elements].
    destruct (String.eqb k "terms"); [| now exists xs].
    exists (xs ++ [Integer (Z.of_nat (List.length l))])%list.
    apply adapt_all_join; [assumption |].
    cbn [adapt_all adapt]. apply Z.ltb_lt in Hn.
    replace ((- 2 ^ 63 <=? Z.of_nat (List.length l))
             && (Z.of_nat (List.length l) <? 2 ^ 63)) with true; [reflexivity |].
    change (2 ^ 63) with 9223372036854775808 in Hn |- *.
    symmetry. apply andb_true_iff. split; [apply Z.leb_le | apply Z.ltb_lt]; lia.
Qed.

Lemma bindable_args (d : dict) :
  (forall k v, In (k, v) d -> bindable v = true) ->
  forall items, incl items d ->
                exists ps, adapt_all (flat_map bound_values items) = ok ps.
Proof.
  intros Hb. induction items as [| [k v] items IH]; intros Hincl; [now exists [] |].
  destruct IH as [cy Hy]; [intros x Hx; apply Hincl; now right |].
  destruct (bindable_bound_values k v) as [cx Hx];
    [apply (Hb k v); apply Hincl; now left |].
  exists (cx ++ cy)%list. cbn [flat_map]. now apply adapt_all_join.
Qed.

Lemma bindable_not_tuple (v : value) :
  bindable v = true -> forall l, v <> PyTuple l.
Proof. intros H l ->. discriminate H. Qed.

(** The predicates other than the walking-time term hold together
    exactly when each holds on the parameters of its own item. *)
Lemma all_hold_apart_items (d : dict) (db : database) (r : from_row) :
  validated d -> wf_dict d ->
  forall (items : dict) (ps : list sqlval),
    incl items d ->
    (forall kv, In kv items -> String.eqb (fst kv) "building_code" = false) ->
    adapt_all (flat_map bound_values items) = ok ps ->
    (all_hold_apart db
       (flat_map (fun kv => match pred_of_key (n_day d) (n_terms d) (fst kv) with
                            | Some p => [p]
                            | None => []
                            end) items)
       ps r = true
     <-> forall k v p chunk,
           In (k, v) items ->
           pred_of_key (n_day d) (n_terms d) k = Some p ->
           adapt_all (bound_values (k, v)) = ok chunk ->
           holds_apart db p chunk r = true).
Proof.
  intros V Hwf. induction items as [| [k0 v0] items IH];
    intros ps Hincl Hnb Ha; [split; [intros _ k v p chunk [] | reflexivity] |].
  cbn [flat_map] in Ha. apply adapt_all_app in Ha.
  destruct Ha as [cx [cy [-> [Hx Hy]]]].
  assert (Hin0 : In (k0, v0) d) by (apply Hincl; now left).
  assert (Hrest : incl items d) by (intros x Hx'; apply Hincl; now right).
  assert (Hnb' : forall kv, In kv items -> String.eqb (fst kv) "building_code" = false)
    by (intros kv Hkv; apply Hnb; now right).
  assert (Hk0 : mem k0 acceptable_keys = true).
  { pose proof (v_keys d V) as Hk. unfold issubset in Hk.
    rewrite forallb_forall in Hk. apply Hk. unfold keys.
    apply in_map_iff. now exists (k0, v0). }
  destruct (acceptable_key_has_pred (n_day d) (n_terms d) k0 Hk0
              (Hnb (k0, v0) (or_introl eq_refl))) as [p0 Hp0].
  cbn [flat_map fst]. rewrite Hp0. cbn [app all_hold_apart].
  rewrite <- (item_aligned d k0 v0 p0 cx V Hwf Hin0 Hp0 Hx).
  rewrite firstn_exact, skipn_exact, andb_true_iff.
  rewrite (IH cy Hrest Hnb' Hy). split.
  - intros [H0 Hall] k v p chunk [E | Hin] Hp Hc.
    + injection E as <- <-. rewrite Hp0 in Hp. injection Hp as <-.
      rewrite Hx in Hc. unfold ok in Hc. now injection Hc as <-.
    + now apply (Hall k v p chunk).
  - intros Hall. split.
    + apply (Hall k0 v0 p0 cx); [now left | assumption | assumption].
    + intros k v p chunk Hin. apply Hall. now right.
Qed.

(** The statement read back from the main query binds as many values as
    the text holds placeholders. *)
Lemma placeholders_main_query (d : dict) :
  count_placeholders (main_query d) = statement_arity (main_statement d).
Proof.
  unfold main_query, where_clause, statement_arity.
  cbn [main_statement st_select st_preds].
  rewrite !count_placeholders_app.
  assert (Hs : count_placeholders (select_clause d)
               = select_arity (select_list_of d)).
  { unfold select_clause, select_list_of.
    destruct (section_scoped d), (contains_key "building_code" d); reflexivity. }
  assert (Hf : count_placeholders (from_clause d) = 0%nat).
  { unfold from_clause. destruct (section_scoped d); reflexivity. }
  rewrite Hs, Hf. cbn [plus]. f_equal.
  replace (count_placeholders where_) with 0%nat by reflexivity. cbn [plus].
  unfold preds_of. induction (predicate_items d) as [| kv items IH];
    [reflexivity |].
  cbn [map concat_all flat_map]. rewrite count_placeholders_app, IH.
  rewrite map_app, list_sum_app. f_equal.
  unfold fragment. destruct (pred_of_key _ _ (fst kv)) as [p |]; [| reflexivity].
  rewrite count_placeholders_pred. cbn [map list_sum fold_right]. lia.
Qed.

(** The main query of a validated dictionary whose values can be bound
    is prepared and bound without error when the connection allows its
    placeholders; what it returns is what its rows make it. *)
Lemma run_main_query_bound (d : dict) (c : connection) (f : scalar)
    (args0 : list value) (xs : list sqlval) :
  validated d -> wf_dict d ->
  registered "time_between" 4 c = Some f ->
  Z.of_nat (count_placeholders (main_query d))
  <= Z.pos (variable_limit (data c)) ->
  (forall k v, In (k, v) d -> bindable v = true) ->
  adapt_all args0 = ok xs ->
  List.length args0 = select_arity (select_list_of d) ->
  exists ps,
    adapt_all (where_args d) = ok ps
    /\ run c (main_query d) (args0 ++ where_args d)
       = rbind (selected c (main_statement d) (xs ++ ps)) (fun rows =>
         ok {| description :=
                 map Build_descriptor (columns (select_list_of d));
               fetchall :=
                 map (map to_python)
                     (distinct (map (project (select_list_of d)) rows)) |}).
Proof.
  intros V Hwf Hreg Hlim Hbind Hxs Hlen.
  destruct (bindable_args d Hbind (predicate_items d) (predicate_items_incl d))
    as [ps Hps].
  fold (where_args d) in Hps. exists ps. split; [exact Hps |].
  rewrite (run_main_query d c _ V). unfold run_query.
  rewrite (main_statement_resolves d c f V Hreg). cbn [negb].
  rewrite <- placeholders_main_query.
  replace (Z.pos (variable_limit (data c))
           <? Z.of_nat (count_placeholders (main_query d))) with false
    by (symmetry; apply Z.ltb_ge; exact Hlim).
  replace (Nat.eqb (List.length (args0 ++ where_args d))
             (count_placeholders (main_query d))) with true.
  - cbn [negb]. rewrite (adapt_all_join _ _ _ _ Hxs Hps). reflexivity.
  - symmetry. apply Nat.eqb_eq. rewrite placeholders_main_query.
    unfold statement_arity. cbn [main_statement st_select st_preds].
    rewrite length_app, Hlen. f_equal. symmetry.
    apply (arity_of_items d (predicate_items d) V Hwf (predicate_items_incl d)
             (predicate_items_not_building d)).
    intros k v Hkv. apply bindable_not_tuple, (Hbind k v).
    now apply predicate_items_incl.
Qed.

Lemma adapt_to_python (z x : sqlval) : adapt (to_python z) = ok x -> x = z.
Proof.
  destruct z; cbn; intros H.
  - unfold ok in H. now injection H as <-.
  - match type of H with
    | context [if ?b then _ else _] => destruct b; [| discriminate H]
    end.
    unfold ok in H. now injection H as <-.
  - unfold ok in H. now injection H as <-.
  - unfold ok in H. now injection H as <-.
Qed.

Lemma coordinates_row (c : connection) (b : string) (ref : row) :
  In ref (coordinates c b) ->
  exists g, In g (gps (data c)) /\ gps_building_code g = b
            /\ ref = [to_python (lon g); to_python (lat g)].
Proof.
  unfold coordinates. intros H. apply in_map_iff in H.
  destruct H as [g [<- Hg]]. apply filter_In in Hg. destruct Hg as [Hg Hb].
  apply String.eqb_eq in Hb. now exists g.
Qed.

(** The first gps row of a building, as the lookup fetches it and as
    it is bound again to the select list. *)
Lemma reference_bound (c : connection) (b : string) (ref_lon ref_lat : value)
    (others : list row) :
  coordinates c b = [ref_lon; ref_lat] :: others ->
  fits64 ref_lon = true -> fits64 ref_lat = true ->
  exists x y,
    adapt_all [ref_lon; ref_lat] = ok [x; y]
    /\ to_python x = ref_lon /\ to_python y = ref_lat.
Proof.
  intros Hco Hlon Hlat.
  assert (Href : In [ref_lon; ref_lat] (coordinates c b))
    by (rewrite Hco; now left).
  apply coordinates_row in Href. destruct Href as [g0 [_ [_ Href]]].
  injection Href as -> ->.
  destruct (fits64_adapt _ Hlon) as [x Hx].
  destruct (fits64_adapt _ Hlat) as [y Hy].
  pose proof (adapt_to_python _ _ Hx) as Ex.
  pose proof (adapt_to_python _ _ Hy) as Ey. subst x y.
  exists (lon g0), (lat g0). cbn [adapt_all]. rewrite Hx, Hy.
  now repeat split.
Qed.

Lemma get_header_columns (sel : select_list) (rows : list row) :
  get_header {| description := map Build_descriptor (columns sel);
                fetchall := rows |}
  = header_of sel.
Proof. destruct sel; reflexivity. Qed.

Section Runs.

Variable compute_time_between : value -> value -> value -> value -> result Z.

Local Abbreviation find_courses := (find_courses compute_time_between).
Local Abbreviation prepared := (prepared compute_time_between).
Local Abbreviation time_between := (time_between compute_time_between).

(** A call on a non-empty validated dictionary whose values can be
    bound, within the placeholders the connection allows, and whose
    reference building, if any, has a gps row: the main query is
    issued, and the result of the call is made of the rows it
    selects. *)
Lemma find_courses_by_selected (d : dict) (c : connection)
    (args0 : list value) (xs : list sqlval) :
  d <> [] ->
  assert_valid_input d = ok tt ->
  wf_dict d ->
  (forall k v, In (k, v) d -> bindable v = true) ->
  Z.of_nat (count_placeholders (main_query d))
  <= Z.pos (variable_limit (data c)) ->
  (forall b, lookup "building_code" d = Some (PyStr b) ->
             exists others, coordinates c b = args0 :: others) ->
  (lookup "building_code" d = None -> args0 = []) ->
  adapt_all args0 = ok xs ->
  exists ps c2,
    adapt_all (where_args d) = ok ps
    /\ data c2 = data c
    /\ registered "time_between" 4 c2 = Some time_between
    /\ fst (find_courses d c)
       = rbind (selected c2 (main_statement d) (xs ++ ps)) (fun rows =>
         ok (header_of (select_list_of d),
             map (map to_python)
                 (distinct (map (project (select_list_of d)) rows))))
    /\ In (main_query d, (args0 ++ where_args d)%list)
          (issued c (snd (find_courses d c))).
Proof.
  intros Hne Hok Hwf Hbind Hlim Hco Hnone Hxs.
  pose proof (validated_of_ok d Hok) as V.
  assert (Hstep :
            forall c2,
              data c2 = data c ->
              registered "time_between" 4 c2 = Some time_between ->
              List.length args0 = select_arity (select_list_of d) ->
              exists ps,
                adapt_all (where_args d) = ok ps
                /\ fst (main_step d args0 c2)
                   = rbind (selected c2 (main_statement d) (xs ++ ps))
                       (fun rows =>
                          ok (header_of (select_list_of d),
                              map (map to_python)
                                  (distinct
                                     (map (project (select_list_of d)) rows))))).
  { intros c2 Hd Hreg Hlen.
    destruct (run_main_query_bound d c2 time_between args0 xs V Hwf Hreg)
      as [ps [Hps Hrun]]; try assumption; [now rewrite Hd |].
    exists ps. split; [exact Hps |].
    unfold main_step. cbn [fst]. rewrite Hrun.
    destruct (selected c2 (main_statement d) (xs ++ ps)) as [e | rows];
      [reflexivity |].
    cbn [rbind ok]. now rewrite get_header_columns. }
  rewrite (find_courses_validated _ d c Hne Hok).
  destruct (lookup "building_code" d) as [v |] eqn:Eb.
  - pose proof (v_building d V v Eb) as Hs. destruct v; try discriminate Hs.
    assert (Hsc : section_scoped d = true).
    { apply (building_code_section_scoped d V).
      unfold contains_key. now rewrite Eb. }
    rewrite Hsc.
    destruct (Hco s eq_refl) as [others Hc].
    rewrite (coordinates_prepared compute_time_between c s), Hc.
    destruct (Hstep (logged (prepared c) lookup_sql [PyStr s]))
      as [ps [Hps Hrun]]; [reflexivity | reflexivity | |].
    { unfold select_list_of, contains_key. rewrite Hsc, Eb.
      apply (coordinates_pair c s). rewrite Hc. now left. }
    exists ps, (logged (prepared c) lookup_sql [PyStr s]).
    split; [exact Hps |]. split; [reflexivity |]. split; [reflexivity |].
    split; [exact Hrun |].
    unfold main_step. cbn [snd]. rewrite issued_two. right. now left.
  - rewrite (Hnone eq_refl) in *.
    assert (Hsel : List.length (@nil value) = select_arity (select_list_of d)).
    { unfold select_list_of, contains_key. rewrite Eb.
      now destruct (section_scoped d). }
    destruct (Hstep (prepared c) eq_refl eq_refl Hsel) as [ps [Hps Hrun]].
    exists ps, (prepared c).
    split; [exact Hps |]. split; [reflexivity |]. split; [reflexivity |].
    assert (E : (if section_scoped d
                 then main_step d [] (prepared c)
                 else main_step d [] (prepared c))
                = main_step d [] (prepared c))
      by (now destruct (section_scoped d)).
    rewrite E. split; [exact Hrun |].
    unfold main_step. cbn [snd]. rewrite issued_one. now left.
Qed.

End Runs.

(** The rows selected with the walking-time column, when every call of
    the function gives a value: the joined rows on which every
    predicate holds, each with the value of its call. *)
Lemma selected_walking_total (c : connection) (st : statement) (f : scalar)
    (x y : sqlval) (rest : list sqlval) :
  st_select st = WalkingColumns ->
  st_joined st = true ->
  registered "time_between" 4 c = Some f ->
  (forall g, In g (gps (data c)) -> exists w, call f g x y = Some w) ->
  exists rows,
    selected c st (x :: y :: rest) = ok rows
    /\ forall r,
         In r rows <->
         exists c0 s m g w,
           In (c0, s, m, g) (joined_rows (data c))
           /\ call f g x y = Some w
           /\ r = {| r_course := c0; r_section := Some (s, m, g);
                     r_walking_time := Some w |}
           /\ all_hold (data c) (st_preds st) rest r = true.
Proof.
  intros Hsel Hj Hreg Htot. unfold selected. rewrite Hsel, Hj, Hreg.
  cbn [select_arity skipn].
  assert (He : eager_calls (data c) (st_preds st) f x y = true).
  { unfold eager_calls. apply forallb_forall. intros g Hg.
    destruct (existsb needs_walking_time (st_preds st)); [| destruct Hg].
    destruct (Htot g Hg) as [w Hw]. rewrite Hw. now destruct (eager _ g). }
  rewrite He.
  set (apart := filter (all_hold_apart (data c) (st_preds st) rest)
                       (from_rows (data c) true)).
  destruct (with_walking_time_total f x y apart) as [out Hout].
  { intros r0 H0. apply filter_In in H0. destruct H0 as [H0 _].
    apply from_rows_joined in H0. destruct H0 as [c0 [s [m [g [Hin ->]]]]].
    apply joined_rows_in in Hin. destruct Hin as [_ [_ [_ [Hg _]]]].
    destruct (Htot g Hg) as [w Hw]. now exists s, m, g, w. }
  rewrite Hout. cbn [rbind]. eexists. split; [reflexivity |].
  intros r. rewrite filter_In, (with_walking_time_in f x y apart out r Hout).
  split.
  - intros [[r0 [s [m [g [w [H0 [Hs [Hc ->]]]]]]]] Hall].
    apply filter_In in H0. destruct H0 as [H0 _].
    apply from_rows_joined in H0. destruct H0 as [c0 [s' [m' [g' [Hin ->]]]]].
    cbn [r_section] in Hs. injection Hs as <- <- <-.
    exists c0, s', m', g', w. now repeat split.
  - intros [c0 [s [m [g [w [Hin [Hc [-> Hall]]]]]]]]. split; [| exact Hall].
    exists {| r_course := c0; r_section := Some (s, m, g);
              r_walking_time := None |}, s, m, g, w.
    split; [| now repeat split].
    apply filter_In. split; [apply from_rows_joined; now exists c0, s, m, g |].
    apply all_hold_all_apart in Hall.
    now rewrite <- (all_hold_apart_walking _ _ _ _ (Some w)).
Qed.

(* ===================================================================== *)
(** ** The empty dictionary *)
(* ===================================================================== *)

(** C4: for a criteria mapping with no keys, [find_courses] returns
    [([], [])] and hands no statement to the store, neither the lookup
    nor a composed query; the data is untouched.  (The registration of
    [time_between] of line 40 precedes the test and is still made.) *)
Theorem find_courses_no_keys
    (compute_time_between : value -> value -> value -> value -> result Z)
    (d : dict) (c : connection) :
  keys d = [] ->
  fst (find_courses compute_time_between d c) = ok ([], [])
  /\ issued c (snd (find_courses compute_time_between d c)) = []
  /\ data (snd (find_courses compute_time_between d c)) = data c.
Proof.
  intros Hk. destruct d as [| kv d]; [| discriminate Hk].
  rewrite find_courses_empty. cbn [fst snd].
  split; [reflexivity |]. split; [apply issued_prepared | reflexivity].
Qed.

Lemma find_courses_no_keys_witness :
  keys ([] : dict) = []
  /\ fst (find_courses five_minutes [] fresh_connection) = ok ([], [])
  /\ issued fresh_connection (snd (find_courses five_minutes [] fresh_connection)) = []
  /\ data (snd (find_courses five_minutes [] fresh_connection)) = data fresh_connection.
Proof.
  split; [reflexivity |].
  exact (find_courses_no_keys five_minutes [] fresh_connection eq_refl).
Defined.

(* ===================================================================== *)
(** ** A building without coordinates *)
(* ===================================================================== *)

(** C7, as the code has it: when the [building_code] of a validated
    dictionary has no gps row, [find_courses] raises [IndexError] (from
    indexing the empty lookup result), not the validator's
    [AssertionError], and the lookup is the only statement issued. *)
Theorem unknown_building_raises_index_error
    (compute_time_between : value -> value -> value -> value -> result Z)
    (d : dict) (c : connection) (b : string) :
  assert_valid_input d = ok tt ->
  lookup "building_code" d = Some (PyStr b) ->
  coordinates c b = [] ->
  fst (find_courses compute_time_between d c) = raise IndexError
  /\ issued c (snd (find_courses compute_time_between d c))
     = [(lookup_sql, [PyStr b])].
Proof.
  intros Hok Hb Hc. pose proof (validated_of_ok d Hok) as V.
  assert (Hne : d <> []) by (intros ->; discriminate Hb).
  rewrite (find_courses_validated _ d c Hne Hok).
  rewrite (building_code_section_scoped d V)
    by (unfold contains_key; now rewrite Hb).
  rewrite Hb, coordinates_prepared, Hc. cbn [fst snd].
  split; [reflexivity | apply issued_one].
Qed.

Lemma unknown_building_raises_index_error_witness :
  assert_valid_input criteria_unknown_building = ok tt
  /\ lookup "building_code" criteria_unknown_building = Some (PyStr "XX")
  /\ coordinates fresh_connection "XX" = []
  /\ fst (find_courses five_minutes criteria_unknown_building fresh_connection)
     = raise IndexError.
Proof.
  repeat (split; [reflexivity |]).
  exact (proj1 (unknown_building_raises_index_error five_minutes
                  criteria_unknown_building fresh_connection "XX"
                  eq_refl eq_refl eq_refl)).
Defined.

(** C7 as stated fails: the error surfaced for an unknown building is
    the index error itself. *)
Lemma unknown_building_is_an_index_error :
  assert_valid_input criteria_unknown_building = ok tt
  /\ coordinates fresh_connection "XX" = []
  /\ fst (find_courses five_minutes criteria_unknown_building fresh_connection)
     = raise IndexError.
Proof. repeat split; reflexivity. Qed.

(* ===================================================================== *)
(** ** Absent terms *)
(* ===================================================================== *)

(** C9, as the code has it: when [terms] is absent from a validated
    dictionary, no statement [find_courses] issues mentions the word
    index; the main query has no text-search predicate, and its
    parameters are the coordinates of the reference building, if any,
    followed by the values of the items other than [building_code]:
    no term and no count is bound.  The default [[""]] of line 162 only
    feeds the validator's own checks. *)
Theorem absent_terms_no_text_filter
    (compute_time_between : value -> value -> value -> value -> result Z)
    (d : dict) (c : connection) (q : string) (a : list value) :
  d <> [] ->
  assert_valid_input d = ok tt ->
  contains_key "terms" d = false ->
  In (q, a) (issued c (snd (find_courses compute_time_between d c))) ->
  substring_of "catalog_index" q = false
  /\ (q = lookup_sql ->
      exists b, lookup "building_code" d = Some (PyStr b) /\ a = [PyStr b])
  /\ (q <> lookup_sql ->
      exists st args0,
        parse_query q = Some st
        /\ (forall n, ~ In (TermsAll n) (st_preds st))
        /\ a = (args0 ++ flat_map bound_values (predicate_items d))%list
        /\ (forall k v, In (k, v) (predicate_items d) ->
                        In (k, v) d /\ k <> "terms" /\ k <> "building_code")
        /\ (forall k v, In (k, v) (predicate_items d) ->
                        bound_values (k, v)
                        = if type_is_list v then elements v else [v])
        /\ List.length args0 = select_arity (st_select st)
        /\ (forall b, lookup "building_code" d = Some (PyStr b) ->
                      In args0 (coordinates c b))).
Proof.
  intros Hne Hok Hno Hin. pose proof (validated_of_ok d Hok) as V.
  assert (Hitems : forall k v, In (k, v) (predicate_items d) ->
                               In (k, v) d /\ k <> "terms"
                               /\ k <> "building_code").
  { intros k v H. unfold predicate_items in H. apply filter_In in H.
    destruct H as [H Hb]. cbn [fst] in Hb. apply negb_true_iff in Hb.
    split; [assumption |]. split; intros ->.
    - now rewrite (in_contains_key d _ v H) in Hno.
    - discriminate Hb. }
  destruct (find_courses_issued _ d c q a Hne Hok Hin)
    as [[b [Hb [Eq Ea]]] | [Eq [args0 [Ea [Hlen Hco]]]]]; subst q.
  - split; [reflexivity |]. split; [intros _; now exists b | congruence].
  - split; [| split].
    + apply (absent_char_no_substring "x"); [reflexivity |].
      unfold main_query. rewrite !occurs_app.
      assert (Hs : occurs "x" (select_clause d) = false).
      { unfold select_clause.
        destruct (section_scoped d), (contains_key "building_code" d); reflexivity. }
      assert (Hf : occurs "x" (from_clause d) = false).
      { unfold from_clause. destruct (section_scoped d); reflexivity. }
      rewrite Hs, Hf. cbn [orb].
      apply (occurs_where_clause "x" d V); try reflexivity.
      intros p Hp. destruct p; try reflexivity.
      now apply no_terms_pred in Hp.
    + intros E. pose proof (main_query_not_lookup d) as H.
      rewrite E, String.eqb_refl in H. discriminate H.
    + intros _. exists (main_statement d), args0.
      split; [now apply parse_main_query |].
      split; [intros n; now apply no_terms_pred |].
      split; [exact Ea |]. split; [exact Hitems |].
      split; [| split; [exact Hlen | exact Hco]].
      intros k v H. destruct (Hitems k v H) as [_ [Hk _]].
      cbn [bound_values]. destruct (type_is_list v); [| reflexivity].
      destruct (String.eqb k "terms") eqn:E; [| reflexivity].
      apply String.eqb_eq in E. congruence.
Qed.

Lemma absent_terms_no_text_filter_witness :
  In (query_dept, [PyStr "CMSC"])
     (issued fresh_connection
        (snd (find_courses five_minutes criteria_dept fresh_connection)))
  /\ substring_of "catalog_index" query_dept = false
  /\ exists st args0,
       parse_query query_dept = Some st
       /\ (forall n, ~ In (TermsAll n) (st_preds st))
       /\ [PyStr "CMSC"]
          = (args0 ++ flat_map bound_values (predicate_items criteria_dept))%list
       /\ (forall k v, In (k, v) (predicate_items criteria_dept) ->
                       In (k, v) criteria_dept /\ k <> "terms"
                       /\ k <> "building_code")
       /\ (forall k v, In (k, v) (predicate_items criteria_dept) ->
                       bound_values (k, v)
                       = if type_is_list v then elements v else [v])
       /\ List.length args0 = select_arity (st_select st)
       /\ (forall b, lookup "building_code" criteria_dept = Some (PyStr b) ->
                     In args0 (coordinates fresh_connection b)).
Proof.
  assert (Hin : In (query_dept, [PyStr "CMSC"])
                  (issued fresh_connection
                     (snd (find_courses five_minutes criteria_dept fresh_connection))))
    by (left; reflexivity).
  split; [exact Hin |].
  destruct (absent_terms_no_text_filter five_minutes criteria_dept
              fresh_connection query_dept [PyStr "CMSC"]
              ltac:(discriminate) eq_refl eq_refl Hin) as [H1 [_ H3]].
  split; [exact H1 |].
  apply H3. intros E. vm_compute in E. discriminate E.
Defined.

(** C9 as stated fails: with only [dept] supplied the one statement
    issued has the [dept] predicate alone and binds the department
    alone; no empty-string term is searched. *)
Lemma absent_terms_not_defaulted :
  assert_valid_input criteria_dept = ok tt
  /\ contains_key "terms" criteria_dept = false
  /\ issued fresh_connection
       (snd (find_courses five_minutes criteria_dept fresh_connection))
     = [(query_dept, [PyStr "CMSC"])]
  /\ parse_query query_dept
     = Some {| st_select := CourseColumns; st_joined := false;
               st_preds := [DeptEq] |}
  /\ substring_of "catalog_index" query_dept = false.
Proof. repeat split; reflexivity. Qed.

(* ===================================================================== *)
(** ** The validator against the listed constraints *)
(* ===================================================================== *)

(** C5, as the code has it: [assert_valid_input] raises the validation
    error exactly when the dictionary violates one of the listed
    constraints or binds [walking_time] to something that is not an
    integer; otherwise it returns nothing.  It is a function of the
    dictionary alone and touches no state. *)
Theorem assert_valid_input_raises_iff (d : dict) :
  (assert_valid_input d = raise AssertionError <-> violates_constraints d = true)
  /\ (assert_valid_input d = ok tt <-> violates_constraints d = false)
  /\ (violates_constraints d = true
      <-> violates_listed_constraints d = true
          \/ present_but_not "walking_time" is_integer d = true).
Proof.
  split; [apply assert_valid_input_raise_iff |].
  split; [apply assert_valid_input_ok_iff |].
  unfold violates_constraints. apply orb_true_iff.
Qed.

(** C5 as stated fails: a [walking_time] that is not an integer is
    rejected although it violates none of the constraints the claim
    lists. *)
Lemma walking_time_type_is_checked :
  assert_valid_input criteria_walking_time_text = raise AssertionError
  /\ violates_listed_constraints criteria_walking_time_text = false.
Proof. split; reflexivity. Qed.

(* ===================================================================== *)
(** ** The result header *)
(* ===================================================================== *)

Lemma get_header_loop_map (description : list descriptor) (header : list string) :
  get_header_loop description header
  = (header ++ map (fun i => unqualified (d_name i)) description)%list.
Proof.
  revert header. induction description as [| i rest IH]; intros header.
  - cbn. now rewrite app_nil_r.
  - cbn [get_header_loop map]. rewrite IH, <- app_assoc. reflexivity.
Qed.

Lemma find_first (p r : string) :
  occurs "." p = false -> find (p ++ String "." r) "." = Z.of_nat (String.length p).
Proof.
  induction p as [| a p IH]; intros H; [reflexivity |].
  cbn [occurs] in H. apply orb_false_iff in H. destruct H as [Ha Hp].
  cbn [append find String.length]. rewrite Ha, (IH Hp).
  replace (Z.of_nat (String.length p) <? 0) with false by (symmetry; apply Z.ltb_ge; lia).
  lia.
Qed.

Lemma drop_app (p r : string) : drop (String.length p) (p ++ r) = r.
Proof. induction p as [| a p IH]; [reflexivity | exact IH]. Qed.

Lemma occurs_app_dot (p r : string) : occurs "." (p ++ String "." r) = true.
Proof. rewrite occurs_app. cbn. apply orb_true_r. Qed.

(** A name is cut after its first separator. *)
Lemma unqualified_first (p r : string) :
  occurs "." p = false -> unqualified (p ++ String "." r) = r.
Proof.
  intros H. unfold unqualified, slice_from.
  rewrite occurs_app_dot, (find_first p r H).
  replace (Z.to_nat (Z.of_nat (String.length p) + 1)) with (S (String.length p)) by lia.
  change (S (String.length p)) with (String.length (String "." p)).
  induction p as [| a p IH]; [reflexivity |].
  cbn [occurs] in H. apply orb_false_iff in H. destruct H as [_ Hp].
  cbn [String.length append drop] in IH |- *. now apply IH.
Qed.

(** C6, as the code has it: [get_header] yields one name per column
    descriptor, in the same order; a name without separator is kept, and
    a name with one loses everything up to and including its FIRST
    separator (so a.b.c yields b.c). *)
Theorem get_header_strips_first_qualifier (c : cursor) :
  List.length (get_header c) = List.length (description c)
  /\ (forall i, nth_error (get_header c) i
                = option_map (fun col => unqualified (d_name col))
                             (nth_error (description c) i))
  /\ (forall s, occurs "." s = false -> unqualified s = s)
  /\ (forall p r, occurs "." p = false -> unqualified (p ++ "." ++ r) = r).
Proof.
  unfold get_header. rewrite get_header_loop_map. cbn [app].
  split; [apply length_map |].
  split; [intros i; apply nth_error_map |].
  split.
  - intros s H. unfold unqualified. now rewrite H.
  - intros p r H. now apply unqualified_first.
Qed.

(** C6 as stated fails: a.b.c yields b.c, not c. *)
Lemma get_header_keeps_later_qualifiers :
  get_header cursor_abc = ["b.c"] /\ get_header cursor_abc <> ["c"].
Proof. split; [reflexivity | discriminate]. Qed.

(* ===================================================================== *)
(** ** The join set *)
(* ===================================================================== *)

Lemma joins_main_query (tbl : string) (d : dict) :
  validated d ->
  joins tbl (frm ++ add_joins) = true ->
  joins tbl (main_query d) = section_scoped d.
Proof.
  intros V Hj. unfold joins, main_query in *.
  destruct (section_scoped d) eqn:Es.
  - apply substring_app_r, substring_app_l.
    unfold from_clause. now rewrite Es.
  - apply (absent_char_no_substring "J"); [reflexivity |].
    rewrite !occurs_app.
    unfold select_clause, from_clause. rewrite Es.
    replace (occurs "J" select) with false by reflexivity.
    replace (occurs "J" frm) with false by reflexivity.
    cbn [orb].
    apply (occurs_where_clause "J" d V); try reflexivity.
    intros p _. destruct p; reflexivity.
Qed.

Lemma walking_column_main_query (d : dict) :
  validated d ->
  substring_of "AS walking_time" (main_query d) = contains_key "building_code" d.
Proof.
  intros V. unfold main_query.
  destruct (contains_key "building_code" d) eqn:Eb.
  - apply substring_app_l. unfold select_clause.
    rewrite (building_code_section_scoped d V Eb), Eb.
    apply substring_app_r. reflexivity.
  - apply (absent_char_no_substring "k"); [reflexivity |].
    rewrite !occurs_app.
    assert (Hs : occurs "k" (select_clause d) = false).
    { unfold select_clause. rewrite Eb. destruct (section_scoped d); reflexivity. }
    assert (Hf : occurs "k" (from_clause d) = false).
    { unfold from_clause. destruct (section_scoped d); reflexivity. }
    rewrite Hs, Hf. cbn [orb].
    apply (occurs_where_clause "k" d V); try reflexivity.
    intros p Hp. destruct p; try reflexivity.
    apply no_walking_pred in Hp; [destruct Hp |].
    now rewrite <- (v_both d V).
Qed.

(** C2, as the code has it: in the main query of a validated, non-empty
    dictionary the joins to sections, to meeting_patterns AND to gps are
    all present exactly when a key of enrollment, time_start, time_end,
    day, walking_time is present; the derived walking_time column is
    selected exactly when building_code is present. *)
Theorem join_set_by_keys
    (compute_time_between : value -> value -> value -> value -> result Z)
    (d : dict) (c : connection) (q : string) (a : list value) :
  d <> [] ->
  assert_valid_input d = ok tt ->
  In (q, a) (issued c (snd (find_courses compute_time_between d c))) ->
  q <> lookup_sql ->
  joins "sections" q = section_scoped d
  /\ joins "meeting_patterns" q = section_scoped d
  /\ joins "gps" q = section_scoped d
  /\ substring_of "AS walking_time" q = contains_key "building_code" d.
Proof.
  intros Hne Hok Hin Hq. pose proof (validated_of_ok d Hok) as V.
  destruct (find_courses_issued _ d c q a Hne Hok Hin)
    as [[b [_ [Eq _]]] | [Eq _]]; [congruence |]. subst q.
  repeat split;
    solve [ apply joins_main_query; [assumption | reflexivity]
          | now apply walking_column_main_query ].
Qed.

Lemma join_set_by_keys_witness :
  criteria_enrollment <> []
  /\ assert_valid_input criteria_enrollment = ok tt
  /\ In (query_enrollment, [PyInt 10; PyInt 40])
        (issued fresh_connection
           (snd (find_courses five_minutes criteria_enrollment fresh_connection)))
  /\ query_enrollment <> lookup_sql
  /\ joins "gps" query_enrollment = section_scoped criteria_enrollment.
Proof.
  assert (Hin : In (query_enrollment, [PyInt 10; PyInt 40])
                  (issued fresh_connection
                     (snd (find_courses five_minutes criteria_enrollment
                             fresh_connection))))
    by (left; reflexivity).
  assert (Hq : query_enrollment <> lookup_sql) by discriminate.
  split; [discriminate |]. split; [reflexivity |].
  split; [exact Hin |]. split; [exact Hq |].
  exact (proj1 (proj2 (proj2
           (join_set_by_keys five_minutes criteria_enrollment fresh_connection
              query_enrollment [PyInt 10; PyInt 40]
              ltac:(discriminate) eq_refl Hin Hq)))).
Defined.

(** C2 as stated fails: with [enrollment] alone, and no [building_code],
    the query that is issued joins gps all the same. *)
Lemma gps_joined_without_building_code :
  assert_valid_input criteria_enrollment = ok tt
  /\ contains_key "building_code" criteria_enrollment = false
  /\ issued fresh_connection
       (snd (find_courses five_minutes criteria_enrollment fresh_connection))
     = [(query_enrollment, [PyInt 10; PyInt 40])]
  /\ joins "gps" query_enrollment = true.
Proof. repeat split; reflexivity. Qed.
(* ===================================================================== *)
(** ** An empty day list *)
(* ===================================================================== *)

Lemma holds_empty_day (db : database) (n : nat) (r : from_row) :
  holds db (DayIn n) [] r = false.
Proof. cbn. now destruct (r_section r) as [[[s m] g] |]. Qed.

Lemma empty_day_no_parameter (d : dict) :
  wf_dict d ->
  lookup "day" d = Some (PyList []) ->
  where_args d
  = flat_map bound_values
      (filter (fun kv => negb (String.eqb (fst kv) "day")) (predicate_items d)).
Proof.
  intros Hwf Hday. unfold where_args.
  assert (H : forall kv, In kv (predicate_items d) ->
                         String.eqb (fst kv) "day" = true ->
                         bound_values kv = []).
  { intros [k v] Hin E. cbn [fst] in E. apply String.eqb_eq in E. subst k.
    apply predicate_items_incl in Hin.
    rewrite (in_lookup _ d v Hwf Hin) in Hday. now injection Hday as ->. }
  induction (predicate_items d) as [| kv items IH]; [reflexivity |].
  cbn [flat_map filter].
  rewrite IH by (intros kv' H'; apply H; now right).
  destruct (String.eqb (fst kv) "day") eqn:E; cbn [negb flat_map];
    [| reflexivity].
  now rewrite (H kv (or_introl eq_refl) E).
Qed.

Lemma empty_day_excludes (d : dict) (db : database) (ps : list sqlval)
    (r : from_row) :
  validated d -> wf_dict d ->
  lookup "day" d = Some (PyList []) ->
  adapt_all (where_args d) = ok ps ->
  all_hold_apart db (preds_of d) ps r = false.
Proof.
  intros V Hwf Hday Hps.
  destruct (all_hold_apart db (preds_of d) ps r) eqn:E; [| reflexivity].
  pose proof (proj1 (all_hold_apart_items d db r V Hwf (predicate_items d) ps
                       (predicate_items_incl d)
                       (predicate_items_not_building d) Hps) E
                "day" (PyList []) (DayIn (n_day d)) []) as H.
  cbn [holds_apart] in H. rewrite holds_empty_day in H. symmetry. apply H.
  - unfold predicate_items. apply filter_In. split; [| reflexivity].
    now apply lookup_in.
  - reflexivity.
  - reflexivity.
Qed.

Lemma filter_none {A} (f : A -> bool) (l : list A) :
  (forall x, f x = false) -> filter f l = [].
Proof.
  intros H. induction l as [| x l IH]; [reflexivity |].
  cbn [filter]. now rewrite H.
Qed.

(** C10, as the code has it.  When a validated dictionary binds [day]
    to the empty list, its values can be bound, its placeholders are
    within what the connection allows and its reference building, if
    any, can be used: the main query is issued; its day predicate is
    written [IN ()], with no placeholder, and the [day] item adds no
    parameter; the store accepts the statement, and the call returns
    the header and no rows. *)
Theorem empty_day_selects_nothing
    (compute_time_between : value -> value -> value -> value -> result Z)
    (d : dict) (c : connection) :
  assert_valid_input d = ok tt ->
  wf_dict d ->
  lookup "day" d = Some (PyList []) ->
  (forall k v, In (k, v) d -> bindable v = true) ->
  Z.of_nat (count_placeholders (main_query d))
  <= Z.pos (variable_limit (data c)) ->
  reference_usable compute_time_between d c ->
  (exists args0,
     In (main_query d, (args0 ++ where_args d)%list)
        (issued c (snd (find_courses compute_time_between d c)))
     /\ List.length args0 = select_arity (select_list_of d))
  /\ (exists before after,
        main_query d
        = (before ++ " AND meeting_patterns.day IN ()" ++ after)%string)
  /\ count_placeholders (fragment d ("day", PyList [])) = 0%nat
  /\ where_args d
     = flat_map bound_values
         (filter (fun kv => negb (String.eqb (fst kv) "day"))
                 (predicate_items d))
  /\ fst (find_courses compute_time_between d c)
     = ok (header_of (select_list_of d), []).
Proof.
  intros Hok Hwf Hday Hbind Hlim Href. pose proof (validated_of_ok d Hok) as V.
  assert (Hne : d <> []) by (intros ->; discriminate Hday).
  assert (Hfrag : fragment d ("day", PyList []) = " AND meeting_patterns.day IN ()").
  { unfold fragment, n_day, get. cbn [fst]. rewrite Hday. reflexivity. }
  assert (Hsc : section_scoped d = true).
  { apply (key_section_scoped d "day"); [cbn; tauto |].
    unfold contains_key. now rewrite Hday. }
  assert (Hrun :
            exists args0 xs ps c2,
              adapt_all (where_args d) = ok ps
              /\ data c2 = data c
              /\ registered "time_between" 4 c2
                 = Some (time_between compute_time_between)
              /\ fst (find_courses compute_time_between d c)
                 = rbind (selected c2 (main_statement d) (xs ++ ps))
                     (fun rows =>
                        ok (header_of (select_list_of d),
                            map (map to_python)
                                (distinct
                                   (map (project (select_list_of d)) rows))))
              /\ In (main_query d, (args0 ++ where_args d)%list)
                    (issued c (snd (find_courses compute_time_between d c)))
              /\ List.length args0 = select_arity (select_list_of d)
              /\ List.length xs = List.length args0
              /\ (select_list_of d = WalkingColumns ->
                  exists x y,
                    xs = [x; y]
                    /\ forall g,
                         In g (gps (data c)) ->
                         eager (plan (data c)) g = true ->
                         exists w, call (time_between compute_time_between)
                                     g x y = Some w)).
  { destruct (lookup "building_code" d) as [v |] eqn:Eb.
    - pose proof (v_building d V v Eb) as Hs. destruct v; try discriminate Hs.
      destruct (Href s Eb) as [ref_lon [ref_lat [others [Hco [Hlon [Hlat Hcalls]]]]]].
      destruct (reference_bound c s ref_lon ref_lat others Hco Hlon Hlat)
        as [x [y [Hxy [Ex Ey]]]].
      destruct (find_courses_by_selected compute_time_between d c
                  [ref_lon; ref_lat] [x; y] Hne Hok Hwf Hbind Hlim)
        as [ps [c2 [Hps [Hd [Hreg [Hres Hin]]]]]].
      + intros b E. rewrite Eb in E. injection E as <-. now exists others.
      + rewrite Eb. discriminate.
      + exact Hxy.
      + exists [ref_lon; ref_lat], [x; y], ps, c2.
        repeat (split; [assumption |]).
        split.
        { unfold select_list_of, contains_key. now rewrite Hsc, Eb. }
        split; [reflexivity |].
        intros _. exists x, y. split; [reflexivity |].
        intros g Hg He. destruct (Hcalls g Hg He) as [w [Hw H64]].
        exists w. apply call_value. cbn [time_between]. rewrite Ex, Ey.
        now split.
    - destruct (find_courses_by_selected compute_time_between d c
                  [] [] Hne Hok Hwf Hbind Hlim)
        as [ps [c2 [Hps [Hd [Hreg [Hres Hin]]]]]].
      + intros b E. rewrite Eb in E. discriminate E.
      + reflexivity.
      + reflexivity.
      + exists [], [], ps, c2.
        repeat (split; [assumption |]).
        split.
        { unfold select_list_of, contains_key. now rewrite Hsc, Eb. }
        split; [reflexivity |].
        unfold select_list_of, contains_key. rewrite Hsc, Eb. discriminate. }
  destruct Hrun as [args0 [xs [ps [c2 [Hps [Hd [Hreg [Hres [Hin [Hlen [Hlx Hw]]]]]]]]]]].
  split; [now exists args0 |]. split.
  { assert (Hitem : In ("day", PyList []) (predicate_items d)).
    { unfold predicate_items. apply filter_In. split; [| reflexivity].
      now apply lookup_in. }
    apply in_split in Hitem. destruct Hitem as [l1 [l2 E]].
    unfold main_query, where_clause. rewrite E, map_app, concat_all_app.
    cbn [map concat_all]. rewrite Hfrag.
    exists (select_clause d ++ from_clause d ++ where_
            ++ concat_all (map (fragment d) l1))%string,
           (concat_all (map (fragment d) l2)).
    now rewrite !sapp_assoc. }
  split; [now rewrite Hfrag |].
  split; [now apply empty_day_no_parameter |].
  rewrite Hres.
  assert (Hsk : skipn (select_arity (select_list_of d)) (xs ++ ps) = ps).
  { rewrite <- Hlen, <- Hlx. apply skipn_exact. }
  assert (Hsel : selected c2 (main_statement d) (xs ++ ps) = ok []).
  { unfold selected. cbn [main_statement st_select st_joined st_preds].
    rewrite Hsk, Hd.
    destruct (select_list_of d) eqn:Es.
    - f_equal. apply filter_none. intros r.
      destruct (all_hold (data c) (preds_of d) ps r) eqn:E; [| reflexivity].
      apply all_hold_all_apart in E.
      now rewrite (empty_day_excludes d (data c) ps r V Hwf Hday Hps) in E.
    - f_equal. apply filter_none. intros r.
      destruct (all_hold (data c) (preds_of d) ps r) eqn:E; [| reflexivity].
      apply all_hold_all_apart in E.
      now rewrite (empty_day_excludes d (data c) ps r V Hwf Hday Hps) in E.
    - destruct (Hw eq_refl) as [x [y [-> Hcalls]]].
      rewrite Hreg. cbn [app].
      assert (He : eager_calls (data c) (preds_of d)
                     (time_between compute_time_between) x y = true).
      { unfold eager_calls. apply forallb_forall. intros g Hg.
        destruct (eager (plan (data c)) g) eqn:Eg; [| reflexivity].
        destruct (existsb needs_walking_time (preds_of d)); [| destruct Hg].
        destruct (Hcalls g Hg Eg) as [w Hc]. now rewrite Hc. }
      rewrite He.
      rewrite (filter_none (all_hold_apart (data c) (preds_of d) ps));
        [reflexivity |].
      intros r. now apply (empty_day_excludes d (data c) ps r V Hwf Hday Hps). }
  rewrite Hsel. reflexivity.
Qed.

Lemma wf_criteria_empty_day_walking : wf_dict criteria_empty_day_walking.
Proof.
  repeat constructor; cbn; intros H;
    repeat (destruct H as [H | H]; [discriminate H |]); exact H.
Defined.

Lemma empty_day_selects_nothing_witness :
  (exists args0,
     In (main_query criteria_empty_day_walking,
         (args0 ++ where_args criteria_empty_day_walking)%list)
        (issued fresh_connection
           (snd (find_courses five_minutes criteria_empty_day_walking
                   fresh_connection)))
     /\ List.length args0
        = select_arity (select_list_of criteria_empty_day_walking))
  /\ (exists before after,
        main_query criteria_empty_day_walking
        = (before ++ " AND meeting_patterns.day IN ()" ++ after)%string)
  /\ count_placeholders (fragment criteria_empty_day_walking ("day", PyList []))
     = 0%nat
  /\ where_args criteria_empty_day_walking
     = flat_map bound_values
         (filter (fun kv => negb (String.eqb (fst kv) "day"))
                 (predicate_items criteria_empty_day_walking))
  /\ fst (find_courses five_minutes criteria_empty_day_walking fresh_connection)
     = ok (header_of (select_list_of criteria_empty_day_walking), []).
Proof.
  apply (empty_day_selects_nothing five_minutes criteria_empty_day_walking
           fresh_connection).
  - reflexivity.
  - exact wf_criteria_empty_day_walking.
  - reflexivity.
  - intros k v [H | [H | [H | []]]]; injection H as _ <-; reflexivity.
  - vm_compute. discriminate.
  - intros b H. injection H as <-.
    exists (PyFloat 13859236727634111391), (PyFloat 4631078194726622043), [].
    split; [reflexivity |]. split; [reflexivity |]. split; [reflexivity |].
    intros g _ He. discriminate He.
Defined.

(** C10 as stated fails: with [day] bound to the empty list the query
    runs; the store raises no error and returns a header and no rows. *)
Lemma empty_day_is_no_store_error :
  assert_valid_input criteria_empty_day = ok tt
  /\ fst (find_courses five_minutes criteria_empty_day fresh_connection)
     = ok (section_header, [])
  /\ fst (find_courses five_minutes criteria_empty_day fresh_connection)
     <> raise sqlite3_Error.
Proof. split; [reflexivity |]. split; [reflexivity | discriminate]. Qed.

(* ===================================================================== *)
(** ** Text search *)
(* ===================================================================== *)

(** The text-search predicate on the parameters of a list of terms:
    the index rows of the course whose word is among the terms are as
    many as the terms. *)
Lemma holds_terms (db : database) (ts : list value) (chunk : list sqlval)
    (r : from_row) :
  all_str ts = true ->
  adapt_all (bound_values ("terms", PyList ts)) = ok chunk ->
  holds db (TermsAll (List.length ts)) chunk r = true ->
  List.length (matching_entries db (course_id (r_course r))
                 (map Text (strings_of ts)))
  = List.length ts.
Proof.
  intros Hs Ha Hh.
  cbn [bound_values type_is_list String.eqb Ascii.eqb Bool.eqb elements] in Ha.
  apply adapt_all_app in Ha. destruct Ha as [cx [cy [-> [Hx Hy]]]].
  pose proof (adapt_all_strings ts cx Hs Hx) as Ecx.
  pose proof (adapt_all_length ts cx Hx) as Hlen.
  cbn [adapt_all adapt] in Hy.
  destruct ((- 2 ^ 63 <=? Z.of_nat (List.length ts))
            && (Z.of_nat (List.length ts) <? 2 ^ 63)); [| discriminate].
  cbn in Hy. injection Hy as <-.
  cbn [holds] in Hh. rewrite <- Hlen, firstn_exact, skipn_exact in Hh.
  rewrite Ecx in Hh.
  destruct (matching_entries db (course_id (r_course r)) (map Text (strings_of ts)))
    as [| e g] eqn:Eg; [discriminate |].
  cbn [int_cmp] in Hh. apply Z.eqb_eq in Hh.
  rewrite length_map, (strings_of_length ts Hs) in Hh.
  now apply Nat2Z.inj in Hh.
Qed.

(** C3, as the code has it: the count of the text-search predicate is
    bound to the length of the [terms] list.  When the index holds each
    (word, course) pair once, every row returned for a validated
    dictionary with [terms] is the row of a course that has an index
    entry for every term of the list, and whose index rows with a word
    in the list are as many as the list is long; a course without an
    entry for one of the terms is never returned. *)
Theorem terms_are_conjunctive
    (compute_time_between : value -> value -> value -> value -> result Z)
    (d : dict) (c c' : connection) (v : value)
    (header : list string) (rows : list row) (row : row) :
  assert_valid_input d = ok tt ->
  wf_dict d ->
  lookup "terms" d = Some v ->
  NoDup (catalog_index (data c)) ->
  find_courses compute_time_between d c = (ok (header, rows), c') ->
  In row rows ->
  exists crs,
    In crs (courses (data c))
    /\ firstn 3 row
       = [PyStr (dept crs); to_python (course_num crs); to_python (title crs)]
    /\ (forall s, In (PyStr s) (elements v) ->
                  In {| word := s; index_course_id := course_id crs |}
                     (catalog_index (data c)))
    /\ List.length (matching_entries (data c) (course_id crs)
                      (map Text (strings_of (elements v))))
       = List.length (elements v)
    /\ exists before after,
         where_args d
         = (before ++ elements v
              ++ [PyInt (Z.of_nat (List.length (elements v)))] ++ after)%list.
Proof.
  intros Hok Hwf Hterms Hnd Hfc Hin. pose proof (validated_of_ok d Hok) as V.
  destruct (find_courses_rows _ d c c' header rows row Hok Hwf Hfc Hin)
    as [r [Erow [Hcrs Hall]]].
  destruct (Hall "terms" v (TermsAll (n_terms d)))
    as [chunk [Ha Hh]]; [now apply lookup_in | reflexivity | reflexivity |].
  pose proof (v_terms d V v Hterms) as Hv.
  assert (En : n_terms d = size v) by (unfold n_terms, get; now rewrite Hterms).
  destruct v as [| | | | | ts | ts]; try discriminate Hv; [| discriminate Ha].
  assert (Hs : all_str ts = true) by (destruct ts; [discriminate Hv | exact Hv]).
  rewrite En in Hh. cbn [size elements] in Hh |- *.
  pose proof (holds_terms (data c) ts chunk r Hs Ha Hh) as Hcount.
  exists (r_course r). split; [assumption |].
  split; [subst row; reflexivity |].
  split.
  - intros s Hs'. apply (all_terms_indexed (data c) _ (strings_of ts) Hnd).
    + now rewrite Hcount, (strings_of_length ts Hs).
    + now apply strings_of_in.
  - split; [exact Hcount |].
    assert (Hitem : In ("terms", PyList ts) (predicate_items d)).
    { unfold predicate_items. apply filter_In. split; [| reflexivity].
      now apply lookup_in. }
    apply in_split in Hitem. destruct Hitem as [l1 [l2 E]].
    exists (flat_map bound_values l1), (flat_map bound_values l2).
    unfold where_args. rewrite E, flat_map_app. cbn [flat_map].
    cbn [bound_values type_is_list String.eqb Ascii.eqb Bool.eqb elements].
    now rewrite <- !app_assoc.
Qed.

Lemma wf_criteria_two_terms : wf_dict criteria_two_terms.
Proof. repeat constructor. intros []. Defined.

Lemma nodup_campus_index : NoDup (catalog_index (data fresh_connection)).
Proof.
  repeat constructor; cbn; intros H;
    repeat (destruct H as [H | H]; [discriminate H |]); exact H.
Defined.

Lemma terms_are_conjunctive_witness :
  assert_valid_input criteria_two_terms = ok tt
  /\ fst (find_courses five_minutes criteria_two_terms fresh_connection)
     = ok (course_header, [row_phil])
  /\ exists crs,
       In crs (courses campus)
       /\ firstn 3 row_phil
          = [PyStr (dept crs); to_python (course_num crs); to_python (title crs)]
       /\ (forall s, In (PyStr s) [PyStr "quantum"; PyStr "plato"] ->
                     In {| word := s; index_course_id := course_id crs |}
                        (catalog_index campus)).
Proof.
  split; [reflexivity |]. split; [reflexivity |].
  destruct (terms_are_conjunctive five_minutes criteria_two_terms
              fresh_connection
              (snd (find_courses five_minutes criteria_two_terms fresh_connection))
              (PyList [PyStr "quantum"; PyStr "plato"])
              course_header [row_phil] row_phil
              eq_refl wf_criteria_two_terms eq_refl nodup_campus_index
              eq_refl (or_introl eq_refl))
    as [crs [H1 [H2 [H3 _]]]].
  exists crs. exact (conj H1 (conj H2 H3)).
Defined.

(** C3 as stated fails twice over.  The count is bound to the number of
    terms supplied, not to the number of distinct terms: with one term
    given twice it is 2, and no course is returned, although two courses
    have an index entry for the term.  And a course that matches only
    one of two terms is returned when its index row is stored twice. *)
Lemma terms_count_is_the_list_length :
  (assert_valid_input criteria_repeated_term = ok tt
   /\ distinct_terms [PyStr "plato"; PyStr "plato"] = 1%nat
   /\ where_args criteria_repeated_term
      = [PyStr "plato"; PyStr "plato"; PyInt 2]
   /\ In {| word := "plato"; index_course_id := 2 |} (catalog_index campus)
   /\ fst (find_courses five_minutes criteria_repeated_term fresh_connection)
      = ok (course_header, []))
  /\ (assert_valid_input criteria_two_terms = ok tt
      /\ ~ In {| word := "quantum"; index_course_id := 1 |}
              (catalog_index campus_indexed_twice)
      /\ fst (find_courses five_minutes criteria_two_terms indexed_twice)
         = ok (course_header, [row_cmsc])).
Proof.
  split.
  - repeat split; try reflexivity. now left.
  - repeat split; try reflexivity.
    cbn. intros [H | [H | []]]; discriminate H.
Qed.

(* ===================================================================== *)
(** ** Placeholders and parameters *)
(* ===================================================================== *)

(** When no value is a tuple, every statement issued for a validated
    dictionary binds exactly as many parameters as its text has
    placeholders. *)
Lemma parameters_aligned_without_tuples
    (compute_time_between : value -> value -> value -> value -> result Z)
    (d : dict) (c : connection) (q : string) (a : list value) :
  d <> [] ->
  assert_valid_input d = ok tt ->
  wf_dict d ->
  (forall k v, In (k, v) d -> forall l, v <> PyTuple l) ->
  In (q, a) (issued c (snd (find_courses compute_time_between d c))) ->
  count_placeholders q = List.length a.
Proof.
  intros Hne Hok Hwf Hnt Hin. pose proof (validated_of_ok d Hok) as V.
  destruct (find_courses_issued _ d c q a Hne Hok Hin)
    as [[b [_ [-> ->]]] | [-> [args0 [-> [Hlen _]]]]]; [reflexivity |].
  unfold main_query, where_clause.
  rewrite !count_placeholders_app, length_app, Hlen.
  rewrite (count_placeholders_concat d (predicate_items d) V Hwf).
  - unfold where_args.
    assert (Hs : count_placeholders (select_clause d)
                 = select_arity (select_list_of d)).
    { unfold select_clause, select_list_of.
      destruct (section_scoped d), (contains_key "building_code" d); reflexivity. }
    assert (Hf : count_placeholders (from_clause d) = 0%nat).
    { unfold from_clause. destruct (section_scoped d); reflexivity. }
    rewrite Hs, Hf. reflexivity.
  - intros kv H. unfold predicate_items in H. now apply filter_In in H.
  - intros kv H. unfold predicate_items in H. apply filter_In in H.
    destruct H as [_ H]. now apply negb_true_iff in H.
  - intros k v H. unfold predicate_items in H. apply filter_In in H.
    destruct H as [H _]. now apply (Hnt k v).
Qed.

(** Without tuples the parameters follow the placeholders fragment by
    fragment: the main query is the select list, the joins and
    [WHERE 1 = 1] followed by one fragment per item; its parameters are
    those of the select list (the coordinates of the reference building,
    when there is one) followed by those of each item in the same order;
    and each piece holds as many placeholders as it binds parameters. *)
Lemma parameters_follow_placeholders
    (compute_time_between : value -> value -> value -> value -> result Z)
    (d : dict) (c : connection) (q : string) (a : list value) :
  d <> [] ->
  assert_valid_input d = ok tt ->
  wf_dict d ->
  (forall k v, In (k, v) d -> forall l, v <> PyTuple l) ->
  In (q, a) (issued c (snd (find_courses compute_time_between d c))) ->
  q <> lookup_sql ->
  exists args0,
    q = ((select_clause d ++ from_clause d ++ where_)
         ++ concat_all (map (fragment d) (predicate_items d)))%string
    /\ a = (args0 ++ flat_map bound_values (predicate_items d))%list
    /\ count_placeholders (select_clause d ++ from_clause d ++ where_)
       = List.length args0
    /\ (forall kv, In kv (predicate_items d) ->
                   count_placeholders (fragment d kv)
                   = List.length (bound_values kv))
    /\ (forall b, lookup "building_code" d = Some (PyStr b) ->
                  In args0 (coordinates c b)).
Proof.
  intros Hne Hok Hwf Hnt Hin Hq. pose proof (validated_of_ok d Hok) as V.
  destruct (find_courses_issued _ d c q a Hne Hok Hin)
    as [[b [_ [Eq _]]] | [-> [args0 [-> [Hlen Hb]]]]]; [congruence |].
  exists args0. split; [unfold main_query, where_clause; now rewrite !sapp_assoc |].
  split; [reflexivity |]. split; [| split; [| exact Hb]].
  - rewrite !count_placeholders_app, Hlen.
    unfold select_clause, from_clause, select_list_of.
    destruct (section_scoped d), (contains_key "building_code" d); reflexivity.
  - intros [k v] Hkv. unfold predicate_items in Hkv. apply filter_In in Hkv.
    destruct Hkv as [Hkv Hnb]. cbn [fst] in Hnb. apply negb_true_iff in Hnb.
    assert (Hk : mem k acceptable_keys = true).
    { pose proof (v_keys d V) as Hk. unfold issubset in Hk.
      rewrite forallb_forall in Hk. apply Hk. unfold keys.
      apply in_map_iff. now exists (k, v). }
    destruct (acceptable_key_has_pred (n_day d) (n_terms d) k Hk Hnb) as [p Hp].
    unfold fragment. cbn [fst]. rewrite Hp, count_placeholders_pred. symmetry.
    apply (item_aligned_values d k v p V Hwf Hkv Hp). now apply (Hnt k v).
Qed.

(** C1 at a validated dictionary whose [day] is a tuple: the validator
    accepts it, the query text has one placeholder per element, and the
    tuple itself is bound as the only parameter; the store rejects the
    statement. *)
Theorem tuple_day_binds_one_parameter :
  assert_valid_input criteria_day_tuple = ok tt
  /\ issued fresh_connection
       (snd (find_courses five_minutes criteria_day_tuple fresh_connection))
     = [(query_day_tuple, [PyTuple [PyStr "MWF"; PyStr "TR"]])]
  /\ count_placeholders query_day_tuple = 2%nat
  /\ List.length [PyTuple [PyStr "MWF"; PyStr "TR"]] = 1%nat
  /\ fst (find_courses five_minutes criteria_day_tuple fresh_connection)
     = raise sqlite3_Error.
Proof. repeat split; reflexivity. Qed.
(* ===================================================================== *)
(** ** The walking time *)
(* ===================================================================== *)

Lemma fraction_positive (x : spec_float) (n d : Z) :
  fraction x = Some (n, d) -> 0 < d.
Proof.
  destruct x as [s | s | | s m e]; cbn [fraction]; intros H;
    try discriminate H.
  - injection H as _ <-. lia.
  - destruct (0 <=? e) eqn:E; injection H as _ <-; [lia |].
    apply Z.leb_gt in E. apply Z.pow_pos_nonneg; lia.
Qed.

(** [math.ceil] of a number gives the least int that is not below it. *)
Lemma ceil_least (x : spec_float) (n d : Z) :
  fraction x = Some (n, d) ->
  exists r, ceil x = ok r /\ (r - 1) * d < n <= r * d.
Proof.
  intros H. pose proof (fraction_positive x n d H) as Hd.
  unfold ceil. rewrite H. exists (- (- n / d)). split; [reflexivity |].
  pose proof (Z.mul_div_le (- n) d Hd).
  pose proof (Z.mul_succ_div_gt (- n) d Hd).
  nia.
Qed.

Lemma ceil_undefined (x : spec_float) :
  fraction x = None ->
  exists e, ceil x = raise e /\ (e = ValueError \/ e = OverflowError).
Proof.
  unfold ceil. intros H. rewrite H.
  destruct x; try discriminate H.
  - exists OverflowError. split; [reflexivity | now right].
  - exists ValueError. split; [reflexivity | now left].
Qed.

(** An int beyond the range of a float is rejected by the first call of
    [radians], whatever the C library. *)
Lemma argument_beyond_float_range (lib : libm) (n : Z)
    (lat1 lon2 lat2 : value) :
  as_float (PyInt n) = raise OverflowError ->
  compute_time_between lib (PyInt n) lat1 lon2 lat2 = raise OverflowError.
Proof.
  intros H. unfold compute_time_between, haversine, radians.
  now rewrite H.
Qed.

(** An exception in [haversine] is the exception of the call. *)
Lemma haversine_exception (lib : libm) (lon1 lat1 lon2 lat2 : value)
    (e : exn) :
  haversine lib lon1 lat1 lon2 lat2 = raise e ->
  compute_time_between lib lon1 lat1 lon2 lat2 = raise e.
Proof. intros H. unfold compute_time_between. now rewrite H. Qed.

(** A NaN among the arguments: when the C library maps a NaN to a NaN,
    as C99 requires of these functions, the distance is a NaN and the
    call is a value error. *)
Lemma nan_arguments_value_error (lib : libm) :
  m_sin lib S754_nan = ok S754_nan ->
  m_cos lib S754_nan = ok S754_nan ->
  m_asin lib S754_nan = ok S754_nan ->
  m_sqrt lib S754_nan = ok S754_nan ->
  m_pow lib S754_nan (float_of_int 2) = ok S754_nan ->
  compute_time_between lib
    (PyFloat 9221120237041090560) (PyFloat 9221120237041090560)
    (PyFloat 9221120237041090560) (PyFloat 9221120237041090560)
  = raise ValueError.
Proof.
  intros Hsin Hcos Hasin Hsqrt Hpow.
  unfold compute_time_between, haversine, radians.
  change (as_float (PyFloat 9221120237041090560)) with (ok S754_nan).
  cbn [rbind ok].
  change (fmul S754_nan degToRad) with S754_nan.
  cbv zeta.
  change (fsub S754_nan S754_nan) with S754_nan.
  change (fdiv S754_nan (float_of_int 2)) with S754_nan.
  rewrite Hsin. cbn [rbind ok]. rewrite Hpow. cbn [rbind ok].
  rewrite Hcos. cbn [rbind ok].
  change (fadd S754_nan (fmul (fmul S754_nan S754_nan) S754_nan))
    with S754_nan.
  rewrite Hsqrt. cbn [rbind ok]. rewrite Hasin. cbn [rbind ok].
  reflexivity.
Qed.

(** C8, as the code has it.  Lines 188-191 divide the distance that
    [haversine] returns by [1.1 * 60], which is 66 exactly in binary64,
    and round the binary64 quotient up: when the quotient is a number,
    the call returns the least int that is not below it; when it is a
    NaN or an infinity, the call raises. *)
Theorem compute_time_between_rounds_up (lib : libm)
    (lon1 lat1 lon2 lat2 : value) (meters : spec_float) :
  haversine lib lon1 lat1 lon2 lat2 = ok meters ->
  fmul (float_of_bits 4607632778762754458) (float_of_int 60) = float_of_int 66
  /\ match fraction (fdiv meters (float_of_int 66)) with
     | Some (num, den) =>
         0 < den
         /\ exists minutes,
              compute_time_between lib lon1 lat1 lon2 lat2 = ok minutes
              /\ (minutes - 1) * den < num <= minutes * den
     | None =>
         exists e,
           compute_time_between lib lon1 lat1 lon2 lat2 = raise e
           /\ (e = ValueError \/ e = OverflowError)
     end.
Proof.
  intros H.
  assert (E : fmul (float_of_bits 4607632778762754458) (float_of_int 60)
              = float_of_int 66) by (vm_compute; reflexivity).
  split; [exact E |].
  unfold compute_time_between. rewrite H. cbn [rbind]. cbv zeta. rewrite E.
  destruct (fraction (fdiv meters (float_of_int 66))) as [[num den] |] eqn:F.
  - split; [exact (fraction_positive _ _ _ F) |]. exact (ceil_least _ _ _ F).
  - exact (ceil_undefined _ F).
Qed.

Lemma compute_time_between_rounds_up_witness :
  haversine small_angles
    (PyFloat 13859236727634111391) (PyFloat 4631078194726622043)
    (PyFloat 13859236755781609062) (PyFloat 4631078236947868549)
  = ok (float_of_bits 4633016551991318294)
  /\ fmul (float_of_bits 4607632778762754458) (float_of_int 60)
     = float_of_int 66
  /\ match fraction (fdiv (float_of_bits 4633016551991318294)
                       (float_of_int 66)) with
     | Some (num, den) =>
         0 < den
         /\ exists minutes,
              compute_time_between small_angles
                (PyFloat 13859236727634111391) (PyFloat 4631078194726622043)
                (PyFloat 13859236755781609062) (PyFloat 4631078236947868549)
              = ok minutes
              /\ (minutes - 1) * den < num <= minutes * den
     | None =>
         exists e,
           compute_time_between small_angles
             (PyFloat 13859236727634111391) (PyFloat 4631078194726622043)
             (PyFloat 13859236755781609062) (PyFloat 4631078236947868549)
           = raise e
           /\ (e = ValueError \/ e = OverflowError)
     end.
Proof.
  split; [vm_compute; reflexivity |].
  apply (compute_time_between_rounds_up small_angles
           (PyFloat 13859236727634111391) (PyFloat 4631078194726622043)
           (PyFloat 13859236755781609062) (PyFloat 4631078236947868549)
           (float_of_bits 4633016551991318294)).
  vm_compute. reflexivity.
Defined.

(** C8 as stated fails: the call is not defined for all numeric
    arguments.  An int beyond the range of a float is an overflow error
    in [radians]; a distance that is a NaN is a value error in [ceil],
    an infinite one an overflow error.  Where it is defined the result
    is rounded up: a distance of 198.66 meters, 3.01 minutes, gives 4,
    and one of 198 meters, 3 minutes, gives 3. *)
Lemma walking_time_is_partial :
  compute_time_between small_angles (PyInt (2 ^ 1024)) (PyInt 0) (PyInt 0)
    (PyInt 0)
  = raise OverflowError
  /\ ceil (fdiv (float_of_bits 9221120237041090560) (float_of_int 66))
     = raise ValueError
  /\ ceil (fdiv (float_of_bits 9218868437227405312) (float_of_int 66))
     = raise OverflowError
  /\ ceil (fdiv (float_of_bits 4641193743923407749) (float_of_int 66)) = ok 4
  /\ ceil (fdiv (float_of_bits 4641170522237829120) (float_of_int 66)) = ok 3.
Proof. repeat split; vm_compute; reflexivity. Qed.

(* ===================================================================== *)
(** ** Successful runs *)
(* ===================================================================== *)

(** What a successful main step computed. *)
Lemma main_step_ok (d : dict) (args0 : list value) (c c' : connection)
    (header : list string) (rows : list row) :
  validated d ->
  main_step d args0 c = (ok (header, rows), c') ->
  exists ps frows,
    adapt_all (args0 ++ where_args d) = ok ps
    /\ List.length (args0 ++ where_args d) = statement_arity (main_statement d)
    /\ selected c (main_statement d) ps = ok frows
    /\ header = map unqualified (columns (select_list_of d))
    /\ rows = map (map to_python)
               (distinct (map (project (select_list_of d)) frows))
    /\ c' = logged c (main_query d) (args0 ++ where_args d).
Proof.
  intros V Hstep. unfold main_step in Hstep.
  rewrite (run_main_query d c _ V) in Hstep.
  unfold run_query in Hstep.
  destruct (negb (resolves c (main_statement d))); [discriminate |].
  destruct (Z.ltb _ _); [discriminate |].
  destruct (Nat.eqb _ _) eqn:En; [| discriminate]. cbn [negb] in Hstep.
  apply Nat.eqb_eq in En.
  destruct (adapt_all (args0 ++ where_args d)) as [e | ps] eqn:Ea; [discriminate |].
  cbn [rbind] in Hstep.
  destruct (selected c (main_statement d) ps) as [e | frows] eqn:Ef; [discriminate |].
  cbn [rbind ok] in Hstep. injection Hstep as <- <- <-.
  exists ps, frows. repeat split; try assumption.
  unfold get_header. cbn [description]. rewrite get_header_loop_map. cbn [app].
  destruct (select_list_of d); reflexivity.
Qed.

Section Successful.

Variable compute_time_between : value -> value -> value -> value -> result Z.

Local Abbreviation find_courses := (find_courses compute_time_between).
Local Abbreviation prepared := (prepared compute_time_between).
Local Abbreviation time_between := (time_between compute_time_between).

Lemma registered_prepared (c : connection) :
  registered "time_between" 4 (prepared c) = Some time_between.
Proof. reflexivity. Qed.

(** A successful call ran the main step, on the data it was given, with
    [time_between] registered and the first gps row of the reference
    building bound to the select list. *)
Lemma find_courses_ok (d : dict) (c c' : connection)
    (header : list string) (rows : list row) :
  d <> [] ->
  assert_valid_input d = ok tt ->
  find_courses d c = (ok (header, rows), c') ->
  exists args0 c2,
    main_step d args0 c2 = (ok (header, rows), c')
    /\ data c2 = data c
    /\ registered "time_between" 4 c2 = Some time_between
    /\ List.length args0 = select_arity (select_list_of d)
    /\ (forall b, lookup "building_code" d = Some (PyStr b) ->
                  exists rest, coordinates c b = args0 :: rest).
Proof.
  intros Hne Hok Hfc. pose proof (validated_of_ok d Hok) as V.
  rewrite (find_courses_validated _ d c Hne Hok) in Hfc.
  destruct (section_scoped d) eqn:Es.
  - destruct (lookup "building_code" d) as [v |] eqn:Eb.
    + pose proof (v_building d V v Eb) as Hs. destruct v; try discriminate Hs.
      destruct (coordinates (prepared c) s) as [| lonlat rest] eqn:Ec;
        [discriminate |].
      exists lonlat, (logged (prepared c) lookup_sql [PyStr s]).
      split; [exact Hfc |]. split; [reflexivity |]. split; [reflexivity |].
      split.
      * unfold select_list_of, contains_key. rewrite Es, Eb.
        apply (coordinates_pair (prepared c) s). rewrite Ec. now left.
      * intros b E. injection E as <-. exists rest.
        now rewrite <- (coordinates_prepared compute_time_between c s).
    + exists [], (prepared c).
      split; [exact Hfc |]. split; [reflexivity |]. split; [reflexivity |].
      split; [| discriminate].
      unfold select_list_of, contains_key. now rewrite Es, Eb.
  - exists [], (prepared c).
    split; [exact Hfc |]. split; [reflexivity |]. split; [reflexivity |].
    split; [unfold select_list_of; now rewrite Es |].
    intros b E. rewrite (building_code_section_scoped d V) in Es; [discriminate |].
    unfold contains_key. now rewrite E.
Qed.

(** Every returned row comes from a row of the FROM clause on which each
    predicate holds with the parameters of its own item. *)
Lemma returned_row (d : dict) (c c' : connection)
    (header : list string) (rows : list row) (row : row) :
  assert_valid_input d = ok tt ->
  wf_dict d ->
  find_courses d c = (ok (header, rows), c') ->
  In row rows ->
  exists r args0 c2 ps frows,
    row = map to_python (project (select_list_of d) r)
    /\ header = map unqualified (columns (select_list_of d))
    /\ data c2 = data c
    /\ registered "time_between" 4 c2 = Some time_between
    /\ adapt_all (args0 ++ where_args d) = ok ps
    /\ List.length args0 = select_arity (select_list_of d)
    /\ (forall b, lookup "building_code" d = Some (PyStr b) ->
                  exists rest, coordinates c b = args0 :: rest)
    /\ selected c2 (main_statement d) ps = ok frows
    /\ In r frows
    /\ forall k v p,
         In (k, v) d ->
         String.eqb k "building_code" = false ->
         pred_of_key (n_day d) (n_terms d) k = Some p ->
         exists chunk,
           adapt_all (bound_values (k, v)) = ok chunk
           /\ holds (data c) p chunk r = true.
Proof.
  intros Hok Hwf Hfc Hin. pose proof (validated_of_ok d Hok) as V.
  assert (Hne : d <> []).
  { intros ->. rewrite find_courses_empty in Hfc.
    injection Hfc as _ <- _. destruct Hin. }
  destruct (find_courses_ok d c c' header rows Hne Hok Hfc)
    as [args0 [c2 [Hstep [Hdata [Hreg [Hlen Hcoord]]]]]].
  destruct (main_step_ok d args0 c2 c' header rows V Hstep)
    as [ps [frows [Ha [_ [Hf [Hh [Hr _]]]]]]].
  subst rows.
  apply in_map_iff in Hin. destruct Hin as [sr [<- Hin]].
  apply distinct_incl in Hin. apply in_map_iff in Hin. destruct Hin as [r [<- Hin]].
  destruct (selected_in c2 (main_statement d) ps frows r Hf Hin) as [Hall _].
  cbn [main_statement st_select st_preds] in Hall.
  exists r, args0, c2, ps, frows.
  repeat (split; [first [reflexivity | assumption] |]).
  pose proof Ha as Ha'.
  apply adapt_all_app in Ha'. destruct Ha' as [cx [cy [-> [Hx Hy]]]].
  rewrite <- Hlen, <- (adapt_all_length _ _ Hx), skipn_exact, Hdata in Hall.
  intros k v p Hkv Hb Hp.
  apply (all_hold_items d (data c) r V Hwf (predicate_items d) cy); try assumption.
  - intros kv H. unfold predicate_items in H. now apply filter_In in H.
  - intros kv H. unfold predicate_items in H. apply filter_In in H.
    destruct H as [_ H]. now apply negb_true_iff in H.
  - unfold predicate_items. apply filter_In. split; [assumption |].
    cbn [fst]. now rewrite Hb.
Qed.

End Successful.

(* ===================================================================== *)
(** ** What the returned rows satisfy *)
(* ===================================================================== *)

Lemma strings_of_from (l : list value) (s : string) :
  In s (strings_of l) -> In (PyStr s) l.
Proof.
  induction l as [| v l IH]; intros H; [destruct H |].
  destruct v; cbn [strings_of] in H; try (right; now apply IH).
  destruct H as [-> | H]; [now left | right; now apply IH].
Qed.

Lemma present_section_scoped (d : dict) (k : string) (v : value) :
  In k section_scoped_keys -> lookup k d = Some v -> section_scoped d = true.
Proof.
  intros Hk Hl. apply (key_section_scoped d k Hk).
  unfold contains_key. now rewrite Hl.
Qed.

Lemma scoped_select_list (d : dict) :
  section_scoped d = true ->
  select_list_of d = SectionColumns \/ select_list_of d = WalkingColumns.
Proof.
  intros H. unfold select_list_of. rewrite H.
  destruct (contains_key "building_code" d); [now right | now left].
Qed.

(** The section columns of a returned row, under their header names. *)
Lemma section_fields (sel : select_list) (r : from_row) (s : section)
    (m : meeting_pattern) (g : gps_row) :
  sel = SectionColumns \/ sel = WalkingColumns ->
  r_section r = Some (s, m, g) ->
  let header := map unqualified (columns sel) in
  let row := map to_python (project sel r) in
  field header row "dept" = Some (PyStr (dept (r_course r)))
  /\ field header row "day" = Some (PyStr (day m))
  /\ field header row "time_start" = Some (PyInt (time_start m))
  /\ field header row "time_end" = Some (PyInt (time_end m))
  /\ field header row "enrollment" = Some (PyInt (enrollment s)).
Proof.
  intros [-> | ->] Hs; cbv zeta; unfold project; rewrite Hs;
    repeat split; reflexivity.
Qed.

(** A row selected by a main query with joins is a joined row. *)
Lemma selected_joined (c : connection) (d : dict) (ps : list sqlval)
    (frows : list from_row) (r : from_row) :
  section_scoped d = true ->
  selected c (main_statement d) ps = ok frows ->
  In r frows ->
  exists s m g,
    In (r_course r, s, m, g) (joined_rows (data c))
    /\ r_section r = Some (s, m, g).
Proof.
  intros Hsc Hsel Hr.
  destruct (selected_in c (main_statement d) ps frows r Hsel Hr) as [_ [H _]].
  cbn [main_statement st_joined] in H. rewrite Hsc in H.
  apply from_rows_joined in H. destruct H as [c0 [s [m [g [Hj E]]]]].
  injection E as <- Es. now exists s, m, g.
Qed.

(** Shared by the theorems on section-scoped keys: the row of the FROM
    clause behind a returned row is a joined row. *)
Lemma returned_section_row
    (compute_time_between : value -> value -> value -> value -> result Z)
    (d : dict) (c c' : connection) (header : list string) (rows : list row)
    (row : row) :
  assert_valid_input d = ok tt ->
  wf_dict d ->
  section_scoped d = true ->
  find_courses compute_time_between d c = (ok (header, rows), c') ->
  In row rows ->
  exists r s m g,
    In (r_course r, s, m, g) (joined_rows (data c))
    /\ r_section r = Some (s, m, g)
    /\ field header row "dept" = Some (PyStr (dept (r_course r)))
    /\ field header row "day" = Some (PyStr (day m))
    /\ field header row "time_start" = Some (PyInt (time_start m))
    /\ field header row "time_end" = Some (PyInt (time_end m))
    /\ field header row "enrollment" = Some (PyInt (enrollment s))
    /\ forall k v p,
         In (k, v) d ->
         String.eqb k "building_code" = false ->
         pred_of_key (n_day d) (n_terms d) k = Some p ->
         exists chunk,
           adapt_all (bound_values (k, v)) = ok chunk
           /\ holds (data c) p chunk r = true.
Proof.
  intros Hok Hwf Hsc Hfc Hin.
  destruct (returned_row _ d c c' header rows row Hok Hwf Hfc Hin)
    as [r [args0 [c2 [ps [frows
         [-> [-> [Hdata [_ [_ [_ [_ [Hfrom [Hr Hall]]]]]]]]]]]]]].
  destruct (selected_joined c2 d ps frows r Hsc Hfrom Hr) as [s [m [g [Hj Hs]]]].
  rewrite Hdata in Hj.
  exists r, s, m, g. split; [assumption |]. split; [assumption |].
  pose proof (section_fields (select_list_of d) r s m g
                (scoped_select_list d Hsc) Hs) as Hf.
  cbv zeta in Hf. destruct Hf as [H1 [H2 [H3 [H4 H5]]]].
  now repeat split.
Qed.

(** X4.  Every returned row is of the department asked for. *)
Theorem rows_match_dept
    (compute_time_between : value -> value -> value -> value -> result Z)
    (d : dict) (c c' : connection) (header : list string) (rows : list row)
    (row : row) (x : string) :
  assert_valid_input d = ok tt ->
  wf_dict d ->
  lookup "dept" d = Some (PyStr x) ->
  find_courses compute_time_between d c = (ok (header, rows), c') ->
  In row rows ->
  field header row "dept" = Some (PyStr x).
Proof.
  intros Hok Hwf Hd Hfc Hin.
  destruct (returned_row _ d c c' header rows row Hok Hwf Hfc Hin)
    as [r [args0 [c2 [ps [frows [-> [-> [_ [_ [_ [_ [_ [_ [_ Hall]]]]]]]]]]]]]].
  destruct (Hall "dept" (PyStr x) DeptEq)
    as [chunk [Ha Hh]]; [now apply lookup_in | reflexivity | reflexivity |].
  cbn in Ha. injection Ha as <-. cbn in Hh. apply String.eqb_eq in Hh.
  rewrite <- Hh. now destruct (select_list_of d).
Qed.

(** X5.  Every returned section starts no earlier than the time asked for. *)
Theorem rows_start_no_earlier
    (compute_time_between : value -> value -> value -> value -> result Z)
    (d : dict) (c c' : connection) (header : list string) (rows : list row)
    (row : row) (v : value) (n : Z) :
  assert_valid_input d = ok tt ->
  wf_dict d ->
  lookup "time_start" d = Some v ->
  int_value v = Some n ->
  find_courses compute_time_between d c = (ok (header, rows), c') ->
  In row rows ->
  exists t, field header row "time_start" = Some (PyInt t) /\ n <= t.
Proof.
  intros Hok Hwf Hl Hn Hfc Hin.
  pose proof (present_section_scoped d "time_start" v ltac:(cbn; tauto) Hl) as Hsc.
  destruct (returned_section_row _ d c c' header rows row Hok Hwf Hsc Hfc Hin)
    as [r [s [m [g [_ [Hs [_ [_ [Hf [_ [_ Hall]]]]]]]]]]].
  destruct (Hall "time_start" v TimeStartGe)
    as [chunk [Ha Hh]]; [now apply lookup_in | reflexivity | reflexivity |].
  assert (Hb : bound_values ("time_start", v) = [v]) by (now destruct v).
  rewrite Hb in Ha. apply adapt_all_one in Ha. destruct Ha as [x [Hx ->]].
  rewrite (adapt_int v n x Hn Hx) in Hh. cbn [holds] in Hh. rewrite Hs in Hh.
  cbn [int_cmp] in Hh. apply Z.geb_le in Hh.
  exists (time_start m). now split.
Qed.

(** X6.  Every returned section ends no later than the time asked for. *)
Theorem rows_end_no_later
    (compute_time_between : value -> value -> value -> value -> result Z)
    (d : dict) (c c' : connection) (header : list string) (rows : list row)
    (row : row) (v : value) (n : Z) :
  assert_valid_input d = ok tt ->
  wf_dict d ->
  lookup "time_end" d = Some v ->
  int_value v = Some n ->
  find_courses compute_time_between d c = (ok (header, rows), c') ->
  In row rows ->
  exists t, field header row "time_end" = Some (PyInt t) /\ t <= n.
Proof.
  intros Hok Hwf Hl Hn Hfc Hin.
  pose proof (present_section_scoped d "time_end" v ltac:(cbn; tauto) Hl) as Hsc.
  destruct (returned_section_row _ d c c' header rows row Hok Hwf Hsc Hfc Hin)
    as [r [s [m [g [_ [Hs [_ [_ [_ [Hf [_ Hall]]]]]]]]]]].
  destruct (Hall "time_end" v TimeEndLe)
    as [chunk [Ha Hh]]; [now apply lookup_in | reflexivity | reflexivity |].
  assert (Hb : bound_values ("time_end", v) = [v]) by (now destruct v).
  rewrite Hb in Ha. apply adapt_all_one in Ha. destruct Ha as [x [Hx ->]].
  rewrite (adapt_int v n x Hn Hx) in Hh. cbn [holds] in Hh. rewrite Hs in Hh.
  cbn [int_cmp] in Hh. apply Z.leb_le in Hh.
  exists (time_end m). now split.
Qed.

(** X7.  Every returned section meets on one of the day codes asked for. *)
Theorem rows_meet_on_a_listed_day
    (compute_time_between : value -> value -> value -> value -> result Z)
    (d : dict) (c c' : connection) (header : list string) (rows : list row)
    (row : row) (v : value) :
  assert_valid_input d = ok tt ->
  wf_dict d ->
  lookup "day" d = Some v ->
  find_courses compute_time_between d c = (ok (header, rows), c') ->
  In row rows ->
  exists code,
    field header row "day" = Some (PyStr code) /\ In (PyStr code) (elements v).
Proof.
  intros Hok Hwf Hl Hfc Hin. pose proof (validated_of_ok d Hok) as V.
  pose proof (present_section_scoped d "day" v ltac:(cbn; tauto) Hl) as Hsc.
  destruct (returned_section_row _ d c c' header rows row Hok Hwf Hsc Hfc Hin)
    as [r [s [m [g [_ [Hs [_ [Hf [_ [_ [_ Hall]]]]]]]]]]].
  destruct (Hall "day" v (DayIn (n_day d)))
    as [chunk [Ha Hh]]; [now apply lookup_in | reflexivity | reflexivity |].
  pose proof (v_day d V v Hl) as Hv.
  destruct v as [| | | | | l | l]; try discriminate Hv; [| discriminate Ha].
  cbn [bound_values type_is_list String.eqb Ascii.eqb Bool.eqb elements] in Ha.
  rewrite (adapt_all_strings l chunk Hv Ha) in Hh.
  cbn [holds] in Hh. rewrite Hs in Hh.
  apply existsb_exists in Hh. destruct Hh as [x [Hx Hh]].
  apply in_map_iff in Hx. destruct Hx as [code [<- Hcode]].
  cbn in Hh. apply String.eqb_eq in Hh.
  exists (day m). split; [assumption |]. rewrite Hh. now apply strings_of_from.
Qed.

(** X8.  Every returned section has an enrollment within the bounds asked
    for, both included. *)
Theorem rows_enrollment_within_bounds
    (compute_time_between : value -> value -> value -> value -> result Z)
    (d : dict) (c c' : connection) (header : list string) (rows : list row)
    (row : row) (v lo_v hi_v : value) (lo hi : Z) :
  assert_valid_input d = ok tt ->
  wf_dict d ->
  lookup "enrollment" d = Some v ->
  elements v = [lo_v; hi_v] ->
  int_value lo_v = Some lo ->
  int_value hi_v = Some hi ->
  find_courses compute_time_between d c = (ok (header, rows), c') ->
  In row rows ->
  exists e, field header row "enrollment" = Some (PyInt e) /\ lo <= e <= hi.
Proof.
  intros Hok Hwf Hl He Hlo Hhi Hfc Hin. pose proof (validated_of_ok d Hok) as V.
  pose proof (present_section_scoped d "enrollment" v ltac:(cbn; tauto) Hl) as Hsc.
  destruct (returned_section_row _ d c c' header rows row Hok Hwf Hsc Hfc Hin)
    as [r [s [m [g [_ [Hs [_ [_ [_ [_ [Hf Hall]]]]]]]]]]].
  destruct (Hall "enrollment" v EnrollmentBetween)
    as [chunk [Ha Hh]]; [now apply lookup_in | reflexivity | reflexivity |].
  pose proof (v_enrollment d V v Hl) as Hv.
  destruct v as [| | | | | l | l]; try discriminate Hv; [| discriminate Ha].
  cbn [elements] in He. subst l.
  cbn [bound_values type_is_list String.eqb Ascii.eqb Bool.eqb elements] in Ha.
  cbn [adapt_all] in Ha.
  destruct (adapt lo_v) as [e1 | x] eqn:Ex; [discriminate |].
  destruct (adapt hi_v) as [e2 | y] eqn:Ey; [discriminate |].
  cbn in Ha. injection Ha as <-.
  rewrite (adapt_int lo_v lo x Hlo Ex), (adapt_int hi_v hi y Hhi Ey) in Hh.
  cbn [holds] in Hh. rewrite Hs in Hh. cbn [int_cmp] in Hh.
  apply andb_true_iff in Hh. destruct Hh as [H1 H2].
  apply Z.geb_le in H1. apply Z.leb_le in H2.
  exists (enrollment s). split; [assumption | lia].
Qed.

(** A row selected by a main query with the walking-time column is a
    joined row with the value of the call as its walking time. *)
Lemma selected_walking (c : connection) (d : dict) (ps : list sqlval)
    (frows : list from_row) (r : from_row) :
  section_scoped d = true ->
  select_list_of d = WalkingColumns ->
  selected c (main_statement d) ps = ok frows ->
  In r frows ->
  exists f x y rest s m g w,
    registered "time_between" 4 c = Some f
    /\ ps = x :: y :: rest
    /\ In (r_course r, s, m, g) (joined_rows (data c))
    /\ r_section r = Some (s, m, g)
    /\ r_walking_time r = Some w
    /\ f [to_python (lon g); to_python (lat g); to_python x; to_python y]
       = ok w
    /\ int64 w = true.
Proof.
  intros Hsc Hsel Hfrom Hr.
  destruct (selected_joined c d ps frows r Hsc Hfrom Hr) as [s [m [g [Hj Hs]]]].
  destruct (selected_in c (main_statement d) ps frows r Hfrom Hr) as [_ [_ H]].
  cbn [main_statement st_select] in H. rewrite Hsel in H.
  destruct H as [f [x [y [rest [s' [m' [g' [w [Hf [-> [Hs' [Hw Hc]]]]]]]]]]]].
  rewrite Hs in Hs'. injection Hs' as <- <- <-.
  apply call_value in Hc. destruct Hc as [Hc H64].
  now exists f, x, y, rest, s, m, g, w.
Qed.

(** X9.  Every returned section lies within the walking time asked for, and
    the walking time shown is what [compute_time_between] gives for the
    coordinates of the section's building followed by those of the first
    gps row of the reference building. *)
Theorem rows_within_walking_time
    (compute_time_between : value -> value -> value -> value -> result Z)
    (d : dict) (c c' : connection) (header : list string) (rows : list row)
    (row : row) (v : value) (n : Z) (b : string) :
  assert_valid_input d = ok tt ->
  wf_dict d ->
  lookup "walking_time" d = Some v ->
  int_value v = Some n ->
  lookup "building_code" d = Some (PyStr b) ->
  find_courses compute_time_between d c = (ok (header, rows), c') ->
  In row rows ->
  exists w s g ref_lon ref_lat others,
    field header row "walking_time" = Some (PyInt w)
    /\ w <= n
    /\ field header row "building_code" = Some (PyStr (section_building_code s))
    /\ In s (sections (data c))
    /\ In g (gps (data c))
    /\ gps_building_code g = section_building_code s
    /\ coordinates c b = [ref_lon; ref_lat] :: others
    /\ compute_time_between (to_python (lon g)) (to_python (lat g))
         ref_lon ref_lat = ok w.
Proof.
  intros Hok Hwf Hl Hn Hb Hfc Hin. pose proof (validated_of_ok d Hok) as V.
  pose proof (present_section_scoped d "walking_time" v ltac:(cbn; tauto) Hl) as Hsc.
  assert (Hsel : select_list_of d = WalkingColumns).
  { unfold select_list_of, contains_key. now rewrite Hsc, Hb. }
  destruct (returned_row _ d c c' header rows row Hok Hwf Hfc Hin)
    as [r [args0 [c2 [ps [frows
         [-> [-> [Hdata [Hreg [Ha [_ [Hco [Hfrom [Hr Hall]]]]]]]]]]]]]].
  destruct (selected_walking c2 d ps frows r Hsc Hsel Hfrom Hr)
    as [f [x [y [rest [s [m [g [w [Hf [-> [Hj [Hs [Hw [Hcall _]]]]]]]]]]]]]].
  rewrite Hreg in Hf. injection Hf as <-.
  rewrite Hdata in Hj. apply joined_rows_in in Hj.
  destruct Hj as [_ [Hsin [_ [Hgin [_ [_ Hgb]]]]]].
  destruct (Hco b Hb) as [others Hcoord].
  assert (Href : In args0 (coordinates c b)) by (rewrite Hcoord; now left).
  apply coordinates_row in Href. destruct Href as [g0 [_ [_ ->]]].
  cbn [app adapt_all] in Ha.
  destruct (adapt (to_python (lon g0))) as [e | x'] eqn:Ex; [discriminate Ha |].
  destruct (adapt (to_python (lat g0))) as [e | y'] eqn:Ey; [discriminate Ha |].
  cbn [rbind] in Ha.
  destruct (adapt_all (where_args d)) as [e | tail]; [discriminate Ha |].
  cbn [rbind] in Ha. unfold ok in Ha. injection Ha as <- <- _.
  apply adapt_to_python in Ex, Ey. subst x' y'.
  destruct (Hall "walking_time" v WalkingTimeLe)
    as [chunk [Hc Hh]]; [now apply lookup_in | reflexivity | reflexivity |].
  assert (Hbv : bound_values ("walking_time", v) = [v]) by (now destruct v).
  rewrite Hbv in Hc. apply adapt_all_one in Hc. destruct Hc as [z [Hz ->]].
  rewrite (adapt_int v n z Hn Hz) in Hh. cbn [holds] in Hh. rewrite Hw in Hh.
  cbn [int_cmp] in Hh. apply Z.leb_le in Hh.
  exists w, s, g, (to_python (lon g0)), (to_python (lat g0)), others.
  rewrite Hsel. unfold project. rewrite Hs, Hw.
  repeat split; try assumption; reflexivity.
Qed.

(* ===================================================================== *)
(** ** The shape of a result *)
(* ===================================================================== *)

Lemma to_python_injective (x y : sqlval) : to_python x = to_python y -> x = y.
Proof. destruct x, y; cbn; intros H; congruence. Qed.

Lemma map_to_python_injective (x y : list sqlval) :
  map to_python x = map to_python y -> x = y.
Proof.
  revert y. induction x as [| a x IH]; intros [| b y] H; try discriminate H;
    [reflexivity |].
  cbn in H. injection H as Ha H.
  now rewrite (to_python_injective a b Ha), (IH y H).
Qed.

(** X11.  The header names the columns of the select list the keys call for;
    every row has one value per name; no row is returned twice. *)
Theorem result_shape
    (compute_time_between : value -> value -> value -> value -> result Z)
    (d : dict) (c c' : connection) (header : list string) (rows : list row) :
  d <> [] ->
  assert_valid_input d = ok tt ->
  find_courses compute_time_between d c = (ok (header, rows), c') ->
  header = header_of (select_list_of d)
  /\ (forall row, In row rows -> List.length row = List.length header)
  /\ NoDup rows.
Proof.
  intros Hne Hok Hfc. pose proof (validated_of_ok d Hok) as V.
  destruct (find_courses_ok _ d c c' header rows Hne Hok Hfc)
    as [args0 [c2 [Hstep _]]].
  destruct (main_step_ok d args0 c2 c' header rows V Hstep)
    as [ps [frows [_ [_ [Hfrom [-> [-> _]]]]]]].
  split; [now destruct (select_list_of d) |]. split.
  - intros row Hin.
    apply in_map_iff in Hin. destruct Hin as [sr [<- Hin]].
    apply distinct_incl in Hin. apply in_map_iff in Hin.
    destruct Hin as [r [<- Hin]].
    rewrite !length_map.
    destruct (section_scoped d) eqn:Es.
    + destruct (scoped_select_list d Es) as [Hsel | Hsel].
      * destruct (selected_joined c2 d ps frows r Es Hfrom Hin)
          as [s [m [g [_ Hs]]]].
        rewrite Hsel. unfold project. now rewrite Hs.
      * destruct (selected_walking c2 d ps frows r Es Hsel Hfrom Hin)
          as [f [x [y [rest [s [m [g [w [_ [_ [_ [Hs [Hw _]]]]]]]]]]]]].
        rewrite Hsel. unfold project. now rewrite Hs, Hw.
    + unfold select_list_of. rewrite Es. reflexivity.
  - apply NoDup_map_NoDup_ForallPairs.
    + intros x y _ _. apply map_to_python_injective.
    + apply (NoDup_map_inv (map sql_key)). apply distinct_keys.
Qed.

(* ===================================================================== *)
(** ** What reaches the store *)
(* ===================================================================== *)

(** X12.  A dictionary that fails validation reaches no query: the validation
    error is raised before any statement is handed to the store. *)
Theorem invalid_criteria_reach_no_query
    (compute_time_between : value -> value -> value -> value -> result Z)
    (d : dict) (c : connection) :
  d <> [] ->
  violates_constraints d = true ->
  fst (find_courses compute_time_between d c) = raise AssertionError
  /\ issued c (snd (find_courses compute_time_between d c)) = [].
Proof.
  intros Hne Hv. apply assert_valid_input_raise_iff in Hv.
  rewrite (find_courses_invalid _ d c AssertionError Hne Hv). cbn [fst snd].
  split; [reflexivity | apply issued_prepared].
Qed.

(** X13.  The statements of one call on a validated dictionary: the gps lookup
    is issued exactly when [building_code] is present, and first; the
    main query follows once, with the first gps row of the building bound
    before the parameters of the predicates, unless the lookup found no
    row; nothing else is issued. *)
Theorem statements_of_a_call
    (compute_time_between : value -> value -> value -> value -> result Z)
    (d : dict) (c : connection) :
  d <> [] ->
  assert_valid_input d = ok tt ->
  (contains_key "building_code" d = false
   /\ issued c (snd (find_courses compute_time_between d c))
      = [(main_query d, where_args d)])
  \/ (exists b,
        lookup "building_code" d = Some (PyStr b)
        /\ coordinates c b = []
        /\ issued c (snd (find_courses compute_time_between d c))
           = [(lookup_sql, [PyStr b])])
  \/ (exists b ref others,
        lookup "building_code" d = Some (PyStr b)
        /\ coordinates c b = ref :: others
        /\ issued c (snd (find_courses compute_time_between d c))
           = [(lookup_sql, [PyStr b]);
              (main_query d, (ref ++ where_args d)%list)]).
Proof.
  intros Hne Hok. pose proof (validated_of_ok d Hok) as V.
  rewrite (find_courses_validated _ d c Hne Hok).
  destruct (lookup "building_code" d) as [v |] eqn:Eb.
  - pose proof (v_building d V v Eb) as Hs. destruct v; try discriminate Hs.
    rewrite (building_code_section_scoped d V)
      by (unfold contains_key; now rewrite Eb).
    rewrite (coordinates_prepared compute_time_between c s).
    destruct (coordinates c s) as [| ref others] eqn:Ec.
    + right. left. exists s. cbn [snd]. now rewrite issued_one.
    + right. right. exists s, ref, others. unfold main_step. cbn [snd].
      now rewrite issued_two.
  - left. split; [unfold contains_key; now rewrite Eb |].
    destruct (section_scoped d); unfold main_step; cbn [snd app];
      now rewrite issued_one.
Qed.

(** X14.  Whatever the dictionary, and whether or not the call raises,
    [time_between] is registered with four arguments afterwards, the
    data is as it was and at most two statements were issued. *)
Theorem time_between_always_registered
    (compute_time_between : value -> value -> value -> value -> result Z)
    (d : dict) (c : connection) :
  registered "time_between" 4 (snd (find_courses compute_time_between d c))
  = Some (time_between compute_time_between)
  /\ data (snd (find_courses compute_time_between d c)) = data c
  /\ (List.length (issued c (snd (find_courses compute_time_between d c)))
      <= 2)%nat.
Proof.
  destruct d as [| kv d'].
  - rewrite find_courses_empty. cbn [snd]. rewrite issued_prepared.
    repeat split; cbn; lia.
  - remember (kv :: d') as d eqn:Ed.
    assert (Hne : d <> []) by (subst d; discriminate).
    destruct (assert_valid_input d) as [e | []] eqn:Hok.
    + rewrite (find_courses_invalid _ d c e Hne Hok). cbn [snd].
      rewrite issued_prepared. repeat split; cbn; lia.
    + rewrite (find_courses_validated _ d c Hne Hok).
      assert (Hmain : forall args0,
                 registered "time_between" 4
                   (snd (main_step d args0 (prepared compute_time_between c)))
                 = Some (time_between compute_time_between)
                 /\ data (snd (main_step d args0 (prepared compute_time_between c)))
                    = data c
                 /\ (List.length
                       (issued c (snd (main_step d args0
                                         (prepared compute_time_between c))))
                     <= 2)%nat).
      { intros args0. unfold main_step. cbn [snd]. rewrite issued_one.
        repeat split; cbn; lia. }
      destruct (section_scoped d); [| apply Hmain].
      destruct (lookup "building_code" d) as [v |]; [| apply Hmain].
      destruct v; try apply Hmain.
      destruct (coordinates _ s) as [| ref others].
      * cbn [snd]. rewrite issued_one. repeat split; cbn; lia.
      * unfold main_step. cbn [snd]. rewrite issued_two. repeat split; cbn; lia.
Qed.

(* --------------------------------------------------------------------- *)
(** *** The exceptions of a call *)

Lemma adapt_raises (v : value) (e : exn) :
  adapt v = raise e -> e = sqlite3_Error \/ e = OverflowError.
Proof.
  unfold raise, ok.
  destruct v; cbn; intros H; try discriminate H;
    try (injection H as <-; now left).
  match type of H with
  | context [if ?b then _ else _] => destruct b; [discriminate H |]
  end.
  injection H as <-. now right.
Qed.

Lemma adapt_all_raises (l : list value) (e : exn) :
  adapt_all l = raise e -> e = sqlite3_Error \/ e = OverflowError.
Proof.
  induction l as [| v l IH]; intros H; [discriminate H |].
  cbn [adapt_all] in H. destruct (adapt v) as [e' | x] eqn:Ev.
  - cbn in H. unfold raise in H. injection H as <-. now apply (adapt_raises v).
  - cbn [rbind] in H. destruct (adapt_all l) as [e' | xs].
    + cbn in H. unfold raise in H. injection H as <-. now apply IH.
    + discriminate H.
Qed.

Lemma with_walking_time_raises (f : scalar) (x y : sqlval)
    (rows : list from_row) (e : exn) :
  with_walking_time f x y rows = raise e -> e = sqlite3_Error.
Proof.
  induction rows as [| r rows IH]; intros H; [discriminate H |].
  cbn [with_walking_time] in H.
  destruct (r_section r) as [[[s m] g] |];
    [| unfold raise in H; now injection H as <-].
  destruct (call f g x y) as [w |];
    [| unfold raise in H; now injection H as <-].
  destruct (with_walking_time f x y rows) as [e' | rs].
  - cbn in H. unfold raise in H. injection H as <-. now apply IH.
  - discriminate H.
Qed.

Lemma selected_raises (c : connection) (st : statement) (ps : list sqlval)
    (e : exn) :
  selected c st ps = raise e -> e = sqlite3_Error.
Proof.
  unfold selected. intros H.
  destruct (st_select st); try discriminate H.
  destruct (registered "time_between" 4 c) as [f |];
    [| unfold raise in H; now injection H as <-].
  destruct ps as [| x [| y ps]];
    try (unfold raise in H; now injection H as <-).
  destruct (eager_calls _ _ _ _ _);
    [| unfold raise in H; now injection H as <-].
  destruct (with_walking_time f x y _) as [e' | rs] eqn:Ew; [| discriminate H].
  cbn in H. unfold raise in H. injection H as <-.
  now apply (with_walking_time_raises f x y _ e' Ew).
Qed.

(** The store raises its own errors only. *)
Lemma run_raises (c : connection) (sql : string) (params : list value)
    (e : exn) :
  run c sql params = raise e -> e = sqlite3_Error \/ e = OverflowError.
Proof.
  unfold run. destruct (String.eqb sql lookup_sql).
  - unfold run_lookup. destruct params as [| v [| v' params]];
      try (unfold raise; intros H; injection H as <-; now left).
    destruct (adapt v) as [e' | x] eqn:Ev; [| discriminate].
    cbn. unfold raise. intros H. injection H as <-. now apply (adapt_raises v).
  - destruct (parse_query sql) as [st |];
      [| unfold raise; intros H; injection H as <-; now left].
    unfold run_query.
    destruct (negb (resolves c st));
      [unfold raise; intros H; injection H as <-; now left |].
    destruct (Z.ltb _ _);
      [unfold raise; intros H; injection H as <-; now left |].
    destruct (negb (Nat.eqb _ _));
      [unfold raise; intros H; injection H as <-; now left |].
    destruct (adapt_all params) as [e' | ps] eqn:Ea.
    + cbn. unfold raise. intros H. injection H as <-.
      now apply (adapt_all_raises params).
    + cbn [rbind].
      destruct (selected c st ps) as [e' | rows] eqn:Ef; [| discriminate].
      cbn. unfold raise. intros H. injection H as <-. left.
      now apply (selected_raises c st ps).
Qed.

(** X15.  The exceptions of [find_courses].  If a call raises, then
    either it is the validation error and the dictionary is non-empty
    and violates a constraint; or it is the index error and the
    dictionary is validated with a building that has no gps row; or it
    is an error of the store on the main query of a validated
    dictionary.  A key error or a type error is never raised. *)
Theorem exceptions_of_a_call
    (compute_time_between : value -> value -> value -> value -> result Z)
    (d : dict) (c : connection) (e : exn) :
  fst (find_courses compute_time_between d c) = raise e ->
  (e = AssertionError /\ d <> [] /\ violates_constraints d = true)
  \/ (e = IndexError
      /\ assert_valid_input d = ok tt
      /\ exists b, lookup "building_code" d = Some (PyStr b)
                   /\ coordinates c b = [])
  \/ ((e = sqlite3_Error \/ e = OverflowError)
      /\ assert_valid_input d = ok tt
      /\ exists a, In (main_query d, a)
                     (issued c (snd (find_courses compute_time_between d c)))).
Proof.
  intros H. destruct d as [| kv d'].
  - rewrite find_courses_empty in H. discriminate H.
  - remember (kv :: d') as d eqn:Ed.
    assert (Hne : d <> []) by (subst d; discriminate).
    destruct (assert_valid_input d) as [e' | []] eqn:Hok.
    + rewrite (find_courses_invalid _ d c e' Hne Hok) in H. cbn [fst] in H.
      unfold raise in H. injection H as <-.
      assert (He : e' = AssertionError).
      { rewrite assert_valid_input_eq in Hok.
        destruct (negb (violates_constraints d)); [discriminate Hok |].
        cbn in Hok. unfold raise in Hok. now injection Hok as <-. }
      subst e'. left. split; [reflexivity |]. split; [assumption |].
      now apply assert_valid_input_raise_iff.
    + pose proof (validated_of_ok d Hok) as V.
      assert (Hmain : forall args0 c2,
                 (List.length (statements c)
                  <= List.length (statements c2))%nat ->
                 fst (main_step d args0 c2) = raise e ->
                 (e = sqlite3_Error \/ e = OverflowError)
                 /\ exists a, In (main_query d, a)
                                (issued c (snd (main_step d args0 c2)))).
      { intros args0 c2 Hlen Hm. unfold main_step in Hm |- *. cbn [fst snd] in *.
        destruct (run c2 (main_query d) (args0 ++ where_args d)) as [e' | cur] eqn:Er;
          [| discriminate Hm].
        unfold raise in Hm. injection Hm as <-.
        split; [now apply (run_raises c2 (main_query d) (args0 ++ where_args d)) |].
        exists (args0 ++ where_args d)%list.
        rewrite issued_logged by assumption. apply in_or_app. right. now left. }
      rewrite (find_courses_validated _ d c Hne Hok) in H |- *.
      destruct (section_scoped d).
      * destruct (lookup "building_code" d) as [v |] eqn:Eb.
        -- pose proof (v_building d V v Eb) as Hs.
           destruct v; try discriminate Hs.
           rewrite (coordinates_prepared compute_time_between c s) in H |- *.
           destruct (coordinates c s) as [| ref others] eqn:Ec.
           ++ cbn [fst] in H. unfold raise in H. injection H as <-.
              right. left. split; [reflexivity |]. split; [reflexivity |].
              now exists s.
           ++ right. right.
              destruct (Hmain ref (logged (prepared compute_time_between c)
                                     lookup_sql [PyStr s])) as [He Hi];
                [cbn; rewrite length_app; lia | exact H |].
              now repeat split.
        -- right. right.
           destruct (Hmain [] (prepared compute_time_between c)) as [He Hi];
             [cbn; lia | exact H |].
           now repeat split.
      * right. right.
        destruct (Hmain [] (prepared compute_time_between c)) as [He Hi];
          [cbn; lia | exact H |].
        now repeat split.
Qed.

(* ===================================================================== *)
(** ** The query text and the values *)
(* ===================================================================== *)

Lemma contains_key_by_keys (d d' : dict) (k : string) :
  keys d = keys d' -> contains_key k d = contains_key k d'.
Proof. intros E. now rewrite <- !mem_keys, E. Qed.

Lemma section_scoped_by_keys (d d' : dict) :
  keys d = keys d' -> section_scoped d = section_scoped d'.
Proof.
  intros E. unfold section_scoped.
  induction section_scoped_keys as [| k ks IH]; [reflexivity |].
  cbn [existsb]. now rewrite IH, (contains_key_by_keys d d' k E).
Qed.

Lemma fragments_by_keys (d d' : dict) :
  n_day d = n_day d' -> n_terms d = n_terms d' ->
  forall items items' : dict,
    keys items = keys items' ->
    map (fragment d) (predicate_items items)
    = map (fragment d') (predicate_items items').
Proof.
  intros Hd Ht. induction items as [| [k v] items IH]; intros [| [k' v'] items'] E;
    try discriminate E; [reflexivity |].
  unfold keys in E. cbn [map fst] in E. injection E as <- E.
  cbn [predicate_items filter fst].
  destruct (negb (String.eqb k "building_code")).
  - cbn [map]. f_equal; [| now apply IH].
    unfold fragment. cbn [fst]. now rewrite Hd, Ht.
  - now apply IH.
Qed.

Lemma main_query_by_keys (d d' : dict) :
  keys d = keys d' -> n_day d = n_day d' -> n_terms d = n_terms d' ->
  main_query d = main_query d'.
Proof.
  intros E Hd Ht.
  unfold main_query, select_clause, from_clause, where_clause.
  rewrite (section_scoped_by_keys d d' E).
  rewrite (contains_key_by_keys d d' "building_code" E).
  now rewrite (fragments_by_keys d d' Hd Ht d d' E).
Qed.

(** X16.  No value reaches the query text: two validated dictionaries with the
    same keys in the same order, and [day] and [terms] lists of the same
    lengths, are sent to the store as the same text, whatever their
    values and whatever the store holds. *)
Theorem query_text_ignores_values
    (compute_time_between : value -> value -> value -> value -> result Z)
    (d d' : dict) (c c' : connection) (q q' : string) (a a' : list value) :
  d <> [] ->
  assert_valid_input d = ok tt ->
  assert_valid_input d' = ok tt ->
  keys d = keys d' ->
  size (get d "day" (PyList [])) = size (get d' "day" (PyList [])) ->
  size (get d "terms" (PyList [])) = size (get d' "terms" (PyList [])) ->
  In (q, a) (issued c (snd (find_courses compute_time_between d c))) ->
  In (q', a') (issued c' (snd (find_courses compute_time_between d' c'))) ->
  q <> lookup_sql ->
  q' <> lookup_sql ->
  q = q'.
Proof.
  intros Hne Hok Hok' E Hd Ht Hin Hin' Hq Hq'.
  assert (Hne' : d' <> []).
  { intros ->. destruct d; [congruence | discriminate E]. }
  destruct (find_courses_issued _ d c q a Hne Hok Hin)
    as [[b [_ [Eq _]]] | [-> _]]; [congruence |].
  destruct (find_courses_issued _ d' c' q' a' Hne' Hok' Hin')
    as [[b [_ [Eq _]]] | [-> _]]; [congruence |].
  now apply main_query_by_keys.
Qed.

(* ===================================================================== *)
(** ** Course-level search *)
(* ===================================================================== *)

(** With distinct terms and an index without repeated rows, a course
    indexed under every term has as many matching rows as terms. *)
Lemma all_indexed_count (db : database) (cid : Z) (strs : list string) :
  NoDup (catalog_index db) ->
  NoDup strs ->
  (forall s, In s strs ->
             In {| word := s; index_course_id := cid |} (catalog_index db)) ->
  List.length (matching_entries db cid (map Text strs)) = List.length strs.
Proof.
  intros Hnd Hns Hall.
  set (g := matching_entries db cid (map Text strs)).
  assert (Hg : forall e, In e g <->
                         In e (catalog_index db)
                         /\ index_course_id e = cid /\ In (word e) strs).
  { intros e. unfold g, matching_entries. rewrite filter_In, andb_true_iff.
    rewrite Z.eqb_eq, existsb_exists. split.
    - intros [He [Hc [x [Hx Hw]]]]. split; [assumption |]. split; [assumption |].
      apply in_map_iff in Hx. destruct Hx as [s [<- Hs]].
      cbn in Hw. apply String.eqb_eq in Hw. now rewrite Hw.
    - intros [He [Hc Hw]]. split; [assumption |]. split; [assumption |].
      exists (Text (word e)). split; [now apply in_map |].
      cbn. apply String.eqb_refl. }
  assert (Hndg : NoDup (map word g)).
  { apply NoDup_map_NoDup_ForallPairs.
    - intros a b Ha Hb Hw. apply Hg in Ha, Hb.
      destruct Ha as [_ [Hca _]]. destruct Hb as [_ [Hcb _]].
      destruct a, b. cbn in *. congruence.
    - unfold g, matching_entries. now apply NoDup_filter. }
  rewrite <- (length_map word g). apply Nat.le_antisymm.
  - apply NoDup_incl_length; [assumption |].
    intros w Hw. apply in_map_iff in Hw. destruct Hw as [e [<- He]].
    apply Hg in He. now destruct He as [_ [_ H]].
  - apply NoDup_incl_length; [assumption |].
    intros s Hs. apply in_map_iff.
    exists {| word := s; index_course_id := cid |}. split; [reflexivity |].
    apply Hg. cbn. split; [now apply Hall | now split].
Qed.

Lemma holds_terms_of_count (db : database) (ts : list value)
    (chunk : list sqlval) (r : from_row) :
  all_str ts = true ->
  ts <> [] ->
  adapt_all (bound_values ("terms", PyList ts)) = ok chunk ->
  List.length (matching_entries db (course_id (r_course r))
                 (map Text (strings_of ts)))
  = List.length ts ->
  holds db (TermsAll (List.length ts)) chunk r = true.
Proof.
  intros Hs Hne Ha Hcount.
  cbn [bound_values type_is_list String.eqb Ascii.eqb Bool.eqb elements] in Ha.
  apply adapt_all_app in Ha. destruct Ha as [cx [cy [-> [Hx Hy]]]].
  pose proof (adapt_all_strings ts cx Hs Hx) as Ecx.
  pose proof (adapt_all_length ts cx Hx) as Hlen.
  apply adapt_all_one in Hy. destruct Hy as [z [Hz ->]].
  rewrite (adapt_int (PyInt (Z.of_nat (List.length ts)))
             (Z.of_nat (List.length ts)) z eq_refl Hz).
  cbn [holds]. rewrite <- Hlen, firstn_exact, skipn_exact, Ecx.
  destruct (matching_entries db (course_id (r_course r)) (map Text (strings_of ts)))
    as [| e g] eqn:Eg.
  - cbn in Hcount. destruct ts; [congruence | discriminate Hcount].
  - cbn [int_cmp]. apply Z.eqb_eq.
    now rewrite Hcount, length_map, (strings_of_length ts Hs).
Qed.

(** The keys present in a dictionary without section-scoped key that
    produce a predicate are [dept] and [terms]. *)
Lemma course_level_keys (d : dict) (k : string) (v : value) :
  validated d -> section_scoped d = false ->
  In (k, v) d ->
  k = "dept" \/ k = "terms".
Proof.
  intros V Hsc Hin.
  pose proof (in_contains_key d k v Hin) as Hc.
  assert (Hk : mem k acceptable_keys = true).
  { pose proof (v_keys d V) as Hk. unfold issubset in Hk.
    rewrite forallb_forall in Hk. apply Hk. unfold keys.
    apply in_map_iff. now exists (k, v). }
  assert (Hno : forall k', In k' section_scoped_keys -> k <> k').
  { intros k' Hk' ->. now rewrite (key_section_scoped d k' Hk' Hc) in Hsc. }
  assert (Hnb : k <> "building_code").
  { intros ->. now rewrite (building_code_section_scoped d V Hc) in Hsc. }
  unfold mem, acceptable_keys in Hk. cbn [existsb] in Hk.
  repeat (apply orb_true_iff in Hk; destruct Hk as [Hk | Hk]);
    try discriminate Hk; apply String.eqb_eq in Hk; subst k;
    first [ now left
          | now right
          | exfalso; now apply Hnb
          | exfalso; eapply Hno; [| reflexivity]; cbn; tauto ].
Qed.

(** The rows fetched from the rows selected: one for each row selected,
    no two of them the same for DISTINCT. *)
Lemma fetched_rows (sel : select_list) (l : list from_row) :
  let rows := map (map to_python) (distinct (map (project sel) l)) in
  NoDup (map (map value_key) rows)
  /\ (forall row, In row rows ->
                  exists r, In r l /\ row = map to_python (project sel r))
  /\ (forall r, In r l ->
                exists row, In row rows
                            /\ same_row row (map to_python (project sel r))).
Proof.
  cbv zeta. split; [| split].
  - rewrite map_map.
    rewrite (map_ext (fun x => map value_key (map to_python x)) (map sql_key))
      by (intros x; apply map_map).
    apply distinct_keys.
  - intros row H. apply in_map_iff in H. destruct H as [sr [<- H]].
    apply distinct_incl in H. apply in_map_iff in H. destruct H as [r [<- H]].
    now exists r.
  - intros r H.
    destruct (distinct_covers (map (project sel) l) (project sel r))
      as [sr [Hin Hk]]; [now apply in_map |].
    exists (map to_python sr). split; [now apply in_map |].
    unfold same_row. rewrite !map_map. exact Hk.
Qed.

(** What the predicates of a dictionary without section-scoped key ask
    of a course. *)
Lemma course_level_holds (d : dict) (db : database) (ps : list sqlval)
    (crs : course) :
  validated d -> wf_dict d ->
  section_scoped d = false ->
  adapt_all (where_args d) = ok ps ->
  (forall v, lookup "terms" d = Some v -> NoDup (strings_of (elements v))) ->
  NoDup (catalog_index db) ->
  all_hold db (preds_of d) ps
    {| r_course := crs; r_section := None; r_walking_time := None |} = true
  <-> course_matches d db crs.
Proof.
  intros V Hwf Hsc Hps Hdist Hnd. unfold course_matches. split.
  - intros Hall.
    pose proof (all_hold_items d db _ V Hwf (predicate_items d) ps
                  (predicate_items_incl d) (predicate_items_not_building d)
                  Hps Hall) as Hi.
    split.
    + intros x Hx.
      destruct (Hi "dept" (PyStr x) DeptEq) as [chunk [Ha Hh]];
        [unfold predicate_items; apply filter_In; split;
         [now apply lookup_in | reflexivity]
        | reflexivity |].
      cbn in Ha. unfold ok in Ha. injection Ha as <-.
      cbn in Hh. now apply String.eqb_eq in Hh.
    + intros v s Hv Hs.
      destruct (Hi "terms" v (TermsAll (n_terms d))) as [chunk [Ha Hh]];
        [unfold predicate_items; apply filter_In; split;
         [now apply lookup_in | reflexivity]
        | reflexivity |].
      pose proof (v_terms d V v Hv) as Hval.
      assert (En : n_terms d = size v) by (unfold n_terms, get; now rewrite Hv).
      destruct v as [| | | | | ts | ts]; try discriminate Hval;
        [| discriminate Ha].
      assert (Hstr : all_str ts = true)
        by (destruct ts; [discriminate Hval | exact Hval]).
      rewrite En in Hh. cbn [size elements] in Hh, Hs.
      pose proof (holds_terms db ts chunk _ Hstr Ha Hh) as Hcount.
      cbn [r_course] in Hcount.
      apply (all_terms_indexed db _ (strings_of ts) Hnd).
      * now rewrite Hcount, (strings_of_length ts Hstr).
      * now apply strings_of_in.
  - intros [Hdept Hterms].
    apply (all_hold_of_items d db _ V Hwf (predicate_items d) ps
             (predicate_items_incl d) (predicate_items_not_building d) Hps).
    intros k v p chunk Hkv Hp Ha.
    apply predicate_items_incl in Hkv.
    pose proof (in_lookup k d v Hwf Hkv) as Hl.
    destruct (course_level_keys d k v V Hsc Hkv) as [-> | ->].
    + pose proof (v_dept d V v Hl) as Hs. destruct v; try discriminate Hs.
      cbn in Hp. injection Hp as <-.
      cbn in Ha. unfold ok in Ha. injection Ha as <-.
      cbn. apply String.eqb_eq. now apply Hdept.
    + pose proof (v_terms d V v Hl) as Hval.
      assert (En : n_terms d = size v) by (unfold n_terms, get; now rewrite Hl).
      cbn in Hp. injection Hp as <-.
      destruct v as [| | | | | ts | ts]; try discriminate Hval;
        [| discriminate Ha].
      assert (Hstr : all_str ts = true)
        by (destruct ts; [discriminate Hval | exact Hval]).
      rewrite En. cbn [size elements].
      apply (holds_terms_of_count db ts chunk _ Hstr); try assumption.
      * intros ->. discriminate Hval.
      * cbn [r_course]. rewrite <- (strings_of_length ts Hstr).
        apply (all_indexed_count db _ (strings_of ts) Hnd).
        -- exact (Hdist (PyList ts) Hl).
        -- intros s Hs. apply (Hterms (PyList ts) s Hl).
           cbn [elements]. now apply strings_of_from.
Qed.

(** X1.  Course-level search.  For a validated dictionary with no
    section-scoped key (so its keys are among dept and terms), whose
    values can be bound and whose terms are distinct, within the
    placeholders the connection allows, on an index without repeated
    rows: the call succeeds and the header is dept, course_num, title;
    every row is the row of a course of the department asked for (if
    any) that is indexed under every term asked for (if any); every
    such course has its row returned, or a row that DISTINCT does not
    tell apart from it; and DISTINCT tells any two rows returned
    apart. *)
Theorem course_level_search
    (compute_time_between : value -> value -> value -> value -> result Z)
    (d : dict) (c : connection) :
  d <> [] ->
  assert_valid_input d = ok tt ->
  wf_dict d ->
  section_scoped d = false ->
  (forall k v, In (k, v) d -> bindable v = true) ->
  Z.of_nat (count_placeholders (main_query d))
  <= Z.pos (variable_limit (data c)) ->
  (forall v, lookup "terms" d = Some v -> NoDup (strings_of (elements v))) ->
  NoDup (catalog_index (data c)) ->
  exists rows,
    fst (find_courses compute_time_between d c)
    = ok (["dept"; "course_num"; "title"], rows)
    /\ NoDup (map (map value_key) rows)
    /\ (forall row,
          In row rows ->
          exists crs,
            In crs (courses (data c))
            /\ row = course_row crs
            /\ course_matches d (data c) crs)
    /\ (forall crs,
          In crs (courses (data c)) ->
          course_matches d (data c) crs ->
          exists row, In row rows /\ same_row row (course_row crs)).
Proof.
  intros Hne Hok Hwf Hsc Hbind Hlim Hdist Hnd.
  pose proof (validated_of_ok d Hok) as V.
  assert (Hnb : lookup "building_code" d = None).
  { destruct (lookup "building_code" d) eqn:E; [| reflexivity].
    rewrite (building_code_section_scoped d V) in Hsc; [discriminate Hsc |].
    unfold contains_key. now rewrite E. }
  assert (Hsel : select_list_of d = CourseColumns)
    by (unfold select_list_of; now rewrite Hsc).
  destruct (find_courses_by_selected compute_time_between d c [] []
              Hne Hok Hwf Hbind Hlim)
    as [ps [c2 [Hps [Hd [_ [Hres _]]]]]];
    [intros b E; rewrite Hnb in E; discriminate E | reflexivity | reflexivity |].
  rewrite Hres. unfold selected.
  cbn [main_statement st_select st_joined st_preds app].
  rewrite Hsel, Hsc, Hd. cbn [rbind ok select_arity skipn header_of app].
  eexists. split; [reflexivity |].
  destruct (fetched_rows CourseColumns
              (filter (all_hold (data c) (preds_of d) ps)
                      (from_rows (data c) false)))
    as [Hnodup [Hsound Hcomplete]].
  split; [exact Hnodup |]. split.
  - intros row Hin. destruct (Hsound row Hin) as [r [Hr ->]].
    apply filter_In in Hr. destruct Hr as [Hr Hall].
    apply from_rows_courses in Hr. destruct Hr as [crs [Hcrs ->]].
    exists crs. split; [assumption |]. split; [reflexivity |].
    now apply (course_level_holds d (data c) ps crs V Hwf Hsc Hps Hdist Hnd).
  - intros crs Hcrs Hm.
    apply (Hcomplete {| r_course := crs; r_section := None;
                        r_walking_time := None |}).
    apply filter_In. split.
    + apply from_rows_courses. now exists crs.
    + now apply (course_level_holds d (data c) ps crs V Hwf Hsc Hps Hdist Hnd).
Qed.

(* ===================================================================== *)
(** ** Section-level search *)
(* ===================================================================== *)

(** The keys a validated dictionary can hold. *)
Lemma criteria_keys (d : dict) (k : string) (v : value) :
  validated d -> In (k, v) d ->
  k = "time_start" \/ k = "time_end" \/ k = "enrollment" \/ k = "dept"
  \/ k = "terms" \/ k = "day" \/ k = "building_code" \/ k = "walking_time".
Proof.
  intros V Hin.
  assert (Hk : mem k acceptable_keys = true).
  { pose proof (v_keys d V) as Hk. unfold issubset in Hk.
    rewrite forallb_forall in Hk. apply Hk. unfold keys.
    apply in_map_iff. now exists (k, v). }
  unfold mem, acceptable_keys in Hk. cbn [existsb] in Hk.
  repeat (apply orb_true_iff in Hk; destruct Hk as [Hk | Hk]);
    try discriminate Hk; apply String.eqb_eq in Hk; subst k; tauto.
Qed.

(** On a joined row each predicate holds exactly when its item is
    satisfied. *)
Lemma holds_iff_criterion (d : dict) (db : database) (k : string) (v : value)
    (p : pred) (chunk : list sqlval) (crs : course) (s : section)
    (m : meeting_pattern) (g : gps_row) (wt : option Z) :
  validated d -> wf_dict d ->
  k <> "building_code" -> k <> "walking_time" ->
  NoDup (catalog_index db) ->
  (forall t, lookup "terms" d = Some t -> NoDup (strings_of (elements t))) ->
  In (k, v) d ->
  pred_of_key (n_day d) (n_terms d) k = Some p ->
  adapt_all (bound_values (k, v)) = ok chunk ->
  holds db p chunk
    {| r_course := crs; r_section := Some (s, m, g); r_walking_time := wt |}
  = true
  <-> criterion_holds db k v crs s m.
Proof.
  intros V Hwf Hnb Hnw Hnd Hdist Hin Hp Ha.
  pose proof (in_lookup k d v Hwf Hin) as Hl.
  destruct (criteria_keys d k v V Hin)
    as [-> | [-> | [-> | [-> | [-> | [-> | [-> | ->]]]]]]];
    try (now exfalso; apply Hnb); try (now exfalso; apply Hnw);
    cbn in Hp; injection Hp as <-; unfold criterion_holds;
    cbn [String.eqb Ascii.eqb Bool.eqb].
  - (* time_start *)
    pose proof (v_time_start d V v Hl) as Hval.
    unfold is_nonneg_integer in Hval.
    destruct (int_value v) as [n |] eqn:En; [| discriminate Hval].
    assert (Hb : bound_values ("time_start", v) = [v]) by (now destruct v).
    rewrite Hb in Ha. apply adapt_all_one in Ha. destruct Ha as [x [Hx ->]].
    rewrite (adapt_int v n x En Hx). cbn [holds r_section int_cmp].
    rewrite Z.geb_le. split.
    + intros H. now exists n.
    + intros [n' [E H]]. injection E as <-. exact H.
  - (* time_end *)
    pose proof (v_time_end d V v Hl) as Hval.
    unfold is_integer_below_2400 in Hval.
    destruct (int_value v) as [n |] eqn:En; [| discriminate Hval].
    assert (Hb : bound_values ("time_end", v) = [v]) by (now destruct v).
    rewrite Hb in Ha. apply adapt_all_one in Ha. destruct Ha as [x [Hx ->]].
    rewrite (adapt_int v n x En Hx). cbn [holds r_section int_cmp].
    rewrite Z.leb_le. split.
    + intros H. now exists n.
    + intros [n' [E H]]. injection E as <-. exact H.
  - (* enrollment *)
    pose proof (v_enrollment d V v Hl) as Hval.
    destruct v as [| | | | | l | l]; try discriminate Hval; [| discriminate Ha].
    destruct l as [| a [| b [| x l]]]; try discriminate Hval.
    cbn [is_enrollment_pair] in Hval.
    destruct (int_value a) as [lo |] eqn:Ea; [| discriminate Hval].
    destruct (int_value b) as [hi |] eqn:Eb; [| discriminate Hval].
    cbn [bound_values type_is_list String.eqb Ascii.eqb Bool.eqb elements] in Ha.
    cbn [adapt_all] in Ha.
    destruct (adapt a) as [e1 | x] eqn:Ex; [discriminate Ha |].
    destruct (adapt b) as [e2 | y] eqn:Ey; [discriminate Ha |].
    cbn in Ha. unfold ok in Ha. injection Ha as <-.
    rewrite (adapt_int a lo x Ea Ex), (adapt_int b hi y Eb Ey).
    cbn [holds r_section int_cmp elements].
    rewrite andb_true_iff, Z.geb_le, Z.leb_le. split.
    + intros [H1 H2]. exists a, b, lo, hi. repeat split; assumption.
    + intros [a' [b' [lo' [hi' [E [Ha' [Hb' [H1 H2]]]]]]]].
      injection E as <- <-. rewrite Ea in Ha'. rewrite Eb in Hb'.
      injection Ha' as <-. injection Hb' as <-. now split.
  - (* dept *)
    pose proof (v_dept d V v Hl) as Hs. destruct v; try discriminate Hs.
    cbn in Ha. unfold ok in Ha. injection Ha as <-. cbn.
    rewrite String.eqb_eq. split; [now intros -> | intros H; now injection H].
  - (* terms *)
    pose proof (v_terms d V v Hl) as Hval.
    assert (En : n_terms d = size v) by (unfold n_terms, get; now rewrite Hl).
    destruct v as [| | | | | ts | ts]; try discriminate Hval; [| discriminate Ha].
    assert (Hstr : all_str ts = true)
      by (destruct ts; [discriminate Hval | exact Hval]).
    rewrite En. cbn [size elements]. split.
    + intros Hh t Ht.
      pose proof (holds_terms db ts chunk _ Hstr Ha Hh) as Hcount.
      cbn [r_course] in Hcount.
      apply (all_terms_indexed db _ (strings_of ts) Hnd).
      * now rewrite Hcount, (strings_of_length ts Hstr).
      * now apply strings_of_in.
    + intros Hall.
      apply (holds_terms_of_count db ts chunk _ Hstr); try assumption.
      * intros ->. discriminate Hval.
      * cbn [r_course]. rewrite <- (strings_of_length ts Hstr).
        apply (all_indexed_count db _ (strings_of ts) Hnd).
        -- exact (Hdist (PyList ts) Hl).
        -- intros t Ht. apply Hall. now apply strings_of_from.
  - (* day *)
    pose proof (v_day d V v Hl) as Hval.
    destruct v as [| | | | | l | l]; try discriminate Hval; [| discriminate Ha].
    cbn [bound_values type_is_list String.eqb Ascii.eqb Bool.eqb elements] in Ha.
    rewrite (adapt_all_strings l chunk Hval Ha).
    cbn [holds r_section elements]. rewrite existsb_exists. split.
    + intros [x [Hx Hh]]. apply in_map_iff in Hx. destruct Hx as [code [<- Hc]].
      cbn in Hh. apply String.eqb_eq in Hh. rewrite Hh.
      now apply strings_of_from.
    + intros H. exists (Text (day m)). split.
      * apply in_map. now apply strings_of_in.
      * cbn. apply String.eqb_refl.
Qed.

(** X2.  Section-level search without a reference building.  For a
    validated dictionary with a section-scoped key and no
    [building_code], whose values can be bound and whose terms are
    distinct, within the placeholders the connection allows, on an
    index without repeated rows: the call succeeds with the header of
    the eight section columns; every row is the row of a section,
    joined to its course, its meeting pattern and a gps row of its
    building, that satisfies every item; every such section has its row
    returned, or a row that DISTINCT does not tell apart from it; and
    DISTINCT tells any two rows returned apart. *)
Theorem section_level_search
    (compute_time_between : value -> value -> value -> value -> result Z)
    (d : dict) (c : connection) :
  assert_valid_input d = ok tt ->
  wf_dict d ->
  section_scoped d = true ->
  contains_key "building_code" d = false ->
  (forall k v, In (k, v) d -> bindable v = true) ->
  Z.of_nat (count_placeholders (main_query d))
  <= Z.pos (variable_limit (data c)) ->
  (forall t, lookup "terms" d = Some t -> NoDup (strings_of (elements t))) ->
  NoDup (catalog_index (data c)) ->
  exists rows,
    fst (find_courses compute_time_between d c)
    = ok (header_of SectionColumns, rows)
    /\ NoDup (map (map value_key) rows)
    /\ (forall row,
          In row rows ->
          exists crs s m g,
            In (crs, s, m, g) (joined_rows (data c))
            /\ row = section_row crs s m
            /\ forall k v, In (k, v) d ->
                           criterion_holds (data c) k v crs s m)
    /\ (forall crs s m g,
          In (crs, s, m, g) (joined_rows (data c)) ->
          (forall k v, In (k, v) d -> criterion_holds (data c) k v crs s m) ->
          exists row, In row rows /\ same_row row (section_row crs s m)).
Proof.
  intros Hok Hwf Hsc Hnb Hbind Hlim Hdist Hnd.
  pose proof (validated_of_ok d Hok) as V.
  assert (Hne : d <> []) by (intros ->; discriminate Hsc).
  assert (Hlk : lookup "building_code" d = None).
  { unfold contains_key in Hnb. now destruct (lookup "building_code" d). }
  assert (Hsel : select_list_of d = SectionColumns)
    by (unfold select_list_of; now rewrite Hsc, Hnb).
  destruct (find_courses_by_selected compute_time_between d c [] []
              Hne Hok Hwf Hbind Hlim)
    as [ps [c2 [Hps [Hd [_ [Hres _]]]]]];
    [intros b E; rewrite Hlk in E; discriminate E | reflexivity | reflexivity |].
  rewrite Hres. unfold selected.
  cbn [main_statement st_select st_joined st_preds app].
  rewrite Hsel, Hsc, Hd. cbn [rbind ok select_arity skipn].
  eexists. split; [reflexivity |].
  assert (Hitems :
            forall crs s m g,
              all_hold (data c) (preds_of d) ps
                {| r_course := crs; r_section := Some (s, m, g);
                   r_walking_time := None |} = true
              <-> forall k v, In (k, v) d ->
                              criterion_holds (data c) k v crs s m).
  { intros crs s m g. split.
    - intros Hall k v Hkv.
      assert (Hkb : String.eqb k "building_code" = false).
      { destruct (String.eqb k "building_code") eqn:E; [| reflexivity].
        apply String.eqb_eq in E. subst k.
        now rewrite (in_contains_key d _ v Hkv) in Hnb. }
      assert (Hk : mem k acceptable_keys = true).
      { pose proof (v_keys d V) as Hk. unfold issubset in Hk.
        rewrite forallb_forall in Hk. apply Hk. unfold keys.
        apply in_map_iff. now exists (k, v). }
      destruct (acceptable_key_has_pred (n_day d) (n_terms d) k Hk Hkb) as [p Hp].
      destruct (all_hold_items d (data c) _ V Hwf (predicate_items d) ps
                  (predicate_items_incl d) (predicate_items_not_building d)
                  Hps Hall k v p) as [chunk [Ha Hh]];
        [unfold predicate_items; apply filter_In; split;
         [assumption | cbn [fst]; now rewrite Hkb]
        | assumption |].
      apply (holds_iff_criterion d (data c) k v p chunk crs s m g None);
        try assumption.
      + intros ->. discriminate Hkb.
      + intros ->. pose proof (in_contains_key d _ v Hkv) as Hw.
        rewrite <- (v_both d V) in Hw. congruence.
    - intros Hall.
      apply (all_hold_of_items d (data c) _ V Hwf (predicate_items d) ps
               (predicate_items_incl d) (predicate_items_not_building d) Hps).
      intros k v p chunk Hkv Hp Ha. apply predicate_items_incl in Hkv.
      apply (holds_iff_criterion d (data c) k v p chunk crs s m g None);
        try assumption.
      + intros ->. now rewrite (in_contains_key d _ v Hkv) in Hnb.
      + intros ->. pose proof (in_contains_key d _ v Hkv) as Hw.
        rewrite <- (v_both d V) in Hw. congruence.
      + now apply Hall. }
  destruct (fetched_rows SectionColumns
              (filter (all_hold (data c) (preds_of d) ps)
                      (from_rows (data c) true)))
    as [Hnodup [Hsound Hcomplete]].
  split; [exact Hnodup |]. split.
  - intros row Hin. destruct (Hsound row Hin) as [r [Hr ->]].
    apply filter_In in Hr. destruct Hr as [Hr Hall].
    apply from_rows_joined in Hr. destruct Hr as [crs [s [m [g [Hj ->]]]]].
    exists crs, s, m, g. split; [assumption |]. split; [reflexivity |].
    now apply (Hitems crs s m g).
  - intros crs s m g Hj Hcond.
    apply (Hcomplete {| r_course := crs; r_section := Some (s, m, g);
                        r_walking_time := None |}).
    apply filter_In. split.
    + apply from_rows_joined. now exists crs, s, m, g.
    + now apply Hitems.
Qed.

(* ===================================================================== *)
(** ** Search around a reference building *)
(* ===================================================================== *)

(** The row returned for a section with its walking time. *)
Lemma walking_row (crs : course) (s : section) (m : meeting_pattern)
    (g : gps_row) (w : Z) :
  map to_python
    (project WalkingColumns
       {| r_course := crs; r_section := Some (s, m, g);
          r_walking_time := Some w |})
  = (section_row crs s m ++ [PyStr (section_building_code s); PyInt w])%list.
Proof. reflexivity. Qed.

(** X3.  Search around a reference building.  For a validated
    dictionary with [building_code] and [walking_time], whose building
    has a gps row, whose values can be bound and whose terms are
    distinct, within the placeholders the connection allows, on an
    index without repeated rows, and when for every gps row the walking
    time to the first gps row of the reference building is computed
    without an exception and within 64 bits: the call succeeds with the
    header of the ten columns; every row is the row of a joined section
    that satisfies every other item and lies within the walking time
    asked for, followed by its building and that walking time; every
    such section has its row returned, or a row that DISTINCT does not
    tell apart from it; and DISTINCT tells any two rows returned
    apart. *)
Theorem walking_search
    (compute_time_between : value -> value -> value -> value -> result Z)
    (d : dict) (c : connection) (b : string) (v : value) (n : Z)
    (ref_lon ref_lat : value) (others : list row) :
  assert_valid_input d = ok tt ->
  wf_dict d ->
  lookup "building_code" d = Some (PyStr b) ->
  lookup "walking_time" d = Some v ->
  int_value v = Some n ->
  coordinates c b = [ref_lon; ref_lat] :: others ->
  fits64 ref_lon = true ->
  fits64 ref_lat = true ->
  (forall k v, In (k, v) d -> bindable v = true) ->
  Z.of_nat (count_placeholders (main_query d))
  <= Z.pos (variable_limit (data c)) ->
  (forall t, lookup "terms" d = Some t -> NoDup (strings_of (elements t))) ->
  NoDup (catalog_index (data c)) ->
  (forall g, In g (gps (data c)) ->
     exists w, compute_time_between (to_python (lon g)) (to_python (lat g))
                 ref_lon ref_lat = ok w
               /\ int64 w = true) ->
  exists rows,
    fst (find_courses compute_time_between d c)
    = ok (header_of WalkingColumns, rows)
    /\ NoDup (map (map value_key) rows)
    /\ (forall row,
          In row rows ->
          exists crs s m g w,
            In (crs, s, m, g) (joined_rows (data c))
            /\ compute_time_between (to_python (lon g)) (to_python (lat g))
                 ref_lon ref_lat = ok w
            /\ w <= n
            /\ row = (section_row crs s m
                      ++ [PyStr (section_building_code s); PyInt w])%list
            /\ forall k v, In (k, v) d ->
                           criterion_holds (data c) k v crs s m)
    /\ (forall crs s m g w,
          In (crs, s, m, g) (joined_rows (data c)) ->
          compute_time_between (to_python (lon g)) (to_python (lat g))
            ref_lon ref_lat = ok w ->
          w <= n ->
          (forall k v, In (k, v) d -> criterion_holds (data c) k v crs s m) ->
          exists row,
            In row rows
            /\ same_row row
                 (section_row crs s m
                  ++ [PyStr (section_building_code s); PyInt w])%list).
Proof.
  intros Hok Hwf Hb Hl Hn Hco Hflon Hflat Hbind Hlim Hdist Hnd Htot.
  pose proof (validated_of_ok d Hok) as V.
  assert (Hne : d <> []) by (intros ->; discriminate Hb).
  pose proof (present_section_scoped d "walking_time" v ltac:(cbn; tauto) Hl)
    as Hsc.
  assert (Hsel : select_list_of d = WalkingColumns).
  { unfold select_list_of, contains_key. now rewrite Hsc, Hb. }
  destruct (reference_bound c b ref_lon ref_lat others Hco Hflon Hflat)
    as [x [y [Hxy [Ex Ey]]]].
  destruct (find_courses_by_selected compute_time_between d c
              [ref_lon; ref_lat] [x; y] Hne Hok Hwf Hbind Hlim)
    as [ps [c2 [Hps [Hd [Hreg [Hres _]]]]]].
  { intros b' E. rewrite Hb in E. injection E as <-. now exists others. }
  { rewrite Hb. discriminate. }
  { exact Hxy. }
  rewrite Hres. cbn [app].
  assert (Hcalls : forall g, In g (gps (data c2)) ->
                    exists w, call (time_between compute_time_between) g x y
                              = Some w).
  { intros g Hg. rewrite Hd in Hg. destruct (Htot g Hg) as [w [Hw H64]].
    exists w. apply call_value. cbn [time_between]. rewrite Ex, Ey.
    now split. }
  destruct (selected_walking_total c2 (main_statement d)
              (time_between compute_time_between) x y ps Hsel Hsc Hreg Hcalls)
    as [frows [Hfrows Hiff]].
  rewrite Hfrows. cbn [rbind ok]. rewrite Hd in Hiff.
  cbn [main_statement st_preds] in Hiff. rewrite Hsel.
  eexists. split; [reflexivity |].
  assert (Hbv : bound_values ("walking_time", v) = [v]) by (now destruct v).
  assert (Hitems :
            forall crs s m g w,
              all_hold (data c) (preds_of d) ps
                {| r_course := crs; r_section := Some (s, m, g);
                   r_walking_time := Some w |} = true
              <-> (w <= n
                   /\ forall k v, In (k, v) d ->
                                  criterion_holds (data c) k v crs s m)).
  { intros crs s m g w. split.
    - intros Hall.
      pose proof (all_hold_items d (data c) _ V Hwf (predicate_items d) ps
                    (predicate_items_incl d) (predicate_items_not_building d)
                    Hps Hall) as Hitem.
      split.
      + destruct (Hitem "walking_time" v WalkingTimeLe) as [chunk [Hc Hh]];
          [unfold predicate_items; apply filter_In; split;
           [now apply lookup_in | reflexivity]
          | reflexivity |].
        rewrite Hbv in Hc. apply adapt_all_one in Hc.
        destruct Hc as [z [Hz ->]].
        rewrite (adapt_int v n z Hn Hz) in Hh. cbn [holds r_walking_time] in Hh.
        cbn [int_cmp] in Hh. now apply Z.leb_le in Hh.
      + intros k v' Hkv.
        destruct (String.eqb k "building_code") eqn:Hkb;
          [apply String.eqb_eq in Hkb; subst k; exact I |].
        destruct (String.eqb k "walking_time") eqn:Hkw;
          [apply String.eqb_eq in Hkw; subst k; exact I |].
        assert (Hk : mem k acceptable_keys = true).
        { pose proof (v_keys d V) as Hk. unfold issubset in Hk.
          rewrite forallb_forall in Hk. apply Hk. unfold keys.
          apply in_map_iff. now exists (k, v'). }
        destruct (acceptable_key_has_pred (n_day d) (n_terms d) k Hk Hkb)
          as [p Hp].
        destruct (Hitem k v' p) as [chunk [Ha Hh]];
          [unfold predicate_items; apply filter_In; split;
           [assumption | cbn [fst]; now rewrite Hkb]
          | assumption |].
        apply (holds_iff_criterion d (data c) k v' p chunk crs s m g (Some w));
          try assumption.
        * intros ->. discriminate Hkb.
        * intros ->. discriminate Hkw.
    - intros [Hw Hall].
      apply (all_hold_of_items d (data c) _ V Hwf (predicate_items d) ps
               (predicate_items_incl d) (predicate_items_not_building d) Hps).
      intros k v' p chunk Hkv Hp Ha.
      pose proof (predicate_items_not_building d (k, v') Hkv) as Hkb.
      cbn [fst] in Hkb.
      apply predicate_items_incl in Hkv.
      destruct (String.eqb k "walking_time") eqn:Hkw.
      + apply String.eqb_eq in Hkw. subst k.
        pose proof (in_lookup _ d v' Hwf Hkv) as Hl'.
        rewrite Hl in Hl'. injection Hl' as <-.
        cbn in Hp. injection Hp as <-.
        rewrite Hbv in Ha. apply adapt_all_one in Ha.
        destruct Ha as [z [Hz ->]].
        rewrite (adapt_int v n z Hn Hz). cbn [holds r_walking_time int_cmp].
        now apply Z.leb_le.
      + apply (holds_iff_criterion d (data c) k v' p chunk crs s m g (Some w));
          try assumption.
        * intros ->. discriminate Hkb.
        * intros ->. discriminate Hkw.
        * now apply Hall. }
  assert (Hcall :
            forall g w,
              call (time_between compute_time_between) g x y = Some w ->
              compute_time_between (to_python (lon g)) (to_python (lat g))
                ref_lon ref_lat = ok w).
  { intros g w H. apply call_value in H. destruct H as [H _].
    cbn [time_between] in H. now rewrite Ex, Ey in H. }
  destruct (fetched_rows WalkingColumns frows) as [Hnodup [Hsound Hcomplete]].
  split; [exact Hnodup |]. split.
  - intros row Hin. destruct (Hsound row Hin) as [r [Hr ->]].
    apply Hiff in Hr. destruct Hr as [crs [s [m [g [w [Hj [Hc [-> Hall]]]]]]]].
    apply Hitems in Hall. destruct Hall as [Hw Hall].
    exists crs, s, m, g, w. split; [assumption |].
    split; [now apply Hcall |]. split; [assumption |].
    split; [apply walking_row | assumption].
  - intros crs s m g w Hj Hw Hle Hcond.
    rewrite <- (walking_row crs s m g w).
    apply Hcomplete. apply Hiff. exists crs, s, m, g, w.
    split; [assumption |]. split.
    + apply call_value. cbn [time_between]. rewrite Ex, Ey. split; [exact Hw |].
      apply joined_rows_in in Hj. destruct Hj as [_ [_ [_ [Hg _]]]].
      destruct (Htot g Hg) as [w' [Hw' H64]]. rewrite Hw in Hw'.
      unfold ok in Hw'. now injection Hw' as <-.
    + split; [reflexivity |]. now apply Hitems.
Qed.

(* ===================================================================== *)
(** ** Sections and the coordinates of their building *)
(* ===================================================================== *)

(** X10.  With any section-scoped key every returned row is a section joined
    to its course, to its meeting pattern and to a gps row of its
    building: a section whose building has no gps row is never
    returned, whether or not a reference building is given. *)
Theorem returned_sections_have_coordinates
    (compute_time_between : value -> value -> value -> value -> result Z)
    (d : dict) (c c' : connection) (header : list string) (rows : list row)
    (row : row) :
  assert_valid_input d = ok tt ->
  wf_dict d ->
  section_scoped d = true ->
  find_courses compute_time_between d c = (ok (header, rows), c') ->
  In row rows ->
  exists crs s m g,
    In crs (courses (data c)) /\ In s (sections (data c))
    /\ In m (meeting_patterns (data c)) /\ In g (gps (data c))
    /\ course_id crs = section_course_id s
    /\ section_meeting_pattern_id s = meeting_pattern_id m
    /\ gps_building_code g = section_building_code s
    /\ firstn 8 row = section_row crs s m.
Proof.
  intros Hok Hwf Hsc Hfc Hin.
  destruct (returned_row _ d c c' header rows row Hok Hwf Hfc Hin)
    as [r [args0 [c2 [ps [frows
         [-> [_ [Hdata [_ [_ [_ [_ [Hfrom [Hr _]]]]]]]]]]]]]].
  destruct (selected_joined c2 d ps frows r Hsc Hfrom Hr)
    as [s [m [g [Hj Hs]]]].
  rewrite Hdata in Hj. apply joined_rows_in in Hj.
  destruct Hj as [H1 [H2 [H3 [H4 [H5 [H6 H7]]]]]].
  exists (r_course r), s, m, g.
  repeat (split; [assumption |]).
  destruct (scoped_select_list d Hsc) as [-> | ->]; unfold project; rewrite Hs;
    reflexivity.
Qed.

(* ===================================================================== *)
(** ** What a call depends on *)
(* ===================================================================== *)

Lemma run_query_same_data (c1 c2 : connection) (st : statement)
    (params : list value) :
  data c1 = data c2 ->
  registered "time_between" 4 c1 = registered "time_between" 4 c2 ->
  run_query c1 st params = run_query c2 st params.
Proof.
  intros Hd Hr. unfold run_query, resolves, selected.
  now rewrite Hd, Hr.
Qed.

Lemma main_step_same_data (d : dict) (args0 : list value)
    (c1 c2 : connection) :
  validated d ->
  data c1 = data c2 ->
  registered "time_between" 4 c1 = registered "time_between" 4 c2 ->
  fst (main_step d args0 c1) = fst (main_step d args0 c2).
Proof.
  intros V Hd Hr. unfold main_step. cbn [fst].
  rewrite !(run_main_query d _ _ V).
  now rewrite (run_query_same_data c1 c2 _ _ Hd Hr).
Qed.

(** X17.  The outcome of a call, result or exception, depends on the
    connection through its data only: neither the functions registered
    nor the statements executed before the call change it.  So a search
    gives the same outcome after any number of earlier searches. *)
Theorem outcome_depends_on_data_only
    (compute_time_between : value -> value -> value -> value -> result Z)
    (d : dict) (c c' : connection) :
  data c = data c' ->
  fst (find_courses compute_time_between d c)
  = fst (find_courses compute_time_between d c').
Proof.
  intros Hd.
  destruct d as [| kv d]; [reflexivity |].
  assert (Hne : kv :: d <> []) by discriminate.
  destruct (assert_valid_input (kv :: d)) as [e | []] eqn:Hok.
  - now rewrite !(find_courses_invalid _ _ _ e Hne Hok).
  - pose proof (validated_of_ok _ Hok) as V.
    rewrite !(find_courses_validated _ _ _ Hne Hok).
    destruct (section_scoped (kv :: d)).
    + destruct (lookup "building_code" (kv :: d)) as [[| | | | b | |] |];
        try (now apply main_step_same_data).
      rewrite !(coordinates_prepared compute_time_between).
      unfold coordinates. rewrite Hd.
      destruct (map _ _) as [| lonlat rest]; [reflexivity |].
      now apply main_step_same_data.
    + now apply main_step_same_data.
Qed.

(* ===================================================================== *)
(** ** The properties on the example store *)
(* ===================================================================== *)

Lemma wf_one_item (k : string) (v : value) : wf_dict [(k, v)].
Proof. repeat constructor. intros []. Defined.

Lemma wf_criteria_walking : wf_dict criteria_walking.
Proof.
  repeat constructor; cbn; intros H;
    repeat (destruct H as [H | H]; [discriminate H |]); exact H.
Defined.

Lemma rows_match_dept_witness :
  fst (find_courses five_minutes criteria_dept fresh_connection)
  = ok (course_header, [row_cmsc])
  /\ field course_header row_cmsc "dept" = Some (PyStr "CMSC").
Proof.
  split; [reflexivity |].
  exact (rows_match_dept five_minutes criteria_dept fresh_connection
           (snd (find_courses five_minutes criteria_dept fresh_connection))
           course_header [row_cmsc] row_cmsc "CMSC"
           eq_refl (wf_one_item _ _) eq_refl eq_refl (or_introl eq_refl)).
Defined.

Lemma rows_start_no_earlier_witness :
  fst (find_courses five_minutes criteria_time_start fresh_connection)
  = ok (section_header, [row_section_cmsc])
  /\ exists t,
       field section_header row_section_cmsc "time_start" = Some (PyInt t)
       /\ 900 <= t.
Proof.
  split; [reflexivity |].
  exact (rows_start_no_earlier five_minutes criteria_time_start
           fresh_connection
           (snd (find_courses five_minutes criteria_time_start fresh_connection))
           section_header [row_section_cmsc] row_section_cmsc (PyInt 900) 900
           eq_refl (wf_one_item _ _) eq_refl eq_refl eq_refl
           (or_introl eq_refl)).
Defined.

Lemma rows_end_no_later_witness :
  fst (find_courses five_minutes criteria_time_end fresh_connection)
  = ok (section_header, [row_section_cmsc])
  /\ exists t,
       field section_header row_section_cmsc "time_end" = Some (PyInt t)
       /\ t <= 1100.
Proof.
  split; [reflexivity |].
  exact (rows_end_no_later five_minutes criteria_time_end fresh_connection
           (snd (find_courses five_minutes criteria_time_end fresh_connection))
           section_header [row_section_cmsc] row_section_cmsc (PyInt 1100) 1100
           eq_refl (wf_one_item _ _) eq_refl eq_refl eq_refl
           (or_introl eq_refl)).
Defined.

Lemma rows_meet_on_a_listed_day_witness :
  fst (find_courses five_minutes criteria_day fresh_connection)
  = ok (section_header, [row_section_cmsc])
  /\ exists code,
       field section_header row_section_cmsc "day" = Some (PyStr code)
       /\ In (PyStr code) [PyStr "MWF"; PyStr "TR"].
Proof.
  split; [reflexivity |].
  exact (rows_meet_on_a_listed_day five_minutes criteria_day fresh_connection
           (snd (find_courses five_minutes criteria_day fresh_connection))
           section_header [row_section_cmsc] row_section_cmsc
           (PyList [PyStr "MWF"; PyStr "TR"])
           eq_refl (wf_one_item _ _) eq_refl eq_refl (or_introl eq_refl)).
Defined.

Lemma rows_enrollment_within_bounds_witness :
  fst (find_courses five_minutes criteria_enrollment fresh_connection)
  = ok (section_header, [row_section_cmsc])
  /\ exists e,
       field section_header row_section_cmsc "enrollment" = Some (PyInt e)
       /\ 10 <= e <= 40.
Proof.
  split; [reflexivity |].
  exact (rows_enrollment_within_bounds five_minutes criteria_enrollment
           fresh_connection
           (snd (find_courses five_minutes criteria_enrollment fresh_connection))
           section_header [row_section_cmsc] row_section_cmsc
           (PyList [PyInt 10; PyInt 40]) (PyInt 10) (PyInt 40) 10 40
           eq_refl (wf_one_item _ _) eq_refl eq_refl eq_refl eq_refl eq_refl
           (or_introl eq_refl)).
Defined.

Lemma rows_within_walking_time_witness :
  fst (find_courses five_minutes criteria_walking fresh_connection)
  = ok (header_of WalkingColumns, [row_walking_cmsc])
  /\ exists w s g ref_lon ref_lat others,
       field (header_of WalkingColumns) row_walking_cmsc "walking_time"
       = Some (PyInt w)
       /\ w <= 10
       /\ field (header_of WalkingColumns) row_walking_cmsc "building_code"
          = Some (PyStr (section_building_code s))
       /\ In s (sections campus)
       /\ In g (gps campus)
       /\ gps_building_code g = section_building_code s
       /\ coordinates fresh_connection "RY" = [ref_lon; ref_lat] :: others
       /\ five_minutes (to_python (lon g)) (to_python (lat g)) ref_lon ref_lat
          = ok w.
Proof.
  split; [reflexivity |].
  exact (rows_within_walking_time five_minutes criteria_walking
           fresh_connection
           (snd (find_courses five_minutes criteria_walking fresh_connection))
           (header_of WalkingColumns) [row_walking_cmsc] row_walking_cmsc
           (PyInt 10) 10 "RY"
           eq_refl wf_criteria_walking eq_refl eq_refl eq_refl eq_refl
           (or_introl eq_refl)).
Defined.

Lemma result_shape_witness :
  fst (find_courses five_minutes criteria_walking fresh_connection)
  = ok (header_of WalkingColumns, [row_walking_cmsc])
  /\ header_of WalkingColumns = header_of (select_list_of criteria_walking)
  /\ (forall row, In row [row_walking_cmsc] ->
                  List.length row = List.length (header_of WalkingColumns))
  /\ NoDup [row_walking_cmsc].
Proof.
  split; [reflexivity |].
  apply (result_shape five_minutes criteria_walking fresh_connection
           (snd (find_courses five_minutes criteria_walking fresh_connection))
           (header_of WalkingColumns) [row_walking_cmsc]).
  - discriminate.
  - reflexivity.
  - reflexivity.
Defined.

Lemma invalid_criteria_reach_no_query_witness :
  violates_constraints criteria_walking_time_text = true
  /\ fst (find_courses five_minutes criteria_walking_time_text fresh_connection)
     = raise AssertionError
  /\ issued fresh_connection
       (snd (find_courses five_minutes criteria_walking_time_text
               fresh_connection))
     = [].
Proof.
  split; [reflexivity |].
  apply (invalid_criteria_reach_no_query five_minutes
           criteria_walking_time_text fresh_connection).
  - discriminate.
  - reflexivity.
Defined.

Lemma statements_of_a_call_witness :
  issued fresh_connection
    (snd (find_courses five_minutes criteria_walking fresh_connection))
  = [(lookup_sql, [PyStr "RY"]);
     (main_query criteria_walking,
      [PyFloat 13859236727634111391; PyFloat 4631078194726622043;
       PyInt 10])]
  /\ ((contains_key "building_code" criteria_walking = false
       /\ issued fresh_connection
            (snd (find_courses five_minutes criteria_walking fresh_connection))
          = [(main_query criteria_walking, where_args criteria_walking)])
      \/ (exists b,
            lookup "building_code" criteria_walking = Some (PyStr b)
            /\ coordinates fresh_connection b = []
            /\ issued fresh_connection
                 (snd (find_courses five_minutes criteria_walking
                         fresh_connection))
               = [(lookup_sql, [PyStr b])])
      \/ (exists b ref others,
            lookup "building_code" criteria_walking = Some (PyStr b)
            /\ coordinates fresh_connection b = ref :: others
            /\ issued fresh_connection
                 (snd (find_courses five_minutes criteria_walking
                         fresh_connection))
               = [(lookup_sql, [PyStr b]);
                  (main_query criteria_walking,
                   (ref ++ where_args criteria_walking)%list)])).
Proof.
  split; [reflexivity |].
  apply (statements_of_a_call five_minutes criteria_walking fresh_connection).
  - discriminate.
  - reflexivity.
Defined.

Lemma exceptions_of_a_call_witness :
  fst (find_courses five_minutes criteria_unknown_building fresh_connection)
  = raise IndexError
  /\ ((IndexError = AssertionError /\ criteria_unknown_building <> []
       /\ violates_constraints criteria_unknown_building = true)
      \/ (IndexError = IndexError
          /\ assert_valid_input criteria_unknown_building = ok tt
          /\ exists b,
               lookup "building_code" criteria_unknown_building
               = Some (PyStr b)
               /\ coordinates fresh_connection b = [])
      \/ ((IndexError = sqlite3_Error \/ IndexError = OverflowError)
          /\ assert_valid_input criteria_unknown_building = ok tt
          /\ exists a,
               In (main_query criteria_unknown_building, a)
                  (issued fresh_connection
                     (snd (find_courses five_minutes
                             criteria_unknown_building fresh_connection))))).
Proof.
  split; [reflexivity |].
  exact (exceptions_of_a_call five_minutes criteria_unknown_building
           fresh_connection IndexError eq_refl).
Defined.

Lemma query_text_ignores_values_witness :
  In (main_query criteria_dept, [PyStr "CMSC"])
     (issued fresh_connection
        (snd (find_courses five_minutes criteria_dept fresh_connection)))
  /\ In (main_query criteria_dept_phil, [PyStr "PHIL"])
        (issued indexed_twice
           (snd (find_courses five_minutes criteria_dept_phil indexed_twice)))
  /\ main_query criteria_dept = main_query criteria_dept_phil.
Proof.
  split; [left; reflexivity |]. split; [left; reflexivity |].
  apply (query_text_ignores_values five_minutes criteria_dept
           criteria_dept_phil fresh_connection indexed_twice
           (main_query criteria_dept) (main_query criteria_dept_phil)
           [PyStr "CMSC"] [PyStr "PHIL"]).
  - discriminate.
  - reflexivity.
  - reflexivity.
  - reflexivity.
  - reflexivity.
  - reflexivity.
  - left; reflexivity.
  - left; reflexivity.
  - intros H; vm_compute in H; discriminate H.
  - intros H; vm_compute in H; discriminate H.
Defined.

Lemma course_level_search_witness :
  exists rows,
    fst (find_courses five_minutes criteria_two_terms fresh_connection)
    = ok (["dept"; "course_num"; "title"], rows)
    /\ NoDup (map (map value_key) rows)
    /\ (forall row,
          In row rows ->
          exists crs,
            In crs (courses campus)
            /\ row = course_row crs
            /\ course_matches criteria_two_terms campus crs)
    /\ (forall crs,
          In crs (courses campus) ->
          course_matches criteria_two_terms campus crs ->
          exists row, In row rows /\ same_row row (course_row crs)).
Proof.
  apply (course_level_search five_minutes criteria_two_terms fresh_connection).
  - discriminate.
  - reflexivity.
  - exact wf_criteria_two_terms.
  - reflexivity.
  - intros k v [H | []]. injection H as _ <-. reflexivity.
  - vm_compute. discriminate.
  - intros v H. injection H as <-. repeat constructor; cbn.
    + intros [H | []]. discriminate H.
    + intros [].
  - exact nodup_campus_index.
Defined.

Lemma section_level_search_witness :
  exists rows,
    fst (find_courses five_minutes criteria_enrollment fresh_connection)
    = ok (header_of SectionColumns, rows)
    /\ NoDup (map (map value_key) rows)
    /\ (forall row,
          In row rows ->
          exists crs s m g,
            In (crs, s, m, g) (joined_rows campus)
            /\ row = section_row crs s m
            /\ forall k v, In (k, v) criteria_enrollment ->
                           criterion_holds campus k v crs s m)
    /\ (forall crs s m g,
          In (crs, s, m, g) (joined_rows campus) ->
          (forall k v, In (k, v) criteria_enrollment ->
                       criterion_holds campus k v crs s m) ->
          exists row, In row rows /\ same_row row (section_row crs s m)).
Proof.
  apply (section_level_search five_minutes criteria_enrollment
           fresh_connection).
  - reflexivity.
  - exact (wf_one_item _ _).
  - reflexivity.
  - reflexivity.
  - intros k v [H | []]. injection H as _ <-. reflexivity.
  - vm_compute. discriminate.
  - intros t H. discriminate H.
  - exact nodup_campus_index.
Defined.

Lemma walking_search_witness :
  exists rows,
    fst (find_courses five_minutes criteria_walking fresh_connection)
    = ok (header_of WalkingColumns, rows)
    /\ NoDup (map (map value_key) rows)
    /\ (forall row,
          In row rows ->
          exists crs s m g w,
            In (crs, s, m, g) (joined_rows campus)
            /\ five_minutes (to_python (lon g)) (to_python (lat g))
                 (PyFloat 13859236727634111391) (PyFloat 4631078194726622043)
               = ok w
            /\ w <= 10
            /\ row = (section_row crs s m
                      ++ [PyStr (section_building_code s); PyInt w])%list
            /\ forall k v, In (k, v) criteria_walking ->
                           criterion_holds campus k v crs s m)
    /\ (forall crs s m g w,
          In (crs, s, m, g) (joined_rows campus) ->
          five_minutes (to_python (lon g)) (to_python (lat g))
            (PyFloat 13859236727634111391) (PyFloat 4631078194726622043)
          = ok w ->
          w <= 10 ->
          (forall k v, In (k, v) criteria_walking ->
                       criterion_holds campus k v crs s m) ->
          exists row,
            In row rows
            /\ same_row row
                 (section_row crs s m
                  ++ [PyStr (section_building_code s); PyInt w])%list).
Proof.
  apply (walking_search five_minutes criteria_walking fresh_connection
           "RY" (PyInt 10) 10
           (PyFloat 13859236727634111391) (PyFloat 4631078194726622043) []).
  - reflexivity.
  - exact wf_criteria_walking.
  - reflexivity.
  - reflexivity.
  - reflexivity.
  - reflexivity.
  - reflexivity.
  - reflexivity.
  - intros k v [H | [H | []]]; injection H as _ <-; reflexivity.
  - vm_compute. discriminate.
  - intros t H. discriminate H.
  - exact nodup_campus_index.
  - intros g _. exists 5. split; reflexivity.
Defined.

Lemma returned_sections_have_coordinates_witness :
  fst (find_courses five_minutes criteria_enrollment fresh_connection)
  = ok (section_header, [row_section_cmsc])
  /\ exists crs s m g,
       In crs (courses campus) /\ In s (sections campus)
       /\ In m (meeting_patterns campus) /\ In g (gps campus)
       /\ course_id crs = section_course_id s
       /\ section_meeting_pattern_id s = meeting_pattern_id m
       /\ gps_building_code g = section_building_code s
       /\ firstn 8 row_section_cmsc = section_row crs s m.
Proof.
  split; [reflexivity |].
  exact (returned_sections_have_coordinates five_minutes criteria_enrollment
           fresh_connection
           (snd (find_courses five_minutes criteria_enrollment fresh_connection))
           section_header [row_section_cmsc] row_section_cmsc
           eq_refl (wf_one_item _ _) eq_refl eq_refl (or_introl eq_refl)).
Defined.

Lemma outcome_depends_on_data_only_witness :
  statements (snd (find_courses five_minutes criteria_walking fresh_connection))
  <> statements fresh_connection
  /\ fst (find_courses five_minutes criteria_dept fresh_connection)
     = fst (find_courses five_minutes criteria_dept
              (snd (find_courses five_minutes criteria_walking
                      fresh_connection))).
Proof.
  split; [discriminate |].
  exact (outcome_depends_on_data_only five_minutes criteria_dept
           fresh_connection
           (snd (find_courses five_minutes criteria_walking fresh_connection))
           eq_refl).
Defined.

(* ===================================================================== *)
(** ** The store and the walking time on examples *)
(* ===================================================================== *)

(** DISTINCT compares numbers by value: the course numbers 1 and 1.0
    make one row. *)
Lemma equal_numbers_make_one_row :
  fst (find_courses five_minutes criteria_dept (connection_to campus_numbered))
  = ok (course_header, [[PyStr "CMSC"; PyInt 1; PyStr "Programming"]]).
Proof. reflexivity. Qed.

(** A statement with more placeholders than the connection allows is
    rejected; within the limit the same search runs. *)
Lemma placeholders_beyond_the_limit :
  fst (find_courses five_minutes criteria_four_days
         (connection_to campus_three_placeholders))
  = raise sqlite3_Error
  /\ fst (find_courses five_minutes criteria_four_days fresh_connection)
     = ok (section_header, []).
Proof. split; reflexivity. Qed.

(** The walking time is computed where the result depends on it: a row
    that the department excludes does not fail the search, unless the
    planner evaluates the walking-time term there; a row that no other
    term excludes does. *)
Lemma walking_time_where_needed :
  fst (find_courses (compute_time_between small_angles) criteria_dept_walking
         (connection_to (campus_two_buildings nested_loops)))
  = ok (header_of WalkingColumns,
        [(row_section_cmsc ++ [PyStr "RY"; PyInt 0])%list])
  /\ fst (find_courses (compute_time_between small_angles)
            criteria_dept_walking
            (connection_to (campus_two_buildings everywhere)))
     = raise sqlite3_Error
  /\ fst (find_courses (compute_time_between small_angles) criteria_walking
            (connection_to (campus_two_buildings nested_loops)))
     = raise sqlite3_Error.
Proof. repeat split; vm_compute; reflexivity. Qed.

(** The rows come in the order of the scan. *)
Lemma rows_in_scan_order :
  fst (find_courses five_minutes [("terms", PyList [PyStr "plato"])]
         fresh_connection)
  = ok (course_header, [row_cmsc; row_phil])
  /\ fst (find_courses five_minutes [("terms", PyList [PyStr "plato"])]
            (connection_to (campus_two_buildings backwards)))
     = ok (course_header, [row_phil; row_cmsc]).
Proof. split; reflexivity. Qed.
